(** * AS-RUN log ingestion: decoding, segmentation, overlap guard, billboards

    A shallow embedding of the log-processing Lambda of the repository
    ([logParser.ts]: [getTimezoneForRegion], [convertToUTC], [parseLogs],
    [getBillboardsForProgram]; [index.ts] of the log processor: [mapChannel],
    [mapRegion], [parseLogFileName], [handler]) and the properties of it
    that the specification states.

    Conventions of the model.
    - A JavaScript string is a [string]; the model covers ASCII log text
      (characters above 127 are neither white space nor letters).  Outside
      ASCII [String.prototype.toUpperCase] can change the length of a
      string; a property that relies on the length or the characters of an
      upper-cased string is stated of ASCII text ([Js.isAscii]).
    - A JavaScript number that the code only builds from [parseInt] and
      integer arithmetic is an [option Z]: [None] is [NaN].
    - [string | null] is [option string]; truthiness of such a value is
      [truthyOpt] (non-null and non-empty).
    - Every [LogEntry] object carries its identity in the ghost field [oid];
      [Array.prototype.includes] on objects compares identities only.
    - The persistence store (Prisma) is an explicit state of three tables.
    - What the code takes from outside the repository is a parameter of the
      development: the time-zone database ([zoneOffset]), the built-in
      [Date] parser ([Date_parse]) and the locale formatting of a date. *)

From Stdlib Require Import List String Ascii ZArith Lia Bool Arith PeanoNat Sorted.
Import ListNotations.

Local Open Scope string_scope.
Local Open Scope list_scope.
Local Open Scope nat_scope.

(** ** JavaScript built-ins used by the code *)

Module Js.

(** White space removed by [String.prototype.trim] (ASCII part). *)
Definition isWhiteSpace (c : ascii) : bool :=
  let n := nat_of_ascii c in
  ((9 <=? n) && (n <=? 13)) || (n =? 32).

Fixpoint trimStart (s : string) : string :=
  match s with
  | EmptyString => EmptyString
  | String c s' => if isWhiteSpace c then trimStart s' else s
  end.

Fixpoint trimEnd (s : string) : string :=
  match s with
  | EmptyString => EmptyString
  | String c s' =>
      match trimEnd s' with
      | EmptyString => if isWhiteSpace c then EmptyString else String c EmptyString
      | t => String c t
      end
  end.

Definition trim (s : string) : string := trimEnd (trimStart s).

(** A string is truthy when it is not empty. *)
Definition truthy (s : string) : bool :=
  match s with EmptyString => false | _ => true end.

Definition truthyOpt (o : option string) : bool :=
  match o with Some s => truthy s | None => false end.

(** [s.substring(a, b)] for [a <= b]. *)
Definition substring (a b : nat) (s : string) : string :=
  String.substring a (b - a) s.

(** [s[i]]: the character at [i] as a one-character string. *)
Definition charAt (i : nat) (s : string) : string :=
  match String.get i s with
  | Some c => String c EmptyString
  | None => EmptyString
  end.

Definition upper (c : ascii) : ascii :=
  let n := nat_of_ascii c in
  if (97 <=? n) && (n <=? 122) then ascii_of_nat (n - 32) else c.

(** [String.prototype.toUpperCase] on ASCII text: the letters [a]..[z]
    become [A]..[Z] and nothing else changes. *)
Fixpoint toUpperCase (s : string) : string :=
  match s with
  | EmptyString => EmptyString
  | String c s' => String (upper c) (toUpperCase s')
  end.

(** Every character of [s] is an ASCII character (code below 128). *)
Fixpoint isAscii (s : string) : bool :=
  match s with
  | EmptyString => true
  | String c s' => (nat_of_ascii c <? 128) && isAscii s'
  end.

Definition startsWith (p s : string) : bool := String.prefix p s.

(** [hay.includes(needle)]. *)
Fixpoint includes (needle hay : string) : bool :=
  String.prefix needle hay ||
  match hay with
  | EmptyString => false
  | String _ hay' => includes needle hay'
  end.

(** [s.split(sep)] for a one-character separator. *)
Fixpoint split (sep : ascii) (s : string) : list string :=
  match s with
  | EmptyString => [EmptyString]
  | String c s' =>
      if Ascii.eqb c sep then EmptyString :: split sep s'
      else match split sep s' with
           | h :: t => String c h :: t
           | [] => [String c EmptyString]
           end
  end.

(** [a[i]] on an array of strings: [None] is [undefined]. *)
Definition at_ (l : list string) (i : nat) : option string := nth_error l i.

Definition decDigit (c : ascii) : option Z :=
  let n := nat_of_ascii c in
  if (48 <=? n) && (n <=? 57) then Some (Z.of_nat (n - 48)) else None.

Definition hexDigit (c : ascii) : option Z :=
  let n := nat_of_ascii c in
  if (48 <=? n) && (n <=? 57) then Some (Z.of_nat (n - 48))
  else if (97 <=? n) && (n <=? 102) then Some (Z.of_nat (n - 87))
  else if (65 <=? n) && (n <=? 70) then Some (Z.of_nat (n - 55))
  else None.

(** The longest prefix of digits in the radix, folded into a number;
    [None] when the prefix is empty. *)
Fixpoint digits (radix : Z) (dig : ascii -> option Z) (s : string)
         (acc : option Z) : option Z :=
  match s with
  | EmptyString => acc
  | String c s' =>
      match dig c with
      | Some d =>
          digits radix dig s'
                 (Some (match acc with Some a => (a * radix + d)%Z | None => d end))
      | None => acc
      end
  end.

Definition parseUnsigned (s : string) : option Z :=
  match s with
  | String "0" (String "x" s') => digits 16 hexDigit s' None
  | String "0" (String "X" s') => digits 16 hexDigit s' None
  | _ => digits 10 decDigit s None
  end.

(** [parseInt(s)] without a radix: leading white space, a sign, a [0x]
    prefix, then digits; [None] is [NaN]. *)
Definition parseInt (s : string) : option Z :=
  match trimStart s with
  | String "-" s' => option_map Z.opp (parseUnsigned s')
  | String "+" s' => parseUnsigned s'
  | s' => parseUnsigned s'
  end.

(** [parseInt(a[i])]: [parseInt(undefined)] is [NaN]. *)
Definition parseIntAt (l : list string) (i : nat) : option Z :=
  match at_ l i with Some s => parseInt s | None => None end.

(** Arithmetic and comparisons with [NaN]. *)
Definition mul (a b : option Z) : option Z :=
  match a, b with Some x, Some y => Some (x * y)%Z | _, _ => None end.
Definition add (a b : option Z) : option Z :=
  match a, b with Some x, Some y => Some (x + y)%Z | _, _ => None end.
Definition sub (a b : option Z) : option Z :=
  match a, b with Some x, Some y => Some (x - y)%Z | _, _ => None end.
Definition le (a b : option Z) : bool :=
  match a, b with Some x, Some y => (x <=? y)%Z | _, _ => false end.
Definition lt (a b : option Z) : bool :=
  match a, b with Some x, Some y => (x <? y)%Z | _, _ => false end.
Definition ge (a b : option Z) : bool := le b a.

(** Names every object literal inherits from [Object.prototype]: a lookup
    [obj[k]] with such a [k] finds the inherited member, a truthy value,
    when the literal has no own property [k]. *)
Definition Object_prototype_names : list string :=
  [ "constructor"; "__defineGetter__"; "__defineSetter__"; "hasOwnProperty";
    "__lookupGetter__"; "__lookupSetter__"; "isPrototypeOf";
    "propertyIsEnumerable"; "toString"; "valueOf"; "__proto__";
    "toLocaleString" ].

Definition inherited (k : string) : bool :=
  existsb (String.eqb k) Object_prototype_names.

End Js.

(** ** Civil-time arithmetic of the date library *)

Module Civil.
Local Open Scope Z_scope.

Definition isLeapYear (y : Z) : bool :=
  (y mod 4 =? 0) && (negb (y mod 100 =? 0) || (y mod 400 =? 0)).

Definition daysInMonth (y m : Z) : Z :=
  if m =? 2 then (if isLeapYear y then 29 else 28)
  else if (m =? 4) || (m =? 6) || (m =? 9) || (m =? 11) then 30 else 31.

(** Days since 1970-01-01 of a proleptic Gregorian date. *)
Definition daysFromCivil (y m d : Z) : Z :=
  let y' := if m <=? 2 then y - 1 else y in
  let era := y' / 400 in
  let yoe := y' - era * 400 in
  let doy := (153 * (if 2 <? m then m - 3 else m + 9) + 2) / 5 + d - 1 in
  let doe := yoe * 365 + yoe / 4 - yoe / 100 + doy in
  era * 146097 + doe - 719468.

Definition civilFromDays (z : Z) : Z * Z * Z :=
  let z' := z + 719468 in
  let era := z' / 146097 in
  let doe := z' - era * 146097 in
  let yoe := (doe - doe / 1460 + doe / 36524 - doe / 146096) / 365 in
  let doy := doe - (365 * yoe + yoe / 4 - yoe / 100) in
  let mp := (5 * doy + 2) / 153 in
  let d := doy - (153 * mp + 2) / 5 + 1 in
  let m := if mp <? 10 then mp + 3 else mp - 9 in
  let y := yoe + era * 400 + (if m <=? 2 then 1 else 0) in
  (y, m, d).

(** Milliseconds since the epoch of a civil time read as UTC. *)
Definition localMillis (y mo d h mi s : Z) : Z :=
  (((daysFromCivil y mo d * 24 + h) * 60 + mi) * 60 + s) * 1000.

Definition digitChar (d : Z) : ascii := ascii_of_nat (48 + Z.to_nat d).

(** [n] in decimal, most significant digit first, on exactly [w] digits. *)
Fixpoint pad (w : nat) (n : Z) : string :=
  match w with
  | O => EmptyString
  | S w' => (pad w' (n / 10) ++ String (digitChar (n mod 10)) EmptyString)%string
  end.

Definition isoYear (y : Z) : string :=
  if (y <? 0) then ("-" ++ pad 6 (- y))%string
  else if (9999 <? y) then ("+" ++ pad 6 y)%string
  else pad 4 y.

(** The ISO 8601 text of a UTC instant, with milliseconds and [Z]. *)
Definition toISO (ms : Z) : string :=
  let secs := ms / 1000 in
  let days := secs / 86400 in
  let sod := secs mod 86400 in
  let '(y, m, d) := civilFromDays days in
  (isoYear y ++ "-" ++ pad 2 m ++ "-" ++ pad 2 d ++ "T" ++
   pad 2 (sod / 3600) ++ ":" ++ pad 2 ((sod / 60) mod 60) ++ ":" ++
   pad 2 (sod mod 60) ++ "." ++ pad 3 (ms mod 1000) ++ "Z")%string.

End Civil.


(** ** What the code takes from its platform *)

(** [zoneOffset z l]: the offset from UTC, in minutes, that the time-zone
    database gives the IANA zone [z] at the wall-clock time [l] (milliseconds
    of the civil time read as UTC).
    [Date_parse s]: the time value of [new Date(s)], [None] for an invalid
    date.  [Date_local y m d]: the time value of [new Date(y, m, d)].
    [toLocaleDateString t]: the long en-AU rendering of a date. *)
Class Platform := {
  zoneOffset : string -> Z -> Z;
  Date_parse : string -> option Z;
  Date_local : option Z -> option Z -> option Z -> option Z;
  toLocaleDateString : option Z -> string
}.

(** The result of a call that may throw. *)
Inductive Outcome (A : Type) : Type :=
| Thrown : Outcome A
| Returned : A -> Outcome A.
Arguments Thrown {A}.
Arguments Returned {A} _.

(** ** logParser.ts *)

(** [isBillboard] is declared [string | boolean]. *)
Inductive StrOrBool : Type :=
| IsBool (b : bool)
| IsStr (s : string).

Definition truthyV (v : StrOrBool) : bool :=
  match v with
  | IsBool b => b
  | IsStr s => Js.truthy s
  end.

Inductive BillboardType : Type :=
| OpenBillboard
| MiddleBillboard
| CloseBillboard.

Record LogEntry : Type := mkLogEntry {
  oid : nat;                       (* identity of the object (ghost) *)
  lineNumber : nat;
  marketChannel : string;
  dateTime : option string;
  localDateTime : option string;
  time : option string;
  materialKey : string;
  materialType : string;
  databaseTitle : string;
  isBillboard : StrOrBool;
  billboardType : option BillboardType;
  rawLine : string
}.

Record ParsedLogData : Type := mkParsedLogData {
  billboards : list LogEntry;
  programs : list LogEntry;
  allEntries : list LogEntry
}.

(** The value of [timezoneMap[region] || "Australia/Sydney"]: a zone name,
    or the member the literal inherits under that name. *)
Inductive ZoneValue : Type :=
| ZoneName (z : string)
| ProtoMember (name : string).

Definition defaultZone : string := "Australia/Sydney".

Definition timezoneMap (region : string) : option string :=
  if String.eqb region "SYD" then Some "Australia/Sydney"
  else if String.eqb region "MEL" then Some "Australia/Melbourne"
  else if String.eqb region "BNE" then Some "Australia/Brisbane"
  else if String.eqb region "PER" then Some "Australia/Perth"
  else if String.eqb region "ADL" then Some "Australia/Adelaide"
  else None.

Definition getTimezoneForRegion (region : string) : ZoneValue :=
  match timezoneMap region with
  | Some z => if Js.truthy z then ZoneName z else ZoneName defaultZone
  | None => if Js.inherited region then ProtoMember region
            else ZoneName defaultZone
  end.

(** [e.databaseTitle.toUpperCase().includes(keyword.toUpperCase())]. *)
Definition titleMatches (keyword : string) (e : LogEntry) : bool :=
  Js.includes (Js.toUpperCase keyword) (Js.toUpperCase (databaseTitle e)).

Definition isProgramType (e : LogEntry) : bool :=
  String.eqb (materialType e) "M" || String.eqb (materialType e) "S".

(** [a.includes(x)] on an array of objects. *)
Definition arrayIncludes (a : list LogEntry) (x : LogEntry) : bool :=
  existsb (fun y => oid y =? oid x) a.

Definition isBillboardOf (materialType databaseTitle : string) : StrOrBool :=
  if String.eqb materialType "I" then
    if Js.truthy databaseTitle then
      IsBool (Js.startsWith "OB" databaseTitle
              || Js.startsWith "MB" databaseTitle
              || Js.startsWith "CB" databaseTitle)
    else IsStr databaseTitle
  else IsBool false.

Definition billboardTypeOf (isBb : StrOrBool) (databaseTitle : string)
  : option BillboardType :=
  if truthyV isBb then
    if Js.startsWith "OB" databaseTitle then Some OpenBillboard
    else if Js.startsWith "MB" databaseTitle then Some MiddleBillboard
    else if Js.startsWith "CB" databaseTitle then Some CloseBillboard
    else None
  else None.

(** [hh*3600 + mm*60 + ss] of a time of day, parsed with [parseInt]. *)
Definition secondsOf (t : string) : option Z :=
  let parts := Js.split ":" t in
  Js.add (Js.add (Js.mul (Js.parseIntAt parts 0) (Some 3600%Z))
                 (Js.mul (Js.parseIntAt parts 1) (Some 60%Z)))
         (Js.parseIntAt parts 2).

(** The loop over [allEntries] that bounds a program's window: [None] is
    [null], [Some n] a number, possibly [NaN]. *)
Fixpoint nextProgSecondsOf (entries : list LogEntry) (programLine : nat)
  : option (option Z) :=
  match entries with
  | [] => None
  | entry :: rest =>
      if (programLine <? lineNumber entry) && isProgramType entry then
        match time entry with
        | Some t =>
            if Js.truthy t then Some (secondsOf t)
            else nextProgSecondsOf rest programLine
        | None => nextProgSecondsOf rest programLine
        end
      else nextProgSecondsOf rest programLine
  end.

Definition inWindow (progSeconds : option Z) (nextProgSeconds : option (option Z))
           (bbSeconds : option Z) : bool :=
  match nextProgSeconds with
  | Some next => Js.le progSeconds bbSeconds && Js.lt bbSeconds next
  | None => Js.ge bbSeconds progSeconds
  end.

(** The loop over [logData.billboards] for one program instance. *)
Fixpoint billboardLoop (bbs : list LogEntry) (progSeconds : option Z)
         (nextProgSeconds : option (option Z))
         (matchingBillboards : list LogEntry) : list LogEntry :=
  match bbs with
  | [] => matchingBillboards
  | billboard :: rest =>
      match time billboard with
      | Some t =>
          if Js.truthy t then
            if inWindow progSeconds nextProgSeconds (secondsOf t)
               && negb (arrayIncludes matchingBillboards billboard)
            then billboardLoop rest progSeconds nextProgSeconds
                               (matchingBillboards ++ [billboard])
            else billboardLoop rest progSeconds nextProgSeconds matchingBillboards
          else billboardLoop rest progSeconds nextProgSeconds matchingBillboards
      | None => billboardLoop rest progSeconds nextProgSeconds matchingBillboards
      end
  end.

(** The loop over the program instances. *)
Fixpoint instanceLoop (logData : ParsedLogData) (instances : list LogEntry)
         (matchingBillboards : list LogEntry) : list LogEntry :=
  match instances with
  | [] => matchingBillboards
  | program :: rest =>
      match time program with
      | Some t =>
          if Js.truthy t then
            instanceLoop logData rest
              (billboardLoop (billboards logData) (secondsOf t)
                 (nextProgSecondsOf (allEntries logData) (lineNumber program))
                 matchingBillboards)
          else instanceLoop logData rest matchingBillboards
      | None => instanceLoop logData rest matchingBillboards
      end
  end.

Definition getBillboardsForProgram (logData : ParsedLogData)
           (programKeyword : string) : list LogEntry :=
  let programInstances := filter (titleMatches programKeyword) (programs logData) in
  if Nat.eqb (List.length programInstances) 0 then []
  else instanceLoop logData programInstances [].

Section LogParser.
Context {platform : Platform}.

(** [DateTime.fromObject({...}, {zone}).toUTC().toISO()]: an unusable zone
    gives an invalid date, whose text is [null]; a [NaN] unit is rejected
    with an exception; an out-of-range unit gives an invalid date. *)
Definition luxonToUTCISO (zone : ZoneValue)
           (year month day hour minute second : option Z)
  : Outcome (option string) :=
  match zone with
  | ProtoMember _ => Returned None
  | ZoneName z =>
      match year, month, day, hour, minute, second with
      | Some y, Some mo, Some d, Some h, Some mi, Some s =>
          if ((1 <=? mo) && (mo <=? 12) && (1 <=? d)
              && (d <=? Civil.daysInMonth y mo)
              && (((0 <=? h) && (h <=? 23)) || ((h =? 24) && (mi =? 0) && (s =? 0)))
              && (0 <=? mi) && (mi <=? 59) && (0 <=? s) && (s <=? 59))%Z
          then
            let l := Civil.localMillis y mo d h mi s in
            Returned (Some (Civil.toISO (l - zoneOffset z l * 60000)%Z))
          else Returned None
      | _, _, _, _, _, _ => Thrown
      end
  end.

Definition convertToUTC (yyyy mm dd hh min ss region : string)
  : Outcome (option string) :=
  let year := Js.parseInt yyyy in
  let month := Js.parseInt mm in
  let day := Js.parseInt dd in
  let hour := Js.parseInt hh in
  let minute := Js.parseInt min in
  let second := Js.parseInt ss in
  let timezone := getTimezoneForRegion region in
  luxonToUTCISO timezone year month day hour minute second.

(** The date/time block of [parseLogs]: the values of [dateTime],
    [localDateTime] and [timeStr] after it. *)
Definition parseDateTime (dateTimeRaw region : string)
  : option string * option string * option string :=
  if Js.truthy dateTimeRaw && (17 <=? String.length dateTimeRaw) then
    let parts := Js.split " " dateTimeRaw in
    match parts with
    | datePart :: timePart :: _ =>
        if 8 <=? String.length datePart then
          let yyyy := Js.substring 0 4 datePart in
          let mm := Js.substring 4 6 datePart in
          let dd := Js.substring 6 8 datePart in
          let timeComponents := Js.split ":" timePart in
          match timeComponents with
          | hh :: min :: ss :: _ =>
              let localDateTime :=
                (yyyy ++ "-" ++ mm ++ "-" ++ dd ++ "T" ++ hh ++ ":" ++ min ++ ":" ++ ss)%string in
              let timeStr := (hh ++ ":" ++ min ++ ":" ++ ss)%string in
              match convertToUTC yyyy mm dd hh min ss region with
              | Returned utcDateTime => (utcDateTime, Some localDateTime, Some timeStr)
              | Thrown => (None, Some localDateTime, Some timeStr)
              end
          | _ => (None, None, None)
          end
        else (None, None, None)
    | _ => (None, None, None)
    end
  else (None, None, None).

(** The entry built from a line that passed the two guards. *)
Definition makeEntry (region : string) (lineNum : nat) (line : string) : LogEntry :=
  let marketChannel := Js.trim (Js.substring 0 6 line) in
  let dateTimeRaw := Js.trim (Js.substring 55 75 line) in
  let materialKey := Js.trim (Js.substring 119 151 line) in
  let materialType := if 188 <? String.length line then Js.charAt 188 line else "" in
  let databaseTitle :=
    if 295 <? String.length line then Js.trim (Js.substring 295 359 line) else "" in
  let '(dateTime, localDateTime, timeStr) := parseDateTime dateTimeRaw region in
  let isBb := isBillboardOf materialType databaseTitle in
  {| oid := lineNum;
     lineNumber := lineNum + 1;
     marketChannel := marketChannel;
     dateTime := dateTime;
     localDateTime := localDateTime;
     time := timeStr;
     materialKey := materialKey;
     materialType := materialType;
     databaseTitle := databaseTitle;
     isBillboard := isBb;
     billboardType := billboardTypeOf isBb databaseTitle;
     rawLine := Js.trim line |}.

(** The three pushes at the end of the loop body. *)
Definition pushEntry (result : ParsedLogData) (entry : LogEntry) : ParsedLogData :=
  {| billboards :=
       if truthyV (isBillboard entry) then billboards result ++ [entry]
       else billboards result;
     programs :=
       if truthyV (isBillboard entry) then programs result
       else if String.eqb (materialType entry) "M"
               || String.eqb (materialType entry) "S"
            then programs result ++ [entry]
            else programs result;
     allEntries := allEntries result ++ [entry] |}.

(** A line is kept when it is not blank and has at least 360 characters. *)
Definition lineKept (line : string) : bool :=
  Js.truthy (Js.trim line) && negb (String.length line <? 360).

(** The loop [for (lineNum = 0; lineNum < lines.length; lineNum++)]. *)
Fixpoint parseLoop (region : string) (lines : list string) (lineNum : nat)
         (result : ParsedLogData) : ParsedLogData :=
  match lines with
  | [] => result
  | line :: rest =>
      if negb (Js.truthy (Js.trim line)) then
        parseLoop region rest (S lineNum) result
      else if String.length line <? 360 then
        parseLoop region rest (S lineNum) result
      else
        parseLoop region rest (S lineNum)
                  (pushEntry result (makeEntry region lineNum line))
  end.

Definition parseLogs (logFileContent region : string) : ParsedLogData :=
  let result := {| billboards := []; programs := []; allEntries := [] |} in
  let lines := Js.split "010" logFileContent in
  parseLoop region lines 0 result.

End LogParser.

(** ** index.ts of the log processor *)

Inductive Channel : Type := CH9 | GO | GEM.
Inductive Region : Type := SYD | MEL | BNE | PER | ADL.
Inductive BroadcastStatus : Type := PENDING.

Definition channelEqb (a b : Channel) : bool :=
  match a, b with
  | CH9, CH9 | GO, GO | GEM, GEM => true
  | _, _ => false
  end.

Definition regionEqb (a b : Region) : bool :=
  match a, b with
  | SYD, SYD | MEL, MEL | BNE, BNE | PER, PER | ADL, ADL => true
  | _, _ => false
  end.

(** The run-time value of a [Region] member is its name. *)
Definition regionCode (r : Region) : string :=
  match r with
  | SYD => "SYD" | MEL => "MEL" | BNE => "BNE" | PER => "PER" | ADL => "ADL"
  end.

Record Program : Type := mkProgram {
  programId : nat;
  programName : string;
  keyword : string;
  year : Z
}.

Record Day : Type := mkDay {
  dayId : nat;
  dayName : string;
  dayDate : option Z;
  dayProgramId : nat
}.

Record Broadcast : Type := mkBroadcast {
  broadcastId : nat;
  broadcastName : string;
  startTime : Z;
  endTime : Z;
  status : BroadcastStatus;
  channel : Channel;
  region : Region;
  broadcastDayId : nat
}.

Record LogFile : Type := mkLogFile {
  s3_key : string;
  logFileDayId : nat;
  logFileRegion : Region;
  logFileChannel : Channel
}.

(** The tables of the database the handler reads and writes. *)
Record Store : Type := mkStore {
  catalog : list Program;
  days : list Day;
  broadcasts : list Broadcast;
  logFiles : list LogFile
}.

Record FileMetadata : Type := mkFileMetadata {
  fileDate : option Z;
  fileRegion : Region;
  fileChannel : Channel
}.

(** One record of the event: the object key, the groups the pattern
    [/(\d{8})_(\w+)-(\w+)\.LOG/i] captures in the last path segment of the
    key ([None] when it does not match), and the text of the object. *)
Record S3Record : Type := mkS3Record {
  objectKey : string;
  fileNameMatch : option (string * string * string);
  objectBody : string
}.

Record BroadcastSegment : Type := mkSegment {
  startEntry : LogEntry;
  endEntry : LogEntry
}.

Record ResultRow : Type := mkResultRow {
  resultProgram : string;
  resultBroadcast : nat;
  resultStartTime : Z;
  resultEndTime : Z
}.

(** The keys of both maps are upper case and the lookup key is upper-cased,
    so no inherited member can be found here. *)
Definition mapChannel (logChannel : string) : option Channel :=
  let k := Js.toUpperCase logChannel in
  if String.eqb k "NINE" then Some CH9
  else if String.eqb k "GO" then Some GO
  else if String.eqb k "GEM" then Some GEM
  else None.

Definition mapRegion (logRegion : string) : option Region :=
  let k := Js.toUpperCase logRegion in
  if String.eqb k "SYD" then Some SYD
  else if String.eqb k "MEL" then Some MEL
  else if String.eqb k "BRI" then Some BNE
  else if String.eqb k "BNE" then Some BNE
  else if String.eqb k "PER" then Some PER
  else if String.eqb k "ADL" then Some ADL
  else if String.eqb k "ADE" then Some ADL
  else None.

Definition MAX_GAP_MINUTES : Z := 30.

Definition mainRegions : list Region := [SYD; MEL; BNE; PER; ADL].

Definition optZ_eqb (a b : option Z) : bool :=
  match a, b with
  | Some x, Some y => Z.eqb x y
  | None, None => true
  | _, _ => false
  end.

(** The [OR] of the overlap query, for one stored broadcast. *)
Definition overlapWhere (newStart newEnd : Z) (b : Broadcast) : bool :=
  ((startTime b <=? newStart) && (newStart <? endTime b)
   || (startTime b <? newEnd) && (newEnd <=? endTime b)
   || (newStart <=? startTime b) && (endTime b <=? newEnd))%Z.

(** [prisma.broadcast.findFirst] with the [where] clause of the handler. *)
Definition findOverlappingBroadcast (st : Store) (day : nat) (ch : Channel)
           (rg : Region) (newStart newEnd : Z) : option Broadcast :=
  find (fun b => (broadcastDayId b =? day) && channelEqb (channel b) ch
                 && regionEqb (region b) rg && overlapWhere newStart newEnd b)
       (broadcasts st).

(** A set of day ids in insertion order. *)
Definition setAdd (s : list nat) (x : nat) : list nat :=
  if existsb (Nat.eqb x) s then s else s ++ [x].

Section Handler.
Context {platform : Platform}.

Definition parseLogFileName (captures : option (string * string * string))
  : option FileMetadata :=
  match captures with
  | None => None
  | Some (dateStr, regionStr, channelStr) =>
      match mapRegion regionStr, mapChannel channelStr with
      | Some rg, Some ch =>
          let year := Js.parseInt (Js.substring 0 4 dateStr) in
          let month := Js.sub (Js.parseInt (Js.substring 4 6 dateStr)) (Some 1%Z) in
          let day := Js.parseInt (Js.substring 6 8 dateStr) in
          Some {| fileDate := Date_local year month day;
                  fileRegion := rg;
                  fileChannel := ch |}
      | _, _ => None
      end
  end.

(** The test [gapMinutes > MAX_GAP_MINUTES] behind its two guards: both
    [dateTime]s truthy, and a [NaN] gap compares false.  The quotient by
    [1000 * 60] is compared after multiplying out. *)
Definition significantGap (currentEntry nextEntry : LogEntry) : bool :=
  match dateTime currentEntry, dateTime nextEntry with
  | Some c, Some n =>
      if Js.truthy c && Js.truthy n then
        match Date_parse c, Date_parse n with
        | Some currentTime, Some nextTime =>
            (MAX_GAP_MINUTES * (1000 * 60) <? nextTime - currentTime)%Z
        | _, _ => false
        end
      else false
  | _, _ => false
  end.

(** The grouping loop: [rest] is [matchingEntries] from index [i] on. *)
Fixpoint segmentLoop (matchingEntries rest : list LogEntry)
         (i currentSegmentStart : nat)
         (broadcastSegments : list BroadcastSegment) : list BroadcastSegment :=
  match rest with
  | [] => broadcastSegments
  | currentEntry :: rest' =>
      match rest' with
      | [] =>
          segmentLoop matchingEntries rest' (S i) currentSegmentStart
            (broadcastSegments ++
             [ {| startEntry := nth currentSegmentStart matchingEntries currentEntry;
                  endEntry := currentEntry |} ])
      | nextEntry :: _ =>
          if significantGap currentEntry nextEntry then
            segmentLoop matchingEntries rest' (S i) (i + 1)
              (broadcastSegments ++
               [ {| startEntry := nth currentSegmentStart matchingEntries currentEntry;
                    endEntry := currentEntry |} ])
          else
            segmentLoop matchingEntries rest' (S i) currentSegmentStart
                        broadcastSegments
      end
  end.

Definition buildSegments (matchingEntries : list LogEntry) : list BroadcastSegment :=
  segmentLoop matchingEntries matchingEntries 0 0 [].

Definition twoHours (startTime : Z) : Z := (startTime + 2 * 60 * 60 * 1000)%Z.

(** The end time of a segment that ends at [endEntry]. *)
Definition resolveEndTime (programEntries : list LogEntry) (kw : string)
           (startTime : Z) (endEntry : LogEntry) : Z :=
  let nextDifferentProgram :=
    find (fun e => (lineNumber endEntry <? lineNumber e)
                   && negb (titleMatches kw e)
                   && Js.truthyOpt (dateTime e))
         programEntries in
  match nextDifferentProgram with
  | Some e =>
      match dateTime e with
      | Some d =>
          if Js.truthy d then
            match Date_parse d with
            | Some endTime => endTime
            | None => twoHours startTime
            end
          else twoHours startTime
      | None => twoHours startTime
      end
  | None => twoHours startTime
  end.

(** The body of the loop over the segments of one program. *)
Definition processSegment (parsedLogs : ParsedLogData) (program : Program)
           (day : Day) (meta : FileMetadata)
           (acc : Store * list ResultRow) (segment : BroadcastSegment)
  : Store * list ResultRow :=
  let (st, results) := acc in
  if negb (Js.truthyOpt (time (startEntry segment)))
     || negb (Js.truthyOpt (dateTime (startEntry segment))) then acc
  else
    match dateTime (startEntry segment) with
    | None => acc
    | Some d =>
        match Date_parse d with
        | None => acc
        | Some startTime =>
            let endTime :=
              resolveEndTime (programs parsedLogs) (keyword program) startTime
                             (endEntry segment) in
            match findOverlappingBroadcast st (dayId day) (fileChannel meta)
                                           (fileRegion meta) startTime endTime with
            | Some _ => acc
            | None =>
                let broadcast :=
                  {| broadcastId := List.length (broadcasts st);
                     broadcastName :=
                       (databaseTitle (startEntry segment) ++ " ("
                        ++ regionCode (fileRegion meta) ++ ")")%string;
                     startTime := startTime;
                     endTime := endTime;
                     status := PENDING;
                     channel := fileChannel meta;
                     region := fileRegion meta;
                     broadcastDayId := dayId day |} in
                ({| catalog := catalog st;
                    days := days st;
                    broadcasts := broadcasts st ++ [broadcast];
                    logFiles := logFiles st |},
                 results ++
                 [ {| resultProgram := programName program;
                      resultBroadcast := broadcastId broadcast;
                      resultStartTime := startTime;
                      resultEndTime := endTime |} ])
            end
        end
    end.

(** Find or create the day of a program on the date of the file. *)
Definition findOrCreateDay (st : Store) (program : Program) (date : option Z)
  : Store * Day :=
  match find (fun d => (dayProgramId d =? programId program)
                       && optZ_eqb (dayDate d) date) (days st) with
  | Some day => (st, day)
  | None =>
      let day :=
        {| dayId := List.length (days st);
           dayName := (programName program ++ " - " ++ toLocaleDateString date)%string;
           dayDate := date;
           dayProgramId := programId program |} in
      ({| catalog := catalog st;
          days := days st ++ [day];
          broadcasts := broadcasts st;
          logFiles := logFiles st |}, day)
  end.

(** The state the loop over the catalog threads through one file. *)
Record FileState : Type := mkFileState {
  store : Store;
  results : list ResultRow;
  daysNeedingLogFiles : list nat
}.

(** The body of the loop over the catalog programs. *)
Definition processProgram (parsedLogs : ParsedLogData) (meta : FileMetadata)
           (fs : FileState) (program : Program) : FileState :=
  let matchingEntries :=
    filter (titleMatches (keyword program)) (programs parsedLogs) in
  if Nat.eqb (List.length matchingEntries) 0 then fs
  else
    let broadcastSegments := buildSegments matchingEntries in
    let (st1, day) := findOrCreateDay (store fs) program (fileDate meta) in
    let needing := setAdd (daysNeedingLogFiles fs) (dayId day) in
    let (st2, results2) :=
      fold_left (processSegment parsedLogs program day meta)
                broadcastSegments (st1, results fs) in
    {| store := st2; results := results2; daysNeedingLogFiles := needing |}.

(** The block that records the log file: the loop over the tracked days
    leaves at its first iteration on either branch. *)
Definition recordLogFile (st : Store) (key : string) (meta : FileMetadata)
           (needing : list nat) : Store :=
  if existsb (regionEqb (fileRegion meta)) mainRegions
     && (0 <? List.length needing) then
    match needing with
    | [] => st
    | day :: _ =>
        match find (fun f => String.eqb (s3_key f) key) (logFiles st) with
        | None =>
            {| catalog := catalog st;
               days := days st;
               broadcasts := broadcasts st;
               logFiles := logFiles st ++
                 [ {| s3_key := key;
                      logFileDayId := day;
                      logFileRegion := fileRegion meta;
                      logFileChannel := fileChannel meta |} ] |}
        | Some _ => st
        end
    end
  else st.

(** The body of the loop over the records of the event. *)
Definition handleRecord (programList : list Program)
           (acc : Store * list ResultRow) (record : S3Record)
  : Store * list ResultRow :=
  match parseLogFileName (fileNameMatch record) with
  | None => acc
  | Some meta =>
      let parsedLogs := parseLogs (objectBody record) (regionCode (fileRegion meta)) in
      let fs :=
        fold_left (processProgram parsedLogs meta) programList
                  {| store := fst acc; results := snd acc;
                     daysNeedingLogFiles := [] |} in
      (recordLogFile (store fs) (objectKey record) meta (daysNeedingLogFiles fs),
       results fs)
  end.

(** The handler on a store: the store after the event and the rows of
    the response. *)
Definition handler (records : list S3Record) (st : Store)
  : Store * list ResultRow :=
  let programList := catalog st in
  fold_left (handleRecord programList) records (st, []).

End Handler.

(** ** Definitions that follow the words of the specification *)

(** The entries [parseLogs] builds, one per kept line, in line order. *)
Fixpoint keptEntries {platform : Platform} (region : string)
         (lines : list string) (lineNum : nat) : list LogEntry :=
  match lines with
  | [] => []
  | line :: rest =>
      if lineKept line then
        makeEntry region lineNum line :: keptEntries region rest (S lineNum)
      else keptEntries region rest (S lineNum)
  end.

(** What [isBillboard] is, in terms of the two fields it is computed from. *)
Definition classified (e : LogEntry) : Prop :=
  isBillboard e = isBillboardOf (materialType e) (databaseTitle e).

(** The structural tests the timestamp field has to pass: at least 17
    characters, two parts around a space, a date part of at least 8
    characters, three time components around colons. *)
Definition timestampShape (dateTimeRaw : string) : bool :=
  Js.truthy dateTimeRaw && (17 <=? String.length dateTimeRaw) &&
  match Js.split " " dateTimeRaw with
  | datePart :: timePart :: _ =>
      (8 <=? String.length datePart) &&
      match Js.split ":" timePart with
      | _ :: _ :: _ :: _ => true
      | _ => false
      end
  | _ => false
  end.

(** The timestamp field of a line. *)
Definition timestampField (line : string) : string :=
  Js.trim (Js.substring 55 75 line).

(** "Both timestamps are non-null and the gap between them exceeds 30
    minutes." *)
Definition gapOver30 {platform : Platform} (a b : LogEntry) : Prop :=
  exists sa sb ta tb,
    dateTime a = Some sa /\ dateTime b = Some sb /\
    Date_parse sa = Some ta /\ Date_parse sb = Some tb /\
    (tb - ta > 30 * 60 * 1000)%Z.

(** A relation holds between every two neighbours of a list. *)
Fixpoint neighbours {A : Type} (R : A -> A -> Prop) (l : list A) : Prop :=
  match l with
  | a :: l' =>
      match l' with
      | b :: _ => R a b /\ neighbours R l'
      | [] => True
      end
  | [] => True
  end.

(** The segment a run of entries stands for. *)
Definition segmentOf (chunk : list LogEntry) (d : LogEntry) : BroadcastSegment :=
  {| startEntry := hd d chunk; endEntry := last chunk d |}.

(** Cutting a list of entries at its significant gaps. *)
Fixpoint splitAtGaps {platform : Platform} (l : list LogEntry)
  : list (list LogEntry) :=
  match l with
  | [] => []
  | a :: l' =>
      match l' with
      | [] => [[a]]
      | b :: _ =>
          match splitAtGaps l' with
          | c :: cs =>
              if significantGap a b then [a] :: c :: cs else (a :: c) :: cs
          | [] => [[a]]
          end
      end
  end.

(** The segments of the entries from the current one on, when the open
    segment started at [start]. *)
Fixpoint segmentsFrom {platform : Platform} (start : LogEntry)
         (rest : list LogEntry) : list BroadcastSegment :=
  match rest with
  | [] => []
  | cur :: rest' =>
      match rest' with
      | [] => [ {| startEntry := start; endEntry := cur |} ]
      | next :: _ =>
          if significantGap cur next then
            {| startEntry := start; endEntry := cur |} :: segmentsFrom next rest'
          else segmentsFrom start rest'
      end
  end.

Definition isSome {A : Type} (o : option A) : bool :=
  match o with Some _ => true | None => false end.

(** "The first program-type entry whose lineNumber exceeds
    endEntry.lineNumber, whose title does not contain the keyword and whose
    dateTime is non-null." *)
Definition nextDifferingProgram (entries : list LogEntry) (kw : string)
           (endE : LogEntry) : option LogEntry :=
  find (fun e => isProgramType e
                 && (lineNumber endE <? lineNumber e)
                 && negb (titleMatches kw e)
                 && isSome (dateTime e)) entries.

(** "Its dateTime becomes the end time; if no such entry exists or its
    timestamp is invalid, the end time is the start time plus 2 hours." *)
Definition endTimeSpec {platform : Platform} (entries : list LogEntry)
           (kw : string) (start : Z) (endE : LogEntry) : Z :=
  match nextDifferingProgram entries kw endE with
  | Some e =>
      match dateTime e with
      | Some d =>
          match Date_parse d with
          | Some t => t
          | None => (start + 7200000)%Z
          end
      | None => (start + 7200000)%Z
      end
  | None => (start + 7200000)%Z
  end.

(** The next program-type entry after [p] that carries a time. *)
Definition nextTimedProgram (entries : list LogEntry) (p : LogEntry)
  : option LogEntry :=
  find (fun e => (lineNumber p <? lineNumber e) && isProgramType e
                 && Js.truthyOpt (time e)) entries.

Definition secondsOfEntry (e : LogEntry) : option Z :=
  match time e with Some t => secondsOf t | None => None end.

(** The billboard [b] aired in the window the program instance [p] opens. *)
Definition inProgramWindow (logData : ParsedLogData) (p b : LogEntry) : bool :=
  Js.truthyOpt (time p) && Js.truthyOpt (time b) &&
  match nextTimedProgram (allEntries logData) p with
  | Some q => Js.le (secondsOfEntry p) (secondsOfEntry b)
              && Js.lt (secondsOfEntry b) (secondsOfEntry q)
  | None => Js.le (secondsOfEntry p) (secondsOfEntry b)
  end.

(** The billboards of every window, window after window, with repetitions. *)
Definition windowBillboards (logData : ParsedLogData) (kw : string)
  : list LogEntry :=
  flat_map (fun p => filter (inProgramWindow logData p) (billboards logData))
           (filter (titleMatches kw) (programs logData)).

(** Appending the objects of [l] not yet in [seen], first occurrences
    first: identity decides, not content. *)
Fixpoint appendNew (seen l : list LogEntry) : list LogEntry :=
  match l with
  | [] => seen
  | x :: l' =>
      if arrayIncludes seen x then appendNew seen l'
      else appendNew (seen ++ [x]) l'
  end.

(** The reading of the specification in which the window is bounded by the
    very next program-type entry: when that entry has no time, either no
    bound is known ([openWhenUntimed]) or nothing can be placed before it. *)
Definition nextProgramEntry (entries : list LogEntry) (p : LogEntry)
  : option LogEntry :=
  find (fun e => (lineNumber p <? lineNumber e) && isProgramType e) entries.

Definition inWindowLiteral (openWhenUntimed : bool) (logData : ParsedLogData)
           (p b : LogEntry) : bool :=
  Js.truthyOpt (time p) && Js.truthyOpt (time b) &&
  match nextProgramEntry (allEntries logData) p with
  | Some q =>
      if Js.truthyOpt (time q) then
        Js.le (secondsOfEntry p) (secondsOfEntry b)
        && Js.lt (secondsOfEntry b) (secondsOfEntry q)
      else openWhenUntimed && Js.le (secondsOfEntry p) (secondsOfEntry b)
  | None => Js.le (secondsOfEntry p) (secondsOfEntry b)
  end.

Definition associateLiteral (openWhenUntimed : bool) (logData : ParsedLogData)
           (kw : string) : list LogEntry :=
  appendNew []
    (flat_map (fun p => filter (inWindowLiteral openWhenUntimed logData p)
                               (billboards logData))
              (filter (titleMatches kw) (programs logData))).

(** The catalog program matches at least one program entry of the file. *)
Definition programMatches (parsedLogs : ParsedLogData) (p : Program) : bool :=
  negb (Nat.eqb (List.length (filter (titleMatches (keyword p))
                                     (programs parsedLogs))) 0).

(** The standard test for two half-open intervals. *)
Definition standardOverlap (newStart newEnd existingStart existingEnd : Z) : Prop :=
  ~ (newEnd <= existingStart \/ newStart >= existingEnd)%Z.

(** ** A platform and data for the examples *)

Module Sample.

(** The decimal value of a string of digits. *)
Fixpoint allDigits (s : string) : bool :=
  match s with
  | EmptyString => true
  | String c s' => isSome (Js.decDigit c) && allDigits s'
  end.

Definition num (s : string) : option Z :=
  if Js.truthy s && allDigits s then Js.digits 10 Js.decDigit s None else None.

(** [YYYY-MM-DDTHH:MM:SS.mmmZ], the text [toISO] writes, and nothing else. *)
Definition isoDateParse (s : string) : option Z :=
  if (String.length s =? 24)
     && String.eqb (Js.charAt 4 s) "-" && String.eqb (Js.charAt 7 s) "-"
     && String.eqb (Js.charAt 10 s) "T" && String.eqb (Js.charAt 13 s) ":"
     && String.eqb (Js.charAt 16 s) ":" && String.eqb (Js.charAt 19 s) "."
     && String.eqb (Js.charAt 23 s) "Z"
  then
    match num (Js.substring 0 4 s), num (Js.substring 5 7 s),
          num (Js.substring 8 10 s), num (Js.substring 11 13 s),
          num (Js.substring 14 16 s), num (Js.substring 17 19 s),
          num (Js.substring 20 23 s) with
    | Some y, Some mo, Some d, Some h, Some mi, Some sec, Some ms =>
        Some (Civil.localMillis y mo d h mi sec + ms)%Z
    | _, _, _, _, _, _, _ => None
    end
  else None.

(** A time-zone database in which every zone keeps its standard offset. *)
Definition standardOffset (zone : string) (l : Z) : Z :=
  if String.eqb zone "Australia/Perth" then 480%Z
  else if String.eqb zone "Australia/Adelaide" then 570%Z
  else 600%Z.

Definition dateLocal (y m d : option Z) : option Z :=
  match y, m, d with
  | Some y', Some m', Some d' =>
      Some (Civil.localMillis y' (m' + 1) d' 0 0 0)
  | _, _, _ => None
  end.

Definition dateText (t : option Z) : string :=
  match t with
  | Some ms => Js.substring 0 10 (Civil.toISO ms)
  | None => "Invalid Date"
  end.

Definition platform : Platform :=
  {| zoneOffset := standardOffset;
     Date_parse := isoDateParse;
     Date_local := dateLocal;
     toLocaleDateString := dateText |}.

Fixpoint spaces (n : nat) : string :=
  match n with
  | O => EmptyString
  | S n' => String " " (spaces n')
  end.

Definition padRight (w : nat) (s : string) : string :=
  (s ++ spaces (w - String.length s))%string.

(** A line of 360 characters with the five fields in their columns. *)
Definition line (market stamp key mtype title : string) : string :=
  (padRight 55 market ++ padRight 64 stamp ++ padRight 69 key
   ++ padRight 107 mtype ++ padRight 65 title)%string.

Definition newline : string := String "010" EmptyString.

Fixpoint unlines (ls : list string) : string :=
  match ls with
  | [] => EmptyString
  | [l] => l
  | l :: ls' => (l ++ newline ++ unlines ls')%string
  end.

(** An entry given by what the properties look at. *)
Definition entry (id line : nat) (stamp clock : option string)
           (mtype title : string) : LogEntry :=
  {| oid := id; lineNumber := line; marketChannel := "BRININ";
     dateTime := stamp; localDateTime := None; time := clock;
     materialKey := ""; materialType := mtype; databaseTitle := title;
     isBillboard := isBillboardOf mtype title;
     billboardType := billboardTypeOf (isBillboardOf mtype title) title;
     rawLine := "" |}.

(** The scenario of the specification: one program line in Brisbane. *)
Definition unitedCupLine : string :=
  line "BRININ" "20260104 06:00:00:02" "KEY0001" "M" "UNITED CUP DAY 4".

Definition unitedCupRecord : S3Record :=
  {| objectKey := "logs/20260104_BRI-NINE.LOG";
     fileNameMatch := Some ("20260104", "BRI", "NINE");
     objectBody := unitedCupLine |}.

Definition unitedCup : Program :=
  {| programId := 7; programName := "United Cup"; keyword := "UNITED CUP";
     year := 2026%Z |}.

Definition tennisFinal : Program :=
  {| programId := 8; programName := "Tennis Final"; keyword := "TENNIS FINAL";
     year := 2026%Z |}.

Definition storeWith (ps : list Program) : Store :=
  {| catalog := ps; days := []; broadcasts := []; logFiles := [] |}.

(** Three matching entries at 06:00, 06:20 and 07:05 (Brisbane). *)
Definition at0600 : LogEntry :=
  entry 0 1 (Some "2026-01-03T20:00:00.000Z") (Some "06:00:00") "M" "UNITED CUP DAY 4".
Definition at0620 : LogEntry :=
  entry 1 2 (Some "2026-01-03T20:20:00.000Z") (Some "06:20:00") "M" "UNITED CUP DAY 4".
Definition at0705 : LogEntry :=
  entry 2 3 (Some "2026-01-03T21:05:00.000Z") (Some "07:05:00") "M" "UNITED CUP DAY 4".

(** A program from 06:00:00 to the next program at 07:00:00, and two
    billboards, at 06:05:00 and 07:10:00. *)
Definition prog0600 : LogEntry :=
  entry 0 1 (Some "2026-01-03T20:00:00.000Z") (Some "06:00:00") "M" "UNITED CUP DAY 4".
Definition bb0605 : LogEntry :=
  entry 1 2 (Some "2026-01-03T20:05:00.000Z") (Some "06:05:00") "I" "OB UNITED CUP".
Definition untimed : LogEntry :=
  entry 2 3 None None "M" "WEATHER".
Definition prog0700 : LogEntry :=
  entry 3 4 (Some "2026-01-03T21:00:00.000Z") (Some "07:00:00") "M" "NINE NEWS".
Definition bb0710 : LogEntry :=
  entry 4 5 (Some "2026-01-03T21:10:00.000Z") (Some "07:10:00") "I" "CB NINE NEWS".

Definition windowLog : ParsedLogData :=
  {| billboards := [bb0605; bb0710];
     programs := [prog0600; prog0700];
     allEntries := [prog0600; bb0605; prog0700; bb0710] |}.

(** The same log with a program line without a timestamp before 07:00. *)
Definition untimedLog : ParsedLogData :=
  {| billboards := [bb0605; bb0710];
     programs := [prog0600; untimed; prog0700];
     allEntries := [prog0600; bb0605; untimed; prog0700; bb0710] |}.

(** A billboard listed twice, and another object with the same content. *)
Definition bbTwin : LogEntry :=
  entry 9 2 (Some "2026-01-03T20:05:00.000Z") (Some "06:05:00") "I" "OB UNITED CUP".

Definition aliasLog : ParsedLogData :=
  {| billboards := [bb0605; bb0605; bbTwin];
     programs := [prog0600];
     allEntries := [prog0600; bb0605; bbTwin] |}.

(** A line whose timestamp is written with slashes, and an interstitial
    line with a blank title. *)
Definition slashLine : string :=
  line "BRININ" "2026/01/04 06:00:00" "KEY0002" "M" "UNITED CUP DAY 4".

Definition blankTitleLine : string :=
  line "BRININ" "20260104 06:30:00:00" "KEY0003" "I" "".

Definition shortLine : string := "BRININ too short".

(** The program line, the entry the decoder builds from it, and the
    segment of that entry alone. *)
Definition newsLine : string :=
  line "BRININ" "20260104 07:00:00:00" "KEY0004" "M" "NINE NEWS AT 7".

Definition twoPrograms : string := unlines [unitedCupLine; newsLine].

Definition unitedCupEntry : LogEntry :=
  Eval vm_compute in @makeEntry platform "BNE" 0 unitedCupLine.

Definition unitedCupSegment : BroadcastSegment :=
  {| startEntry := unitedCupEntry; endEntry := unitedCupEntry |}.

Definition unitedCupParsed : ParsedLogData :=
  {| billboards := []; programs := [unitedCupEntry];
     allEntries := [unitedCupEntry] |}.

Definition brisbaneNine : FileMetadata :=
  {| fileDate := Some 1767484800000%Z; fileRegion := BNE; fileChannel := CH9 |}.

Definition unitedCupDay : Day :=
  {| dayId := 0; dayName := "United Cup - 2026-01-04";
     dayDate := Some 1767484800000%Z; dayProgramId := 7 |}.

(** The entry the decoder builds from the line with the blank title. *)
Definition blankTitleEntry : LogEntry :=
  Eval vm_compute in @makeEntry platform "BNE" 0 blankTitleLine.

(** A stored broadcast from 10:00 to 11:00 on 2026-01-04 (UTC). *)
Definition tenOClock : Z := (1767484800000 + 10 * 3600000)%Z.

Definition tenToEleven : Broadcast :=
  {| broadcastId := 0; broadcastName := "UNITED CUP DAY 4 (BNE)";
     startTime := tenOClock; endTime := (tenOClock + 3600000)%Z;
     status := PENDING; channel := CH9; region := BNE; broadcastDayId := 0 |}.

End Sample.


(** ** Definitions for the properties of the store *)

(** [l'] is [l] with entries added at its end. *)
Definition prefixOf {A : Type} (l l' : list A) : Prop := exists t, l' = l ++ t.

(** The store [b] is the store [a] with rows added: the catalog is the
    same and no row of [a] is changed, removed or moved. *)
Definition extends (a b : Store) : Prop :=
  catalog b = catalog a
  /\ prefixOf (days a) (days b)
  /\ prefixOf (broadcasts a) (broadcasts b)
  /\ prefixOf (logFiles a) (logFiles b).

(** Two broadcasts of the same day, channel and region. *)
Definition sameSlot (x b : Broadcast) : bool :=
  (broadcastDayId x =? broadcastDayId b)
  && channelEqb (channel x) (channel b)
  && regionEqb (region x) (region b).

(** No broadcast of the table satisfies the overlap query against a
    broadcast stored before it for the same day, channel and region. *)
Definition guarded (bs : list Broadcast) : Prop :=
  forall pre b post, bs = pre ++ b :: post ->
    forall x, In x pre -> sameSlot x b = true ->
              overlapWhere (startTime b) (endTime b) x = false.

(** No two days of the table have the same program and the same date. *)
Definition dayKeysUnique (ds : list Day) : Prop :=
  forall pre d post, ds = pre ++ d :: post ->
    forall x, In x pre -> dayProgramId x = dayProgramId d ->
              dayDate x <> dayDate d.

(** The rows of the response, as the broadcasts they report. *)
Definition reportedAs (r : ResultRow) : nat * Z * Z :=
  (resultBroadcast r, resultStartTime r, resultEndTime r).

Definition reportOf (b : Broadcast) : nat * Z * Z :=
  (broadcastId b, startTime b, endTime b).

(** ** Definitions for the properties of the decoder *)

(** The character [sep] does not occur in [s]. *)
Fixpoint noChar (sep : ascii) (s : string) : bool :=
  match s with
  | EmptyString => true
  | String c s' => negb (Ascii.eqb c sep) && noChar sep s'
  end.

(** The billboard type that goes with a title. *)
Definition prefixType (title : string) : option BillboardType :=
  if Js.startsWith "OB" title then Some OpenBillboard
  else if Js.startsWith "MB" title then Some MiddleBillboard
  else if Js.startsWith "CB" title then Some CloseBillboard
  else None.

(** The text of a time stamp of the log, [YYYYMMDD HH:MM:SS:FF], of its
    time of day and of its local date and time. *)
Definition stampText (y mo d h mi s ff : Z) : string :=
  (Civil.pad 4 y ++ Civil.pad 2 mo ++ Civil.pad 2 d ++ " "
   ++ Civil.pad 2 h ++ ":" ++ Civil.pad 2 mi ++ ":" ++ Civil.pad 2 s ++ ":"
   ++ Civil.pad 2 ff)%string.

Definition clockText (h mi s : Z) : string :=
  (Civil.pad 2 h ++ ":" ++ Civil.pad 2 mi ++ ":" ++ Civil.pad 2 s)%string.

Definition localText (y mo d h mi s : Z) : string :=
  (Civil.pad 4 y ++ "-" ++ Civil.pad 2 mo ++ "-" ++ Civil.pad 2 d ++ "T"
   ++ clockText h mi s)%string.

(** The broadcast [b] was made from a program entry of one of the records:
    an entry whose title contains the keyword of a catalog program and
    whose [dateTime] parses to the start time of [b]. *)
Definition createdFrom {platform : Platform} (pl : list Program)
           (records : list S3Record) (b : Broadcast) : Prop :=
  status b = PENDING
  /\ exists r meta p e s,
      In r records
      /\ parseLogFileName (fileNameMatch r) = Some meta
      /\ In p pl
      /\ In e (programs (parseLogs (objectBody r) (regionCode (fileRegion meta))))
      /\ titleMatches (keyword p) e = true
      /\ dateTime e = Some s
      /\ Date_parse s = Some (startTime b)
      /\ channel b = fileChannel meta
      /\ region b = fileRegion meta
      /\ broadcastName b
         = (databaseTitle e ++ " (" ++ regionCode (fileRegion meta) ++ ")")%string.

(** A log around midnight: a program at 23:30:00, a billboard at 23:45:00
    and the next program at 00:10:00. *)
Module Night.

Definition lateShow : LogEntry :=
  Sample.entry 0 1 (Some "2026-01-04T13:30:00.000Z") (Some "23:30:00") "M" "LATE SHOW".
Definition lateBillboard : LogEntry :=
  Sample.entry 1 2 (Some "2026-01-04T13:45:00.000Z") (Some "23:45:00") "I" "OB LATE SHOW".
Definition earlyNews : LogEntry :=
  Sample.entry 2 3 (Some "2026-01-04T14:10:00.000Z") (Some "00:10:00") "M" "EARLY NEWS".

Definition log : ParsedLogData :=
  {| billboards := [lateBillboard];
     programs := [lateShow; earlyNews];
     allEntries := [lateShow; lateBillboard; earlyNews] |}.

End Night.

(** ** test-timezone.js *)

Module TestTimezone.

(** The [switch] on [region.toUpperCase()]. *)
Definition offsetMinutes (region : string) : Z :=
  let r := Js.toUpperCase region in
  if String.eqb r "SYD" || String.eqb r "MEL" || String.eqb r "BNE"
  then (10 * 60)%Z
  else if String.eqb r "ADL" || String.eqb r "ADE" then (9 * 60 + 30)%Z
  else if String.eqb r "PER" then (8 * 60)%Z
  else (10 * 60)%Z.

(** [Date.UTC(year, monthIndex, day, hour, minute, second)]: a year from 0
    to 99 is taken in the 1900s, a month index outside 0..11 moves the
    year, and a time value beyond 8.64e15 ms is [NaN]. *)
Definition Date_UTC (year monthIndex day hour minute second : option Z)
  : option Z :=
  match year, monthIndex, day, hour, minute, second with
  | Some y, Some m, Some d, Some h, Some mi, Some s =>
      let yr := if ((0 <=? y) && (y <=? 99))%Z then (1900 + y)%Z else y in
      let ym := (yr + m / 12)%Z in
      let mn := (m mod 12)%Z in
      let dayNumber := (Civil.daysFromCivil ym (mn + 1) 1 + d - 1)%Z in
      let t := ((((dayNumber * 24 + h) * 60 + mi) * 60 + s) * 1000)%Z in
      if (Z.abs t <=? 8640000000000000)%Z then Some t else None
  | _, _, _, _, _, _ => None
  end.

(** [new Date(t).toISOString()], which throws on an invalid date. *)
Definition toISOString (t : option Z) : Outcome string :=
  match t with
  | Some ms => if (Z.abs ms <=? 8640000000000000)%Z
               then Returned (Civil.toISO ms) else Thrown
  | None => Thrown
  end.

Definition convertToUTC (yyyy mm dd hh min ss region : string) : Outcome string :=
  let year := Js.parseInt yyyy in
  let month := Js.parseInt mm in
  let day := Js.parseInt dd in
  let hour := Js.parseInt hh in
  let minute := Js.parseInt min in
  let second := Js.parseInt ss in
  let offsetMinutes := offsetMinutes region in
  let utcBase := Date_UTC year (Js.sub month (Some 1%Z)) day hour minute second in
  let utcTimestamp :=
    Js.sub utcBase (Js.mul (Js.mul (Some offsetMinutes) (Some 60%Z)) (Some 1000%Z)) in
  toISOString utcTimestamp.

End TestTimezone.

(** The time-zone database gives the zone of every region the offset the
    test script uses for it, at every time. *)
Definition standardTime {platform : Platform} : Prop :=
  forall r l, exists z,
    getTimezoneForRegion (regionCode r) = ZoneName z
    /\ zoneOffset z l = TestTimezone.offsetMinutes (regionCode r).

(** ** integrations/index.ts: the steps of the analysis pipeline *)

Module Pipeline.

Record LambdaEvent : Type := {
  broadcastId : string;
  channel : string;
  region : string;
  downloadInstanceType : option string;
  inferenceInstanceType : option string
}.

(** The fields of a step that name it, order it and size it. *)
Record Step : Type := {
  Name : string;
  DependsOn : list string;
  TrainingImage : string;
  InstanceType : string;
  VolumeSizeInGB : Z;
  MaxRuntimeInSeconds : Z
}.

(** A destructuring default: used when the property is [undefined]. *)
Definition orDefault (v : option string) (d : string) : string :=
  match v with Some x => x | None => d end.

Definition steps (event : LambdaEvent) : list Step :=
  let broadcastId := broadcastId event in
  let channel := channel event in
  let region := region event in
  let downloadInstanceType := orDefault (downloadInstanceType event) "ml.t3.large" in
  let inferenceInstanceType := orDefault (inferenceInstanceType event) "ml.g5.xlarge" in
  let steps :=
    [ {| Name := ("download-" ++ channel ++ "-" ++ region)%string;
         DependsOn := [];
         TrainingImage :=
           "763104351884.dkr.ecr.ap-southeast-2.amazonaws.com/pytorch-training:2.0.0-gpu-py310";
         InstanceType := downloadInstanceType;
         VolumeSizeInGB := 100%Z;
         MaxRuntimeInSeconds := (10 * 3600)%Z |} ] in
  let steps :=
    steps ++
    [ {| Name := ("integration-analysis-" ++ channel)%string;
         DependsOn := [("download-" ++ channel ++ "-" ++ region)%string];
         TrainingImage :=
           "763104351884.dkr.ecr.ap-southeast-2.amazonaws.com/pytorch-training:2.5.1-gpu-py311";
         InstanceType := inferenceInstanceType;
         VolumeSizeInGB := 100%Z;
         MaxRuntimeInSeconds := (30 * 3600)%Z |} ] in
  let lastStep := ("integration-analysis-" ++ channel)%string in
  steps ++
  [ {| Name := ("cleanup-broadcast-" ++ channel ++ "-" ++ region)%string;
       DependsOn := [lastStep];
       TrainingImage :=
         "763104351884.dkr.ecr.ap-southeast-2.amazonaws.com/pytorch-training:2.0.0-gpu-py310";
       InstanceType := "ml.t3.large";
       VolumeSizeInGB := 30%Z;
       MaxRuntimeInSeconds := 1800%Z |} ].

(** Every dependency of a step is the name of the step just before it, and
    the first step has none. *)
Fixpoint chained (previous : option string) (l : list Step) : Prop :=
  match l with
  | [] => True
  | s :: rest =>
      DependsOn s = match previous with Some n => [n] | None => [] end
      /\ chained (Some (Name s)) rest
  end.

End Pipeline.

(** ** A store that already holds broadcasts of the day *)

Module Replay.

(** Two stored broadcasts of the United Cup day on Nine in Brisbane:
    20:00 to 22:00 on 2026-01-03 and 10:00 to 11:00 on 2026-01-04 (UTC). *)
Definition morning : Broadcast :=
  {| broadcastId := 0; broadcastName := "UNITED CUP DAY 4 (BNE)";
     startTime := 1767470400000%Z; endTime := 1767477600000%Z;
     status := PENDING; channel := CH9; region := BNE; broadcastDayId := 0 |}.

Definition midday : Broadcast :=
  {| broadcastId := 1; broadcastName := "UNITED CUP DAY 4 (BNE)";
     startTime := Sample.tenOClock; endTime := (Sample.tenOClock + 3600000)%Z;
     status := PENDING; channel := CH9; region := BNE; broadcastDayId := 0 |}.

Definition store : Store :=
  {| catalog := [Sample.unitedCup]; days := [Sample.unitedCupDay];
     broadcasts := [morning; midday]; logFiles := [] |}.

(** A file of the day with the program at 06:00, 16:00 and 20:30 local
    time, that is 20:00, 06:00 and 10:30 UTC: three segments, the first
    inside [morning], the third inside [midday], the second clear of both. *)
Definition record : S3Record :=
  {| objectKey := "logs/20260104_BRI-NINE.LOG";
     fileNameMatch := Some ("20260104", "BRI", "NINE");
     objectBody :=
       Sample.unlines
         [ Sample.line "BRININ" "20260104 06:00:00:02" "KEY0001" "M" "UNITED CUP DAY 4";
           Sample.line "BRININ" "20260104 16:00:00:00" "KEY0005" "M" "UNITED CUP DAY 4";
           Sample.line "BRININ" "20260104 20:30:00:00" "KEY0006" "M" "UNITED CUP DAY 4" ] |}.

End Replay.

(** * Properties *)

(** ** The overlap guard *)

Lemma overlapWhere_of_standard (newStart newEnd : Z) (b : Broadcast) :
  standardOverlap newStart newEnd (startTime b) (endTime b) ->
  overlapWhere newStart newEnd b = true.
Proof.
  unfold standardOverlap, overlapWhere. intros H.
  destruct (Z.leb_spec (startTime b) newStart);
    destruct (Z.ltb_spec newStart (endTime b));
    destruct (Z.ltb_spec (startTime b) newEnd);
    destruct (Z.leb_spec newEnd (endTime b));
    destruct (Z.leb_spec newStart (startTime b));
    destruct (Z.leb_spec (endTime b) newEnd);
    simpl; try reflexivity; exfalso; apply H; lia.
Qed.

Lemma standard_of_overlapWhere (newStart newEnd : Z) (b : Broadcast) :
  (newStart < newEnd)%Z -> (startTime b < endTime b)%Z ->
  overlapWhere newStart newEnd b = true ->
  standardOverlap newStart newEnd (startTime b) (endTime b).
Proof.
  unfold standardOverlap, overlapWhere. intros Hn Hb H.
  rewrite !Bool.orb_true_iff, !Bool.andb_true_iff in H.
  rewrite !Z.leb_le, !Z.ltb_lt in H. lia.
Qed.

(** C2 (as amended). For a candidate and a stored broadcast that both start
    before they end, the three-way condition of the overlap query holds
    exactly when the standard half-open test does; and against a stored
    broadcast of one hour, the contained candidate and the two straddling
    candidates are found overlapping while the abutting one is not. *)
Theorem overlap_query_is_standard_test
        (newStart newEnd : Z) (b : Broadcast)
        (Hnew : (newStart < newEnd)%Z)
        (Hold : (startTime b < endTime b)%Z) :
  (overlapWhere newStart newEnd b = true
   <-> standardOverlap newStart newEnd (startTime b) (endTime b))
  /\ (forall (st : Store) (x : Broadcast),
         broadcasts st = [x] ->
         endTime x = (startTime x + 3600000)%Z ->
         let s := startTime x in
         let query := findOverlappingBroadcast st (broadcastDayId x) (channel x) (region x) in
         query (s + 1800000)%Z (s + 2700000)%Z = Some x
         /\ query (s - 1800000)%Z (s + 1800000)%Z = Some x
         /\ query (s + 2700000)%Z (s + 5400000)%Z = Some x
         /\ query (s + 3600000)%Z (s + 7200000)%Z = None).
Proof.
  split.
  - split.
    + now apply standard_of_overlapWhere.
    + apply overlapWhere_of_standard.
  - intros st x Hst Hend s query. subst s query.
    unfold findOverlappingBroadcast. rewrite Hst. simpl.
    rewrite Nat.eqb_refl.
    assert (Hc : channelEqb (channel x) (channel x) = true) by (destruct (channel x); reflexivity).
    assert (Hr : regionEqb (region x) (region x) = true) by (destruct (region x); reflexivity).
    rewrite Hc, Hr. simpl. unfold overlapWhere. rewrite Hend.
    repeat split.
    + replace ((startTime x <=? startTime x + 1800000)%Z) with true by (symmetry; apply Z.leb_le; lia).
      replace ((startTime x + 1800000 <? startTime x + 3600000)%Z) with true by (symmetry; apply Z.ltb_lt; lia).
      reflexivity.
    + replace ((startTime x <=? startTime x - 1800000)%Z) with false by (symmetry; apply Z.leb_gt; lia).
      replace ((startTime x <? startTime x + 1800000)%Z) with true by (symmetry; apply Z.ltb_lt; lia).
      replace ((startTime x + 1800000 <=? startTime x + 3600000)%Z) with true by (symmetry; apply Z.leb_le; lia).
      reflexivity.
    + replace ((startTime x <=? startTime x + 2700000)%Z) with true by (symmetry; apply Z.leb_le; lia).
      replace ((startTime x + 2700000 <? startTime x + 3600000)%Z) with true by (symmetry; apply Z.ltb_lt; lia).
      reflexivity.
    + replace ((startTime x <=? startTime x + 3600000)%Z) with true by (symmetry; apply Z.leb_le; lia).
      replace ((startTime x + 3600000 <? startTime x + 3600000)%Z) with false by (symmetry; apply Z.ltb_ge; lia).
      replace ((startTime x <? startTime x + 7200000)%Z) with true by (symmetry; apply Z.ltb_lt; lia).
      replace ((startTime x + 7200000 <=? startTime x + 3600000)%Z) with false by (symmetry; apply Z.leb_gt; lia).
      replace ((startTime x + 3600000 <=? startTime x)%Z) with false by (symmetry; apply Z.leb_gt; lia).
      reflexivity.
Qed.

(** The amended C2 at the broadcast from 10:00 to 11:00 and the candidate
    from 10:30 to 10:45. *)
Lemma overlap_query_is_standard_test_witness :
  (Sample.tenOClock + 1800000 < Sample.tenOClock + 2700000)%Z
  /\ (startTime Sample.tenToEleven < endTime Sample.tenToEleven)%Z
  /\ (overlapWhere (Sample.tenOClock + 1800000) (Sample.tenOClock + 2700000)
                   Sample.tenToEleven = true
      <-> standardOverlap (Sample.tenOClock + 1800000) (Sample.tenOClock + 2700000)
                          (startTime Sample.tenToEleven) (endTime Sample.tenToEleven)).
Proof.
  split; [reflexivity|]. split; [reflexivity|].
  apply (overlap_query_is_standard_test
           (Sample.tenOClock + 1800000) (Sample.tenOClock + 2700000)
           Sample.tenToEleven); reflexivity.
Defined.

(** C2 as stated fails for a candidate of no length: the candidate from
    10:00 to 10:00 satisfies the first disjunct of the query against the
    broadcast from 10:00 to 11:00, and the standard test rejects it. *)
Lemma overlap_query_empty_candidate :
  overlapWhere Sample.tenOClock Sample.tenOClock Sample.tenToEleven = true
  /\ ~ standardOverlap Sample.tenOClock Sample.tenOClock
                       (startTime Sample.tenToEleven) (endTime Sample.tenToEleven).
Proof.
  split; [reflexivity|].
  unfold standardOverlap. intros H. apply H. left. simpl. lia.
Qed.

(** ** Time-zone resolution *)







(** ** The decoder *)

Section DecoderFacts.
Context {platform : Platform}.

Lemma makeEntry_lineNumber region n line :
  lineNumber (makeEntry region n line) = n + 1.
Proof.
  unfold makeEntry. destruct (parseDateTime _ _) as [[? ?] ?]. reflexivity.
Qed.

Lemma makeEntry_oid region n line : oid (makeEntry region n line) = n.
Proof.
  unfold makeEntry. destruct (parseDateTime _ _) as [[? ?] ?]. reflexivity.
Qed.

Lemma makeEntry_rawLine region n line :
  rawLine (makeEntry region n line) = Js.trim line.
Proof.
  unfold makeEntry. destruct (parseDateTime _ _) as [[? ?] ?]. reflexivity.
Qed.

Lemma makeEntry_classified region n line : classified (makeEntry region n line).
Proof.
  unfold classified, makeEntry. destruct (parseDateTime _ _) as [[? ?] ?].
  reflexivity.
Qed.

Lemma makeEntry_stamps region n line :
  (dateTime (makeEntry region n line), localDateTime (makeEntry region n line),
   time (makeEntry region n line))
  = parseDateTime (timestampField line) region.
Proof.
  unfold makeEntry, timestampField.
  destruct (parseDateTime _ _) as [[? ?] ?]. reflexivity.
Qed.

Lemma parseDateTime_no_shape raw region :
  timestampShape raw = false -> parseDateTime raw region = (None, None, None).
Proof.
  unfold timestampShape, parseDateTime. intros H.
  destruct (Js.truthy raw && (17 <=? String.length raw)); [|reflexivity].
  cbn [andb] in H.
  destruct (Js.split " " raw) as [|datePart [|timePart ps]]; try reflexivity.
  destruct (8 <=? String.length datePart); [|reflexivity].
  cbn [andb] in H.
  destruct (Js.split ":" timePart) as [|hh [|mi [|ss cs]]]; try reflexivity.
  discriminate H.
Qed.

(** A field that passes the structural tests: the two texts are cut from
    its date part and from the first three components of its time part,
    and [dateTime] is what the conversion returns, null when it throws. *)
Lemma parseDateTime_shape_text raw region :
  timestampShape raw = true ->
  exists datePart timePart parts hh mi ss comps,
    Js.split " " raw = datePart :: timePart :: parts
    /\ Js.split ":" timePart = hh :: mi :: ss :: comps
    /\ parseDateTime raw region
       = (match convertToUTC (Js.substring 0 4 datePart) (Js.substring 4 6 datePart)
                             (Js.substring 6 8 datePart) hh mi ss region with
          | Returned utcDateTime => utcDateTime
          | Thrown => None
          end,
          Some (Js.substring 0 4 datePart ++ "-" ++ Js.substring 4 6 datePart ++ "-"
                ++ Js.substring 6 8 datePart ++ "T" ++ hh ++ ":" ++ mi ++ ":" ++ ss)%string,
          Some (hh ++ ":" ++ mi ++ ":" ++ ss)%string).
Proof.
  unfold timestampShape, parseDateTime. intros H.
  destruct (Js.truthy raw && (17 <=? String.length raw)); [|discriminate H].
  cbn [andb] in H.
  destruct (Js.split " " raw) as [|datePart [|timePart ps]]; try discriminate H.
  destruct (8 <=? String.length datePart); [|discriminate H].
  cbn [andb] in H.
  destruct (Js.split ":" timePart) as [|hh [|mi [|ss cs]]] eqn:Hc; try discriminate H.
  exists datePart, timePart, ps, hh, mi, ss, cs.
  split; [reflexivity|]. split; [exact Hc|].
  destruct (convertToUTC _ _ _ _ _ _ _); reflexivity.
Qed.

Lemma parseDateTime_shape raw region :
  timestampShape raw = true ->
  exists utc local clock,
    parseDateTime raw region = (utc, Some local, Some clock).
Proof.
  unfold timestampShape, parseDateTime. intros H.
  destruct (Js.truthy raw && (17 <=? String.length raw)); [|discriminate H].
  cbn [andb] in H.
  destruct (Js.split " " raw) as [|datePart [|timePart ps]]; try discriminate H.
  destruct (8 <=? String.length datePart); [|discriminate H].
  cbn [andb] in H.
  destruct (Js.split ":" timePart) as [|hh [|mi [|ss cs]]]; try discriminate H.
  destruct (convertToUTC _ _ _ _ _ _ _); eauto.
Qed.

(** The loop appends to the three lists what it builds from the kept
    lines. *)
Lemma parseLoop_lists region lines : forall n result,
  let out := parseLoop region lines n result in
  let built := keptEntries region lines n in
  allEntries out = allEntries result ++ built
  /\ billboards out
     = billboards result ++ filter (fun e => truthyV (isBillboard e)) built
  /\ programs out
     = programs result
       ++ filter (fun e => negb (truthyV (isBillboard e)) && isProgramType e) built.
Proof.
  induction lines as [|line rest IH]; intros n result; simpl.
  - rewrite !app_nil_r. auto.
  - unfold lineKept.
    destruct (Js.truthy (Js.trim line)); simpl; [|apply IH].
    destruct (String.length line <? 360); simpl; [apply IH|].
    destruct (IH (S n) (pushEntry result (makeEntry region n line)))
      as (Ha & Hb & Hp).
    rewrite Ha, Hb, Hp. unfold pushEntry, isProgramType. simpl.
    destruct (truthyV (isBillboard (makeEntry region n line))); simpl.
    + rewrite <- !app_assoc. auto.
    + destruct (String.eqb (materialType (makeEntry region n line)) "M"
                || String.eqb (materialType (makeEntry region n line)) "S");
        rewrite <- !app_assoc; auto.
Qed.

Lemma keptEntries_origin region lines : forall n e,
  In e (keptEntries region lines n) ->
  exists i line, nth_error lines i = Some line /\ lineKept line = true
                 /\ e = makeEntry region (n + i) line.
Proof.
  induction lines as [|l rest IH]; intros n e H; simpl in H; [contradiction|].
  destruct (lineKept l) eqn:Hk.
  - destruct H as [<-|H].
    + exists 0, l. rewrite Nat.add_0_r. auto.
    + destruct (IH _ _ H) as (i & line & Hn & Hl & ->).
      exists (S i), line. repeat split; auto. f_equal. lia.
  - destruct (IH _ _ H) as (i & line & Hn & Hl & ->).
    exists (S i), line. repeat split; auto. f_equal. lia.
Qed.

Lemma keptEntries_present region lines : forall n i line,
  nth_error lines i = Some line -> lineKept line = true ->
  In (makeEntry region (n + i) line) (keptEntries region lines n).
Proof.
  induction lines as [|l rest IH]; intros n i line Hn Hk.
  - destruct i; discriminate.
  - destruct i as [|i]; simpl in Hn.
    + injection Hn as ->. simpl. rewrite Hk, Nat.add_0_r. now left.
    + simpl. replace (n + S i) with (S n + i) by lia.
      destruct (lineKept l); [right|]; now apply IH.
Qed.

Lemma keptEntries_classified region lines n :
  Forall classified (keptEntries region lines n).
Proof.
  apply Forall_forall. intros e H.
  destruct (keptEntries_origin _ _ _ _ H) as (i & line & _ & _ & ->).
  apply makeEntry_classified.
Qed.

Lemma keptEntries_above region lines : forall n,
  Forall (fun e => n < lineNumber e) (keptEntries region lines n).
Proof.
  intros n. apply Forall_forall. intros e H.
  destruct (keptEntries_origin _ _ _ _ H) as (i & line & _ & _ & ->).
  rewrite makeEntry_lineNumber. lia.
Qed.

Lemma keptEntries_sorted region lines : forall n,
  StronglySorted lt (map lineNumber (keptEntries region lines n)).
Proof.
  induction lines as [|l rest IH]; intros n; simpl; [constructor|].
  destruct (lineKept l); [|apply IH].
  simpl. constructor; [apply IH|].
  rewrite makeEntry_lineNumber. apply Forall_map.
  eapply Forall_impl; [|apply keptEntries_above]. simpl. intros; lia.
Qed.

(** A billboard is an interstitial; so it is no program segment. *)
Lemma billboard_is_interstitial e :
  classified e -> truthyV (isBillboard e) = true -> materialType e = "I".
Proof.
  unfold classified, isBillboardOf. intros ->.
  destruct (String.eqb_spec (materialType e) "I"); [auto|discriminate].
Qed.

Lemma classified_program_filter e :
  classified e ->
  negb (truthyV (isBillboard e)) && isProgramType e = isProgramType e.
Proof.
  intros Hc. destruct (truthyV (isBillboard e)) eqn:Hb; [|reflexivity].
  apply (billboard_is_interstitial e Hc) in Hb.
  unfold isProgramType. rewrite Hb. reflexivity.
Qed.

Lemma filter_ext_Forall {A} (f g : A -> bool) (l : list A) :
  Forall (fun x => f x = g x) l -> filter f l = filter g l.
Proof.
  induction 1 as [|x l Hx _ IH]; simpl; [reflexivity|].
  rewrite Hx, IH. reflexivity.
Qed.

(** The three lists of [parseLogs]. *)
Lemma parseLogs_lists content region :
  let d := parseLogs content region in
  allEntries d = keptEntries region (Js.split "010" content) 0
  /\ billboards d = filter (fun e => truthyV (isBillboard e)) (allEntries d)
  /\ programs d = filter isProgramType (allEntries d).
Proof.
  unfold parseLogs.
  destruct (parseLoop_lists region (Js.split "010" content) 0
              {| billboards := []; programs := []; allEntries := [] |})
    as (Ha & Hb & Hp).
  simpl in *. rewrite Ha, Hb, Hp. repeat split.
  apply filter_ext_Forall.
  eapply Forall_impl; [|apply keptEntries_classified].
  intros e He. now apply classified_program_filter.
Qed.

Lemma parseLogs_sorted content region :
  StronglySorted lt (map lineNumber (allEntries (parseLogs content region))).
Proof.
  destruct (parseLogs_lists content region) as (-> & _). apply keptEntries_sorted.
Qed.

Lemma parseLogs_classified content region :
  Forall classified (allEntries (parseLogs content region)).
Proof.
  destruct (parseLogs_lists content region) as (-> & _).
  apply keptEntries_classified.
Qed.

End DecoderFacts.

(** C7 (as amended). Every kept line has its entry in [allEntries], with
    its line number, whatever the other lines are; when the timestamp field
    fails the structural tests of the decoder the three time fields of the
    entry are null; when it passes them, [localDateTime] and [time] hold
    the text cut from the field (the first eight characters of its date
    part, in three groups, and the first three components of its time
    part), whether or not the conversion to UTC succeeds, and [dateTime] is
    what the conversion returns, null when it throws; the line numbers of
    [allEntries] increase strictly, and [billboards] and [programs] are
    what two filters keep of [allEntries], in the same order. *)
Theorem decoding_keeps_degraded_entries
        {platform : Platform} (content region : string) :
  let d := parseLogs content region in
  (forall i line,
      nth_error (Js.split "010" content) i = Some line ->
      lineKept line = true ->
      exists e,
        In e (allEntries d) /\ lineNumber e = i + 1 /\ rawLine e = Js.trim line
        /\ (timestampShape (timestampField line) = false ->
            dateTime e = None /\ localDateTime e = None /\ time e = None)
        /\ (timestampShape (timestampField line) = true ->
            exists datePart timePart parts hh mi ss comps,
              Js.split " " (timestampField line) = datePart :: timePart :: parts
              /\ Js.split ":" timePart = hh :: mi :: ss :: comps
              /\ localDateTime e
                 = Some (Js.substring 0 4 datePart ++ "-" ++ Js.substring 4 6 datePart
                         ++ "-" ++ Js.substring 6 8 datePart
                         ++ "T" ++ hh ++ ":" ++ mi ++ ":" ++ ss)%string
              /\ time e = Some (hh ++ ":" ++ mi ++ ":" ++ ss)%string
              /\ dateTime e
                 = match convertToUTC (Js.substring 0 4 datePart)
                                      (Js.substring 4 6 datePart)
                                      (Js.substring 6 8 datePart) hh mi ss region with
                   | Returned utcDateTime => utcDateTime
                   | Thrown => None
                   end))
  /\ StronglySorted lt (map lineNumber (allEntries d))
  /\ billboards d = filter (fun e => truthyV (isBillboard e)) (allEntries d)
  /\ programs d = filter isProgramType (allEntries d).
Proof.
  intros d. subst d.
  destruct (parseLogs_lists content region) as (Ha & Hb & Hp).
  split; [|split; [apply parseLogs_sorted|auto]].
  intros i line Hn Hk.
  exists (makeEntry region i line).
  split; [rewrite Ha; apply (keptEntries_present region _ 0 i line Hn Hk)|].
  split; [apply makeEntry_lineNumber|].
  split; [apply makeEntry_rawLine|].
  pose proof (makeEntry_stamps region i line) as Hs.
  split; intros Hshape.
  - rewrite (parseDateTime_no_shape _ region Hshape) in Hs.
    injection Hs as -> -> ->. auto.
  - destruct (parseDateTime_shape_text _ region Hshape)
      as (datePart & timePart & parts & hh & mi & ss & comps & Hsp & Hc & Hp').
    rewrite Hp' in Hs. injection Hs as -> -> ->.
    exists datePart, timePart, parts, hh, mi, ss, comps. repeat split; assumption.
Qed.

(** C7 as stated fails on a kept line whose timestamp is written
    [2026/01/04 06:00:00]: the conversion fails and [dateTime] is null, but
    [localDateTime] and [time] hold the text cut from the field. *)
Lemma decoding_slash_timestamp_keeps_time :
  lineKept Sample.slashLine = true
  /\ map (fun e => (dateTime e, localDateTime e, time e))
         (allEntries (@parseLogs Sample.platform Sample.slashLine "BNE"))
     = [ (None, Some "2026-/0-1/T06:00:00", Some "06:00:00") ].
Proof.
  split; vm_compute; reflexivity.
Qed.

(** Three lines: the slash timestamp, a line that is too short, and an
    interstitial with a blank title.  The short line is passed over and the
    other two are decoded, with their own line numbers. *)
Example decoding_three_lines :
  let d := @parseLogs Sample.platform
             (Sample.unlines [Sample.slashLine; Sample.shortLine;
                              Sample.blankTitleLine]) "BNE" in
  map lineNumber (allEntries d) = [1; 3]
  /\ map lineNumber (programs d) = [1]
  /\ billboards d = [].
Proof.
  vm_compute. repeat split; reflexivity.
Qed.

(** C10. In the output of the decoder, an entry whose material type is not
    ["I"] has [isBillboard] the boolean [false]; an entry of type ["I"]
    whose title is empty has [isBillboard] the empty string, and is in
    neither [billboards] nor [programs]. *)
Theorem isBillboard_of_decoded_entry
        {platform : Platform} (content region : string) (e : LogEntry)
        (He : In e (allEntries (parseLogs content region))) :
  (materialType e <> "I" -> isBillboard e = IsBool false)
  /\ (materialType e = "I" -> databaseTitle e = "" ->
      isBillboard e = IsStr ""
      /\ ~ In e (billboards (parseLogs content region))
      /\ ~ In e (programs (parseLogs content region))).
Proof.
  destruct (parseLogs_lists content region) as (_ & Hb & Hp).
  pose proof (parseLogs_classified content region) as Hc.
  rewrite Forall_forall in Hc. specialize (Hc e He). unfold classified in Hc.
  split.
  - intros Hne. rewrite Hc. unfold isBillboardOf.
    destruct (String.eqb_spec (materialType e) "I"); [contradiction|reflexivity].
  - intros Hty Htitle.
    assert (Hv : isBillboard e = IsStr "").
    { rewrite Hc, Hty, Htitle. reflexivity. }
    split; [exact Hv|]. split.
    + rewrite Hb. intros Hin. apply filter_In in Hin. destruct Hin as [_ Ht].
      rewrite Hv in Ht. discriminate.
    + rewrite Hp. intros Hin. apply filter_In in Hin. destruct Hin as [_ Ht].
      unfold isProgramType in Ht. rewrite Hty in Ht. discriminate.
Qed.

(** C10 at the interstitial line with a blank title. *)
Lemma isBillboard_of_decoded_entry_witness :
  In Sample.blankTitleEntry
     (allEntries (@parseLogs Sample.platform Sample.blankTitleLine "BNE"))
  /\ isBillboard Sample.blankTitleEntry = IsStr ""
  /\ ~ In Sample.blankTitleEntry
          (billboards (@parseLogs Sample.platform Sample.blankTitleLine "BNE"))
  /\ ~ In Sample.blankTitleEntry
          (programs (@parseLogs Sample.platform Sample.blankTitleLine "BNE")).
Proof.
  assert (H : In Sample.blankTitleEntry
                 (allEntries (@parseLogs Sample.platform Sample.blankTitleLine "BNE")))
    by (vm_compute; left; reflexivity).
  split; [exact H|].
  apply (@isBillboard_of_decoded_entry Sample.platform Sample.blankTitleLine "BNE"
           Sample.blankTitleEntry H); reflexivity.
Defined.

(** ** Segment building *)

Section SegmentFacts.
Context {platform : Platform}.

Lemma neighbours_at {A} (R : A -> A -> Prop) (l : list A) :
  neighbours R l ->
  forall pre a b post, l = pre ++ a :: b :: post -> R a b.
Proof.
  intros H pre. revert l H.
  induction pre as [|x pre IH]; intros l H a b post ->; simpl in H.
  - tauto.
  - destruct (pre ++ a :: b :: post) as [|y l'] eqn:E.
    + destruct pre; discriminate.
    + destruct H as [_ H]. eapply IH; eauto.
Qed.

(** The loop, from any of its states: [pre] is what it has walked. *)
Lemma segmentLoop_from (matching : list LogEntry) :
  forall rest pre cur acc start,
    matching = pre ++ rest ->
    (rest <> [] -> forall d, nth cur matching d = start) ->
    segmentLoop matching rest (List.length pre) cur acc
    = acc ++ segmentsFrom start rest.
Proof.
  induction rest as [|currentEntry rest' IH]; intros pre cur acc start Hm Hs.
  - simpl. now rewrite app_nil_r.
  - assert (Hstart : nth cur matching currentEntry = start)
      by (apply Hs; discriminate).
    simpl. destruct rest' as [|nextEntry rest''].
    + rewrite Hstart. reflexivity.
    + assert (Hpre : matching = (pre ++ [currentEntry]) ++ nextEntry :: rest'')
        by (rewrite <- app_assoc; exact Hm).
      assert (Hlen : S (List.length pre) = List.length (pre ++ [currentEntry]))
        by (rewrite length_app; simpl; lia).
      destruct (significantGap currentEntry nextEntry).
      * rewrite Hstart, Hlen.
        rewrite (IH (pre ++ [currentEntry]) _ _ nextEntry Hpre).
        -- rewrite <- app_assoc. reflexivity.
        -- intros _ d. rewrite Hpre.
           replace (List.length pre + 1) with (List.length (pre ++ [currentEntry]) + 0)
             by (rewrite length_app; simpl; lia).
           rewrite app_nth2_plus. reflexivity.
      * rewrite Hlen.
        apply (IH (pre ++ [currentEntry]) _ _ start Hpre).
        intros _ d. apply Hs. discriminate.
Qed.

Lemma buildSegments_from (l : list LogEntry) (d : LogEntry) :
  buildSegments l = segmentsFrom (hd d l) l.
Proof.
  unfold buildSegments.
  change (segmentLoop l l 0 0 []) with (segmentLoop l l (List.length (@nil LogEntry)) 0 []).
  rewrite (segmentLoop_from l l [] 0 [] (hd d l) eq_refl); [reflexivity|].
  intros Hne d'. destruct l; [contradiction|reflexivity].
Qed.

Lemma splitAtGaps_head (b : LogEntry) (l : list LogEntry) :
  exists c cs, splitAtGaps (b :: l) = (b :: c) :: cs.
Proof.
  simpl. destruct l as [|b' l']; [eauto|].
  destruct (splitAtGaps (b' :: l')) as [|c cs]; [eauto|].
  destruct (significantGap b b'); eauto.
Qed.

Lemma segmentsFrom_split (d : LogEntry) (l : list LogEntry) :
  forall start,
    segmentsFrom start l
    = match splitAtGaps l with
      | [] => []
      | c :: cs =>
          {| startEntry := start; endEntry := last c d |}
            :: map (fun c => segmentOf c d) cs
      end.
Proof.
  induction l as [|a l' IH]; intros start; [reflexivity|].
  destruct l' as [|b l'']; [reflexivity|].
  destruct (splitAtGaps_head b l'') as (c & cs & Hsplit).
  change (segmentsFrom start (a :: b :: l''))
    with (if significantGap a b
          then {| startEntry := start; endEntry := a |} :: segmentsFrom b (b :: l'')
          else segmentsFrom start (b :: l'')).
  change (splitAtGaps (a :: b :: l''))
    with (match splitAtGaps (b :: l'') with
          | c :: cs => if significantGap a b then [a] :: c :: cs else (a :: c) :: cs
          | [] => [[a]]
          end).
  rewrite !IH, Hsplit.
  destruct (significantGap a b); reflexivity.
Qed.

(** The segments are the first and last entries of the runs between
    significant gaps. *)
Lemma buildSegments_split (d : LogEntry) (l : list LogEntry) :
  buildSegments l = map (fun c => segmentOf c d) (splitAtGaps l).
Proof.
  rewrite (buildSegments_from l d), (segmentsFrom_split d).
  destruct l as [|a l']; [reflexivity|].
  destruct (splitAtGaps_head a l') as (c & cs & ->). reflexivity.
Qed.

Lemma splitAtGaps_concat (l : list LogEntry) : List.concat (splitAtGaps l) = l.
Proof.
  induction l as [|a l' IH]; [reflexivity|].
  destruct l' as [|b l'']; [reflexivity|].
  change (splitAtGaps (a :: b :: l''))
    with (match splitAtGaps (b :: l'') with
          | c :: cs => if significantGap a b then [a] :: c :: cs else (a :: c) :: cs
          | [] => [[a]]
          end).
  destruct (splitAtGaps_head b l'') as (c & cs & Hsplit).
  rewrite Hsplit in *. destruct (significantGap a b); simpl in *; now rewrite IH.
Qed.

Lemma splitAtGaps_nonempty (l : list LogEntry) :
  Forall (fun c => c <> []) (splitAtGaps l).
Proof.
  induction l as [|a l' IH]; [constructor|].
  destruct l' as [|b l'']; [repeat constructor; discriminate|].
  change (splitAtGaps (a :: b :: l''))
    with (match splitAtGaps (b :: l'') with
          | c :: cs => if significantGap a b then [a] :: c :: cs else (a :: c) :: cs
          | [] => [[a]]
          end).
  destruct (splitAtGaps (b :: l'')) as [|c cs].
  - repeat constructor; discriminate.
  - inversion IH; subst.
    destruct (significantGap a b); repeat constructor; auto; discriminate.
Qed.

(** No significant gap inside a run; one between two runs. *)
Lemma splitAtGaps_inside (l : list LogEntry) :
  Forall (neighbours (fun a b => significantGap a b = false)) (splitAtGaps l).
Proof.
  induction l as [|a l' IH]; [constructor|].
  destruct l' as [|b l'']; [repeat constructor|].
  change (splitAtGaps (a :: b :: l''))
    with (match splitAtGaps (b :: l'') with
          | c :: cs => if significantGap a b then [a] :: c :: cs else (a :: c) :: cs
          | [] => [[a]]
          end).
  destruct (splitAtGaps_head b l'') as (c & cs & Hsplit).
  rewrite Hsplit in *. inversion IH; subst.
  destruct (significantGap a b) eqn:Hg.
  - repeat constructor; auto.
  - constructor; auto. simpl. auto.
Qed.

Lemma splitAtGaps_between (d : LogEntry) (l : list LogEntry) :
  neighbours (fun c1 c2 => significantGap (last c1 d) (hd d c2) = true)
             (splitAtGaps l).
Proof.
  induction l as [|a l' IH]; [exact I|].
  destruct l' as [|b l'']; [exact I|].
  change (splitAtGaps (a :: b :: l''))
    with (match splitAtGaps (b :: l'') with
          | c :: cs => if significantGap a b then [a] :: c :: cs else (a :: c) :: cs
          | [] => [[a]]
          end).
  destruct (splitAtGaps_head b l'') as (c & cs & Hsplit).
  rewrite Hsplit in *.
  destruct (significantGap a b) eqn:Hg.
  - split; [exact Hg|exact IH].
  - destruct cs as [|c2 cs']; [exact I|].
    destruct IH as [H1 H2]. split; [|exact H2].
    exact H1.
Qed.

Lemma truthy_nonempty (s : string) : s <> "" -> Js.truthy s = true.
Proof. destruct s; [contradiction|reflexivity]. Qed.

(** The test of the loop says what the specification says, on entries
    that do not carry an empty timestamp. *)
Lemma significantGap_iff (a b : LogEntry) :
  dateTime a <> Some "" -> dateTime b <> Some "" ->
  (significantGap a b = true <-> gapOver30 a b).
Proof.
  intros Ha Hb. unfold significantGap, gapOver30, MAX_GAP_MINUTES. split.
  - destruct (dateTime a) as [sa|]; [|discriminate].
    destruct (dateTime b) as [sb|]; [|discriminate].
    destruct (Js.truthy sa && Js.truthy sb); [|discriminate].
    destruct (Date_parse sa) as [ta|] eqn:Pa; [|discriminate].
    destruct (Date_parse sb) as [tb|] eqn:Pb; [|discriminate].
    intros H. apply Z.ltb_lt in H.
    exists sa, sb, ta, tb. repeat split; auto. lia.
  - intros (sa & sb & ta & tb & Ea & Eb & Pa & Pb & Hgap).
    rewrite Ea, Eb in *.
    rewrite (truthy_nonempty sa), (truthy_nonempty sb), Pa, Pb by congruence.
    apply Z.ltb_lt. lia.
Qed.

Lemma last_concat_nonempty {A} (d : A) (chunks : list (list A)) (c : list A) :
  c <> [] -> last (List.concat (chunks ++ [c])) d = last c d.
Proof.
  intros Hc. rewrite concat_app. simpl. rewrite app_nil_r.
  destruct c as [|x c']; [contradiction|].
  induction (List.concat chunks) as [|y l IH]; [reflexivity|].
  simpl. destruct (l ++ x :: c') eqn:E; [destruct l; discriminate|exact IH].
Qed.

(** The first entries of the runs of a list with increasing line numbers
    have increasing line numbers. *)
Lemma heads_sorted (d : LogEntry) (chunks : list (list LogEntry)) :
  Forall (fun c => c <> []) chunks ->
  StronglySorted lt (map lineNumber (List.concat chunks)) ->
  StronglySorted lt (map (fun c => lineNumber (hd d c)) chunks).
Proof.
  induction 1 as [|c cs Hc Hcs IH]; intros Hs; [constructor|].
  destruct c as [|x c']; [contradiction|].
  simpl in *. inversion Hs as [|? ? Hrest Hall]; subst.
  constructor.
  - apply IH. rewrite map_app in Hrest.
    clear - Hrest. induction (map lineNumber c') as [|y l IHl]; [exact Hrest|].
    simpl in Hrest. inversion Hrest; subst. auto.
  - rewrite map_app in Hall. apply Forall_app in Hall. destruct Hall as [_ Hall].
    clear - Hcs Hall. induction Hcs as [|c cs Hc Hcs IH]; [constructor|].
    destruct c as [|y c'']; [contradiction|].
    simpl in *. inversion Hall; subst.
    constructor; [assumption|]. apply IH.
    rewrite map_app in H2. apply Forall_app in H2. tauto.
Qed.

(** A segment without a usable start time changes nothing. *)
Lemma processSegment_invalid_start parsedLogs program day meta acc seg :
  dateTime (startEntry seg) = None
  \/ (exists s, dateTime (startEntry seg) = Some s /\ Date_parse s = None) ->
  processSegment parsedLogs program day meta acc seg = acc.
Proof.
  unfold processSegment. destruct acc as [st rs].
  intros [H|(s & H & Hp)]; rewrite H.
  - rewrite Bool.orb_true_r. reflexivity.
  - rewrite Hp. destruct (_ || _); reflexivity.
Qed.

End SegmentFacts.

Lemma sorted_filter {platform : Platform} (f : LogEntry -> bool) (l : list LogEntry) :
  StronglySorted lt (map lineNumber l) ->
  StronglySorted lt (map lineNumber (filter f l)).
Proof.
  induction l as [|x l IH]; intros H; simpl; [constructor|].
  simpl in H. inversion H as [|? ? Hs Hall]; subst.
  destruct (f x); simpl; [|auto].
  constructor; [auto|].
  rewrite Forall_map in *. rewrite Forall_forall in *.
  intros y Hy. apply Hall. apply filter_In in Hy. tauto.
Qed.

(** The entries the handler matches to a keyword have increasing line
    numbers and no empty timestamp. *)
Lemma matchingEntries_sorted {platform : Platform} (content region kw : string) :
  StronglySorted lt
    (map lineNumber
         (filter (titleMatches kw) (programs (parseLogs content region)))).
Proof.
  destruct (parseLogs_lists content region) as (_ & _ & ->).
  do 2 apply sorted_filter. apply parseLogs_sorted.
Qed.

Lemma toISO_nonempty (ms : Z) : Civil.toISO ms <> "".
Proof.
  unfold Civil.toISO. destruct (Civil.civilFromDays _) as [[y m] d].
  unfold Civil.isoYear.
  destruct (y <? 0)%Z; [discriminate|].
  destruct (9999 <? y)%Z; [discriminate|].
  simpl. destruct (Civil.pad 3 (y / 10 / 10 / 10)); discriminate.
Qed.

Lemma parseDateTime_nonempty {platform : Platform} (raw region : string) :
  fst (fst (parseDateTime raw region)) <> Some "".
Proof.
  unfold parseDateTime.
  destruct (_ && _); [|discriminate].
  destruct (Js.split " " raw) as [|datePart [|timePart ps]]; try discriminate.
  destruct (8 <=? _); [|discriminate].
  destruct (Js.split ":" timePart) as [|hh [|mi [|ss cs]]]; try discriminate.
  unfold convertToUTC, luxonToUTCISO.
  destruct (getTimezoneForRegion region); [|discriminate].
  repeat match goal with
         | |- context [match Js.parseInt ?s with _ => _ end] =>
             destruct (Js.parseInt s)
         end; try discriminate.
  match goal with |- context [if ?c then _ else _] => destruct c end;
    [|discriminate].
  simpl. intros [= H]. exact (toISO_nonempty _ H).
Qed.

Lemma parseLogs_dateTime_nonempty {platform : Platform} (content region : string) :
  Forall (fun e => dateTime e <> Some "") (allEntries (parseLogs content region)).
Proof.
  destruct (parseLogs_lists content region) as (-> & _).
  apply Forall_forall. intros e H.
  destruct (keptEntries_origin _ _ _ _ H) as (i & line & _ & _ & ->).
  pose proof (makeEntry_stamps region (0 + i) line) as Hs.
  pose proof (parseDateTime_nonempty (timestampField line) region) as Hn.
  rewrite <- Hs in Hn. exact Hn.
Qed.

(** C1. For a list of matched entries none of which carries an empty
    timestamp, the segments are the first and last entries of consecutive
    runs of the list; two neighbours inside a run are never more than 30
    minutes apart with both timestamps present, and the last entry of a run
    and the first of the next always are; a pair with a null timestamp is
    never a split; the last entry closes the last segment; and three
    entries 20 and 45 minutes apart give two segments, split before the
    third. *)
Theorem segments_split_at_long_gaps
        {platform : Platform} (l : list LogEntry) (d : LogEntry)
        (Hstamps : Forall (fun e => dateTime e <> Some "") l) :
  (exists chunks,
      List.concat chunks = l
      /\ Forall (fun c => c <> []) chunks
      /\ buildSegments l = map (fun c => segmentOf c d) chunks
      /\ (forall c pre a b post,
             In c chunks -> c = pre ++ a :: b :: post -> ~ gapOver30 a b)
      /\ (forall pre c1 c2 post,
             chunks = pre ++ c1 :: c2 :: post ->
             gapOver30 (last c1 d) (hd d c2)))
  /\ (forall a b, dateTime a = None \/ dateTime b = None ->
                  significantGap a b = false)
  /\ (l <> [] ->
      exists segs s, buildSegments l = segs ++ [s] /\ endEntry s = last l d)
  /\ (forall e1 e2 e3 s1 s2 s3 t,
         l = [e1; e2; e3] ->
         dateTime e1 = Some s1 -> dateTime e2 = Some s2 -> dateTime e3 = Some s3 ->
         Date_parse s1 = Some t ->
         Date_parse s2 = Some (t + 20 * 60000)%Z ->
         Date_parse s3 = Some (t + 65 * 60000)%Z ->
         buildSegments l
         = [ {| startEntry := e1; endEntry := e2 |};
             {| startEntry := e3; endEntry := e3 |} ]).
Proof.
  pose proof (splitAtGaps_concat l) as Hcat.
  pose proof (splitAtGaps_nonempty l) as Hne.
  assert (Hin : forall c x, In c (splitAtGaps l) -> In x c -> dateTime x <> Some "").
  { intros c x Hc Hx. rewrite Forall_forall in Hstamps. apply Hstamps.
    rewrite <- Hcat. apply in_concat. eauto. }
  split; [|split; [|split]].
  - exists (splitAtGaps l).
    split; [exact Hcat|]. split; [exact Hne|].
    split; [apply buildSegments_split|]. split.
    + intros c pre a b post Hc Heq Hgap.
      pose proof (splitAtGaps_inside l) as Hins. rewrite Forall_forall in Hins.
      pose proof (neighbours_at _ _ (Hins c Hc) pre a b post Heq) as Hf.
      simpl in Hf.
      apply significantGap_iff in Hgap.
      * congruence.
      * apply (Hin c); [exact Hc|]. subst c. apply in_or_app. right. now left.
      * apply (Hin c); [exact Hc|]. subst c. apply in_or_app. right. right. now left.
    + intros pre c1 c2 post Heq.
      pose proof (neighbours_at _ _ (splitAtGaps_between d l) pre c1 c2 post Heq) as Ht.
      simpl in Ht.
      rewrite Forall_forall in Hne.
      assert (H1 : In c1 (splitAtGaps l))
        by (rewrite Heq; apply in_or_app; right; now left).
      assert (H2 : In c2 (splitAtGaps l))
        by (rewrite Heq; apply in_or_app; right; right; now left).
      apply significantGap_iff; [| |exact Ht].
      * apply (Hin c1 _ H1).
        destruct (exists_last (Hne c1 H1)) as (c' & x & ->).
        rewrite last_last. apply in_or_app. right. now left.
      * apply (Hin c2 _ H2).
        destruct c2 as [|x c']; [now apply Hne in H2|]. now left.
  - intros a b [H|H]; unfold significantGap; rewrite H; [reflexivity|].
    destruct (dateTime a); reflexivity.
  - intros Hl.
    assert (Hsplit : splitAtGaps l <> []).
    { intros E. rewrite E in Hcat. simpl in Hcat. congruence. }
    destruct (exists_last Hsplit) as (cs & c & E).
    exists (map (fun c => segmentOf c d) cs), (segmentOf c d).
    split.
    + rewrite (buildSegments_split d), E, map_app. reflexivity.
    + simpl. rewrite <- Hcat, E. symmetry. apply last_concat_nonempty.
      rewrite Forall_forall in Hne. apply Hne. rewrite E.
      apply in_or_app. right. now left.
  - intros e1 e2 e3 s1 s2 s3 t -> E1 E2 E3 P1 P2 P3.
    assert (N1 : s1 <> "") by (inversion Hstamps; congruence).
    assert (N2 : s2 <> "")
      by (inversion Hstamps as [|? ? _ H']; inversion H'; congruence).
    assert (N3 : s3 <> "")
      by (inversion Hstamps as [|? ? _ H']; inversion H' as [|? ? _ H''];
          inversion H''; congruence).
    assert (G12 : significantGap e1 e2 = false).
    { unfold significantGap, MAX_GAP_MINUTES.
      rewrite E1, E2, (truthy_nonempty _ N1), (truthy_nonempty _ N2), P1, P2.
      apply Z.ltb_ge. lia. }
    assert (G23 : significantGap e2 e3 = true).
    { unfold significantGap, MAX_GAP_MINUTES.
      rewrite E2, E3, (truthy_nonempty _ N2), (truthy_nonempty _ N3), P2, P3.
      apply Z.ltb_lt. lia. }
    unfold buildSegments. simpl. rewrite G12, G23. reflexivity.
Qed.

(** C1 at the entries of 06:00, 06:20 and 07:05. *)
Lemma segments_split_at_long_gaps_witness :
  Forall (fun e => dateTime e <> Some "")
         [Sample.at0600; Sample.at0620; Sample.at0705]
  /\ @buildSegments Sample.platform [Sample.at0600; Sample.at0620; Sample.at0705]
     = [ {| startEntry := Sample.at0600; endEntry := Sample.at0620 |};
         {| startEntry := Sample.at0705; endEntry := Sample.at0705 |} ].
Proof.
  assert (H : Forall (fun e => dateTime e <> Some "")
                     [Sample.at0600; Sample.at0620; Sample.at0705])
    by (repeat constructor; discriminate).
  split; [exact H|].
  apply (proj2 (proj2 (proj2
           (@segments_split_at_long_gaps Sample.platform
              [Sample.at0600; Sample.at0620; Sample.at0705] Sample.at0600 H)))
           Sample.at0600 Sample.at0620 Sample.at0705
           "2026-01-03T20:00:00.000Z" "2026-01-03T20:20:00.000Z"
           "2026-01-03T21:05:00.000Z" 1767470400000%Z);
    reflexivity.
Defined.

(** C5. For a list of matched entries with increasing line numbers, the
    segments are the first and last entries of consecutive non-empty runs
    that together are the whole list, so that every entry is in one run and
    only one; the line numbers of the start entries increase strictly; and
    a segment whose start entry has a null or unparsable [dateTime] leaves
    the store and the results as they were. *)
Theorem segments_partition_matched_entries
        {platform : Platform} (l : list LogEntry) (d : LogEntry)
        (Hsorted : StronglySorted lt (map lineNumber l)) :
  (exists chunks,
      List.concat chunks = l
      /\ Forall (fun c => c <> []) chunks
      /\ buildSegments l = map (fun c => segmentOf c d) chunks)
  /\ StronglySorted lt (map (fun s => lineNumber (startEntry s)) (buildSegments l))
  /\ (forall parsedLogs program day meta acc seg,
         dateTime (startEntry seg) = None
         \/ (exists s, dateTime (startEntry seg) = Some s /\ Date_parse s = None) ->
         processSegment parsedLogs program day meta acc seg = acc).
Proof.
  split; [|split].
  - exists (splitAtGaps l).
    split; [apply splitAtGaps_concat|].
    split; [apply splitAtGaps_nonempty|apply buildSegments_split].
  - rewrite (buildSegments_split d), map_map. simpl.
    apply heads_sorted; [apply splitAtGaps_nonempty|].
    now rewrite splitAtGaps_concat.
  - intros. now apply processSegment_invalid_start.
Qed.

(** C5 at the entries of 06:00, 06:20 and 07:05. *)
Lemma segments_partition_matched_entries_witness :
  StronglySorted lt (map lineNumber [Sample.at0600; Sample.at0620; Sample.at0705])
  /\ StronglySorted lt
       (map (fun s => lineNumber (startEntry s))
            (@buildSegments Sample.platform
               [Sample.at0600; Sample.at0620; Sample.at0705])).
Proof.
  assert (H : StronglySorted lt
                (map lineNumber [Sample.at0600; Sample.at0620; Sample.at0705]))
    by (simpl; repeat constructor).
  split; [exact H|].
  exact (proj1 (proj2
           (@segments_partition_matched_entries Sample.platform
              [Sample.at0600; Sample.at0620; Sample.at0705] Sample.at0600 H))).
Defined.

(** ** End-time resolution *)

Lemma find_filter {A} (p f : A -> bool) (l : list A) :
  find f (filter p l) = find (fun x => p x && f x) l.
Proof.
  induction l as [|x l IH]; [reflexivity|].
  simpl. destruct (p x); simpl; [|exact IH].
  destruct (f x); [reflexivity|exact IH].
Qed.

Lemma find_ext_Forall {A} (f g : A -> bool) (l : list A) :
  Forall (fun x => f x = g x) l -> find f l = find g l.
Proof.
  induction 1 as [|x l Hx _ IH]; simpl; [reflexivity|].
  rewrite Hx, IH. reflexivity.
Qed.

(** In a list in line order, [find] returns the entry with the least line
    number among those that pass the test. *)
Lemma find_least_line (f : LogEntry -> bool) (l : list LogEntry) (q : LogEntry) :
  StronglySorted lt (map lineNumber l) ->
  find f l = Some q ->
  forall e, In e l -> f e = true -> lineNumber q <= lineNumber e.
Proof.
  induction l as [|x l IH]; intros Hs Hf e He Hfe; [destruct He|].
  simpl in Hs. inversion Hs as [|? ? Hs' Hall]; subst.
  simpl in Hf. destruct (f x) eqn:Ex.
  - injection Hf as <-. destruct He as [<-|He]; [lia|].
    rewrite Forall_map, Forall_forall in Hall. specialize (Hall e He). lia.
  - destruct He as [<-|He]; [congruence|]. now apply IH.
Qed.

Lemma truthyOpt_isSome (o : option string) :
  o <> Some "" -> Js.truthyOpt o = isSome o.
Proof.
  destruct o as [[|c s]|]; try reflexivity. intros H. now elim H.
Qed.

(** On the output of the decoder, the search of the handler finds what the
    specification describes. *)
Lemma resolveEndTime_spec {platform : Platform}
      (content region kw : string) (start : Z) (endE : LogEntry) :
  resolveEndTime (programs (parseLogs content region)) kw start endE
  = endTimeSpec (allEntries (parseLogs content region)) kw start endE.
Proof.
  destruct (parseLogs_lists content region) as (_ & _ & Hp).
  pose proof (parseLogs_dateTime_nonempty content region) as Hne.
  unfold resolveEndTime, endTimeSpec, nextDifferingProgram, twoHours.
  rewrite Hp, find_filter.
  rewrite (find_ext_Forall _
             (fun e => isProgramType e && (lineNumber endE <? lineNumber e)
                       && negb (titleMatches kw e) && isSome (dateTime e))).
  - destruct (find _ _) as [e|] eqn:Hf; [|reflexivity].
    apply find_some in Hf. destruct Hf as [Hin _].
    rewrite Forall_forall in Hne. specialize (Hne e Hin).
    destruct (dateTime e) as [s|]; [|reflexivity].
    rewrite truthy_nonempty by congruence.
    destruct (Date_parse s); reflexivity.
  - eapply Forall_impl; [|exact Hne].
    intros e He. simpl. rewrite (truthyOpt_isSome _ He).
    rewrite !Bool.andb_assoc. reflexivity.
Qed.

(** C3. For a segment whose start entry has a [dateTime] that parses, the
    end time the handler resolves is the [dateTime] of the first
    program-type entry after the end entry whose title does not contain the
    keyword and whose [dateTime] is non-null, and the start time plus two
    hours when there is none or its timestamp is invalid; that entry is
    the one with the least line number among such entries; the broadcast
    the segment creates, if it creates one, starts at the start time and
    ends at that end time. *)
Theorem segment_end_time
        {platform : Platform} (content region : string) (program : Program)
        (day : Day) (meta : FileMetadata) (st : Store) (rs : list ResultRow)
        (seg : BroadcastSegment) (s : string) (t : Z)
        (Hstart : dateTime (startEntry seg) = Some s)
        (Hparse : Date_parse s = Some t) :
  let d := parseLogs content region in
  let endT := endTimeSpec (allEntries d) (keyword program) t (endEntry seg) in
  resolveEndTime (programs d) (keyword program) t (endEntry seg) = endT
  /\ (forall q, nextDifferingProgram (allEntries d) (keyword program) (endEntry seg)
                = Some q ->
                forall e, In e (allEntries d) ->
                          isProgramType e = true ->
                          lineNumber (endEntry seg) < lineNumber e ->
                          titleMatches (keyword program) e = false ->
                          dateTime e <> None ->
                          lineNumber q <= lineNumber e)
  /\ (let out := processSegment d program day meta (st, rs) seg in
      out = (st, rs)
      \/ exists b, broadcasts (fst out) = broadcasts st ++ [b]
                   /\ startTime b = t /\ endTime b = endT).
Proof.
  intros d endT. subst d endT. split; [apply resolveEndTime_spec|]. split.
  - intros q Hq e He Hty Hline Htitle Hdt.
    apply (find_least_line _ _ q (parseLogs_sorted content region) Hq e He).
    rewrite Hty, Htitle. apply Nat.ltb_lt in Hline. rewrite Hline.
    destruct (dateTime e); [reflexivity|congruence].
  - unfold processSegment. rewrite Hstart, Hparse.
    destruct (_ || _); [now left|].
    destruct (findOverlappingBroadcast _ _ _ _ _ _); [now left|].
    right. eexists. simpl. split; [reflexivity|].
    split; [reflexivity|apply resolveEndTime_spec].
Qed.

(** C3 at the log of two programs: the segment of the 06:00 entry ends
    where the 07:00 program starts. *)
Lemma segment_end_time_witness :
  dateTime (startEntry Sample.unitedCupSegment) = Some "2026-01-03T20:00:00.000Z"
  /\ @Date_parse Sample.platform "2026-01-03T20:00:00.000Z" = Some 1767470400000%Z
  /\ @resolveEndTime Sample.platform
       (programs (@parseLogs Sample.platform Sample.twoPrograms "BNE"))
       (keyword Sample.unitedCup) 1767470400000%Z
       (endEntry Sample.unitedCupSegment)
     = (1767470400000 + 3600000)%Z.
Proof.
  split; [reflexivity|]. split; [reflexivity|].
  rewrite (proj1 (@segment_end_time Sample.platform Sample.twoPrograms "BNE"
                    Sample.unitedCup Sample.unitedCupDay Sample.brisbaneNine
                    (Sample.storeWith [Sample.unitedCup]) []
                    Sample.unitedCupSegment "2026-01-03T20:00:00.000Z"
                    1767470400000%Z eq_refl eq_refl)).
  vm_compute. reflexivity.
Defined.

(** ** Billboard association *)

Lemma appendNew_app (seen l1 l2 : list LogEntry) :
  appendNew seen (l1 ++ l2) = appendNew (appendNew seen l1) l2.
Proof.
  revert seen. induction l1 as [|x l1 IH]; intros seen; [reflexivity|].
  simpl. destruct (arrayIncludes seen x); apply IH.
Qed.

Lemma arrayIncludes_In (a : list LogEntry) (x : LogEntry) :
  arrayIncludes a x = true <-> In (oid x) (map oid a).
Proof.
  unfold arrayIncludes. rewrite existsb_exists, in_map_iff. split.
  - intros (y & Hy & E). apply Nat.eqb_eq in E. eauto.
  - intros (y & E & Hy). exists y. split; [exact Hy|]. now apply Nat.eqb_eq.
Qed.

Lemma appendNew_NoDup (l seen : list LogEntry) :
  NoDup (map oid seen) -> NoDup (map oid (appendNew seen l)).
Proof.
  revert seen. induction l as [|x l IH]; intros seen H; [exact H|].
  simpl. destruct (arrayIncludes seen x) eqn:E; [now apply IH|].
  apply IH. rewrite map_app. simpl.
  assert (Hx : ~ In (oid x) (map oid seen)).
  { intros Hin. apply arrayIncludes_In in Hin. congruence. }
  clear - H Hx. induction (map oid seen) as [|y m IHm]; simpl.
  - constructor; [intros []|constructor].
  - inversion H; subst. constructor.
    + intros Hin. apply in_app_or in Hin. destruct Hin as [Hin|[Hin|[]]].
      * contradiction.
      * apply Hx. now left.
    + apply IHm; [assumption|]. intros Hin. apply Hx. now right.
Qed.

Lemma appendNew_In (l seen : list LogEntry) (x : LogEntry) :
  In x (appendNew seen l) -> In x seen \/ In x l.
Proof.
  revert seen. induction l as [|y l IH]; intros seen H; [now left|].
  simpl in H. destruct (arrayIncludes seen y).
  - destruct (IH _ H); [now left|right; now right].
  - destruct (IH _ H) as [Hin|Hin]; [|right; now right].
    apply in_app_or in Hin. destruct Hin as [Hin|[<-|[]]]; [now left|].
    right. now left.
Qed.

Lemma appendNew_keeps (l seen : list LogEntry) (n : nat) :
  In n (map oid seen) \/ In n (map oid l) -> In n (map oid (appendNew seen l)).
Proof.
  revert seen. induction l as [|y l IH]; intros seen H.
  - destruct H as [H|[]]. exact H.
  - simpl. destruct (arrayIncludes seen y) eqn:E.
    + apply IH. destruct H as [H|[<-|H]]; auto.
      left. now apply arrayIncludes_In.
    + apply IH. rewrite map_app, in_app_iff. simpl.
      destruct H as [H|[<-|H]]; auto.
Qed.

Lemma nextProgSecondsOf_spec (entries : list LogEntry) (p : LogEntry) :
  nextProgSecondsOf entries (lineNumber p)
  = option_map secondsOfEntry (nextTimedProgram entries p).
Proof.
  unfold nextTimedProgram, secondsOfEntry.
  induction entries as [|e entries IH]; [reflexivity|].
  simpl. destruct ((lineNumber p <? lineNumber e) && isProgramType e); simpl.
  - destruct (time e) as [t|] eqn:Et; simpl; [|exact IH].
    destruct (Js.truthy t); [|exact IH]. simpl. rewrite Et. reflexivity.
  - exact IH.
Qed.

Lemma inProgramWindow_timed (logData : ParsedLogData) (p b : LogEntry)
      (t tb : string) :
  time p = Some t -> Js.truthy t = true ->
  time b = Some tb -> Js.truthy tb = true ->
  inProgramWindow logData p b
  = inWindow (secondsOf t)
             (option_map secondsOfEntry (nextTimedProgram (allEntries logData) p))
             (secondsOf tb).
Proof.
  intros Ht Htr Hb Hbr. unfold inProgramWindow, inWindow, secondsOfEntry, Js.ge.
  rewrite Ht, Hb. cbn [Js.truthyOpt]. rewrite Htr, Hbr. cbn [andb].
  destruct (nextTimedProgram (allEntries logData) p); reflexivity.
Qed.

Lemma inProgramWindow_untimed (logData : ParsedLogData) (p b : LogEntry) :
  Js.truthyOpt (time b) = false -> inProgramWindow logData p b = false.
Proof.
  intros H. unfold inProgramWindow. rewrite H, Bool.andb_false_r. reflexivity.
Qed.

(** The inner loop appends the billboards of one window. *)
Lemma billboardLoop_spec (logData : ParsedLogData) (p : LogEntry) (t : string)
      (bbs : list LogEntry) :
  time p = Some t -> Js.truthy t = true ->
  forall acc,
    billboardLoop bbs (secondsOf t)
                  (nextProgSecondsOf (allEntries logData) (lineNumber p)) acc
    = appendNew acc (filter (inProgramWindow logData p) bbs).
Proof.
  intros Ht Htr. rewrite nextProgSecondsOf_spec.
  induction bbs as [|b bbs IH]; intros acc; [reflexivity|].
  cbn [billboardLoop filter].
  destruct (time b) as [tb|] eqn:Etb.
  - destruct (Js.truthy tb) eqn:Hbr.
    + rewrite (inProgramWindow_timed logData p b t tb Ht Htr Etb Hbr).
      destruct (inWindow _ _ _); cbn [andb appendNew]; [|apply IH].
      destruct (arrayIncludes acc b); cbn [negb]; apply IH.
    + rewrite inProgramWindow_untimed; [apply IH|].
      rewrite Etb. exact Hbr.
  - rewrite inProgramWindow_untimed; [apply IH|]. now rewrite Etb.
Qed.

Lemma filter_none {A} (f : A -> bool) (l : list A) :
  (forall x, f x = false) -> filter f l = [].
Proof.
  intros H. induction l as [|x l IH]; [reflexivity|]. simpl. now rewrite H.
Qed.

Lemma instanceLoop_spec (logData : ParsedLogData) (instances : list LogEntry) :
  forall acc,
    instanceLoop logData instances acc
    = appendNew acc
        (flat_map (fun p => filter (inProgramWindow logData p) (billboards logData))
                  instances).
Proof.
  induction instances as [|p instances IH]; intros acc; [reflexivity|].
  simpl. rewrite appendNew_app.
  destruct (time p) as [t|] eqn:Et.
  - destruct (Js.truthy t) eqn:Htr.
    + rewrite IH. f_equal. now apply billboardLoop_spec.
    + rewrite IH. rewrite filter_none; [reflexivity|].
      intros b. unfold inProgramWindow. rewrite Et. simpl. now rewrite Htr.
  - rewrite IH. rewrite filter_none; [reflexivity|].
    intros b. unfold inProgramWindow. now rewrite Et.
Qed.

Lemma getBillboardsForProgram_spec (logData : ParsedLogData) (kw : string) :
  getBillboardsForProgram logData kw = appendNew [] (windowBillboards logData kw).
Proof.
  unfold getBillboardsForProgram, windowBillboards.
  destruct (filter (titleMatches kw) (programs logData)) as [|p ps] eqn:E;
    [reflexivity|].
  simpl Nat.eqb. cbv iota. apply instanceLoop_spec.
Qed.

(** When the entries are in line order, the entry that bounds a window is
    the one with the least line number among the program-type entries
    after the program that carry a time. *)
Lemma nextTimedProgram_least (entries : list LogEntry) (p q : LogEntry) :
  StronglySorted lt (map lineNumber entries) ->
  nextTimedProgram entries p = Some q ->
  In q entries /\ lineNumber p < lineNumber q /\ isProgramType q = true
  /\ Js.truthyOpt (time q) = true
  /\ forall e, In e entries -> lineNumber p < lineNumber e ->
               isProgramType e = true -> Js.truthyOpt (time e) = true ->
               lineNumber q <= lineNumber e.
Proof.
  unfold nextTimedProgram. intros Hs Hf.
  pose proof (find_some _ _ Hf) as [Hin Hq].
  rewrite !Bool.andb_true_iff, Nat.ltb_lt in Hq. destruct Hq as [[H1 H2] H3].
  repeat split; auto.
  intros e He Hl Hp Ht. apply (find_least_line _ _ q Hs Hf e He).
  apply Nat.ltb_lt in Hl. now rewrite Hl, Hp, Ht.
Qed.

(** C4 (as amended). The billboards returned for a keyword are those that
    carry a time and lie in the window of some program entry that matches
    the keyword and carries a time: from the seconds of the program up to,
    and not including, the seconds of the first program-type entry after
    it that carries a time (program-type entries without a time are passed
    over), or with no upper bound when there is none; the windows are taken
    in the order of [programs] and their billboards in the order of
    [billboards], and an object already returned is not returned again,
    whatever its content.  In a log in line order the bounding entry is the
    one with the least line number.  For the window from 06:00:00 to
    07:00:00 the billboard of 06:05:00 is returned and that of 07:10:00 is
    not; a billboard listed twice is returned once, and another object with
    the same content is returned as well. *)
Theorem billboards_of_program_windows (logData : ParsedLogData) (kw : string) :
  let result := getBillboardsForProgram logData kw in
  result = appendNew [] (windowBillboards logData kw)
  /\ NoDup (map oid result)
  /\ (forall b, In b result ->
                In b (billboards logData)
                /\ exists p, In p (programs logData) /\ titleMatches kw p = true
                             /\ inProgramWindow logData p b = true)
  /\ (forall b p, In b (billboards logData) -> In p (programs logData) ->
                  titleMatches kw p = true -> inProgramWindow logData p b = true ->
                  In (oid b) (map oid result))
  /\ (StronglySorted lt (map lineNumber (allEntries logData)) ->
      forall p q, nextTimedProgram (allEntries logData) p = Some q ->
                  forall e, In e (allEntries logData) ->
                            lineNumber p < lineNumber e ->
                            isProgramType e = true -> Js.truthyOpt (time e) = true ->
                            lineNumber q <= lineNumber e)
  /\ getBillboardsForProgram Sample.windowLog "UNITED CUP" = [Sample.bb0605]
  /\ getBillboardsForProgram Sample.aliasLog "UNITED CUP"
     = [Sample.bb0605; Sample.bbTwin].
Proof.
  intros result. subst result. rewrite getBillboardsForProgram_spec.
  split; [reflexivity|].
  split; [apply appendNew_NoDup; constructor|].
  split; [|split; [|split; [|split; reflexivity]]].
  - intros b Hb. apply appendNew_In in Hb. destruct Hb as [[]|Hb].
    unfold windowBillboards in Hb. apply in_flat_map in Hb.
    destruct Hb as (p & Hp & Hb). apply filter_In in Hp, Hb.
    destruct Hp as [Hp Hm]. destruct Hb as [Hb Hw]. eauto.
  - intros b p Hb Hp Hm Hw. apply appendNew_keeps. right.
    apply in_map. unfold windowBillboards. apply in_flat_map.
    exists p. split; apply filter_In; auto.
  - intros Hs p q Hq. now apply (nextTimedProgram_least _ p q Hs Hq).
Qed.

(** C4 as stated fails when the next program-type entry has no time: after
    the 06:00:00 program comes a program line without a timestamp and then
    the 07:00:00 program.  The window is bounded by the 07:00:00 program,
    which is not the next program-type entry; bounding it by the next
    program-type entry gives another answer, whether an entry without a
    time is read as no bound at all or as a bound nothing lies before. *)
Lemma billboards_untimed_next_program :
  nextProgramEntry (allEntries Sample.untimedLog) Sample.prog0600 = Some Sample.untimed
  /\ time Sample.untimed = None
  /\ getBillboardsForProgram Sample.untimedLog "UNITED CUP" = [Sample.bb0605]
  /\ associateLiteral true Sample.untimedLog "UNITED CUP"
     = [Sample.bb0605; Sample.bb0710]
  /\ associateLiteral false Sample.untimedLog "UNITED CUP" = []
  /\ getBillboardsForProgram Sample.untimedLog "UNITED CUP"
     <> associateLiteral true Sample.untimedLog "UNITED CUP"
  /\ getBillboardsForProgram Sample.untimedLog "UNITED CUP"
     <> associateLiteral false Sample.untimedLog "UNITED CUP".
Proof.
  repeat split; try reflexivity; vm_compute; discriminate.
Qed.

(** ** Recording the log file *)

Section LogFileFacts.
Context {platform : Platform}.

Lemma processSegment_tables parsedLogs program day meta acc seg :
  catalog (fst (processSegment parsedLogs program day meta acc seg))
  = catalog (fst acc)
  /\ days (fst (processSegment parsedLogs program day meta acc seg))
     = days (fst acc)
  /\ logFiles (fst (processSegment parsedLogs program day meta acc seg))
     = logFiles (fst acc).
Proof.
  unfold processSegment. destruct acc as [st rs].
  destruct (_ || _); [auto|].
  destruct (dateTime (startEntry seg)); [|auto].
  destruct (Date_parse s); [|auto].
  destruct (findOverlappingBroadcast _ _ _ _ _ _); auto.
Qed.

Lemma segments_tables parsedLogs program day meta segs : forall acc,
  let out := fold_left (processSegment parsedLogs program day meta) segs acc in
  catalog (fst out) = catalog (fst acc)
  /\ days (fst out) = days (fst acc)
  /\ logFiles (fst out) = logFiles (fst acc).
Proof.
  induction segs as [|seg segs IH]; intros acc; simpl; [auto|].
  destruct (IH (processSegment parsedLogs program day meta acc seg))
    as (Hc & Hd & Hl).
  destruct (processSegment_tables parsedLogs program day meta acc seg)
    as (Hc' & Hd' & Hl').
  repeat split; congruence.
Qed.

Lemma findOrCreateDay_logFiles st program date :
  logFiles (fst (findOrCreateDay st program date)) = logFiles st.
Proof.
  unfold findOrCreateDay. destruct (find _ _); reflexivity.
Qed.

Lemma setAdd_nonempty (s : list nat) (x : nat) : setAdd s x <> [].
Proof.
  unfold setAdd. destruct (existsb (Nat.eqb x) s) eqn:E.
  - destruct s; [discriminate|discriminate].
  - destruct s; discriminate.
Qed.

(** One catalog program: a program without a match changes nothing; one
    with a match tracks a day; the log files are never touched. *)
Lemma processProgram_effect parsedLogs meta fs program :
  logFiles (store (processProgram parsedLogs meta fs program))
  = logFiles (store fs)
  /\ (programMatches parsedLogs program = false ->
      processProgram parsedLogs meta fs program = fs)
  /\ (programMatches parsedLogs program = true ->
      daysNeedingLogFiles (processProgram parsedLogs meta fs program) <> [])
  /\ (daysNeedingLogFiles fs <> [] ->
      daysNeedingLogFiles (processProgram parsedLogs meta fs program) <> []).
Proof.
  unfold processProgram, programMatches.
  destruct (Nat.eqb _ 0) eqn:E.
  - repeat split; auto. discriminate.
  - destruct (findOrCreateDay (store fs) program (fileDate meta)) as [st1 day] eqn:Ed.
    pose proof (segments_tables parsedLogs program day meta
                  (buildSegments (filter (titleMatches (keyword program))
                                         (programs parsedLogs)))
                  (st1, results fs)) as (_ & _ & Hl).
    destruct (fold_left _ _ (st1, results fs)) as [st2 rs2].
    simpl in *. repeat split.
    + rewrite Hl. pose proof (findOrCreateDay_logFiles (store fs) program (fileDate meta)) as H.
      rewrite Ed in H. exact H.
    + discriminate.
    + intros _. apply setAdd_nonempty.
    + intros _. apply setAdd_nonempty.
Qed.

Lemma programs_effect parsedLogs meta programList : forall fs,
  let out := fold_left (processProgram parsedLogs meta) programList fs in
  logFiles (store out) = logFiles (store fs)
  /\ (existsb (programMatches parsedLogs) programList = false -> out = fs)
  /\ (existsb (programMatches parsedLogs) programList = true ->
      daysNeedingLogFiles out <> [])
  /\ (daysNeedingLogFiles fs <> [] -> daysNeedingLogFiles out <> []).
Proof.
  induction programList as [|p ps IH]; intros fs; simpl.
  - repeat split; auto. discriminate.
  - destruct (IH (processProgram parsedLogs meta fs p)) as (Hl & Hu & Hm & Hk).
    destruct (processProgram_effect parsedLogs meta fs p) as (Hl' & Hu' & Hm' & Hk').
    repeat split.
    + congruence.
    + intros H. apply Bool.orb_false_iff in H. destruct H as [H1 H2].
      rewrite (Hu H2). now apply Hu'.
    + intros H. apply Bool.orb_true_iff in H. destruct H as [H|H]; auto.
    + auto.
Qed.

Lemma find_existsb {A} (f : A -> bool) (l : list A) :
  existsb f l = isSome (find f l).
Proof.
  induction l as [|x l IH]; [reflexivity|]. simpl.
  destruct (f x); [reflexivity|exact IH].
Qed.

Lemma mainRegions_all (r : Region) : existsb (regionEqb r) mainRegions = true.
Proof. destruct r; reflexivity. Qed.

End LogFileFacts.

(** C8 (as amended). For a file whose name resolves to a region and a
    channel, processing the file adds at most one log-file reference, keyed
    by the key of the file, however many programs and days it touched; it
    adds exactly one when some catalog program matches an entry of the file
    and no reference with that key exists, and none when one exists
    already; and when no catalog program matches any entry, the file leaves
    the store and the results as they were: no broadcast, no day and no
    log-file reference. *)
Theorem log_file_recorded_at_most_once
        {platform : Platform} (programList : list Program) (st : Store)
        (rs : list ResultRow) (record : S3Record) (meta : FileMetadata)
        (Hmeta : parseLogFileName (fileNameMatch record) = Some meta) :
  let out := fst (handleRecord programList (st, rs) record) in
  let parsed := parseLogs (objectBody record) (regionCode (fileRegion meta)) in
  let matched := existsb (programMatches parsed) programList in
  let known :=
    existsb (fun f => String.eqb (s3_key f) (objectKey record)) (logFiles st) in
  (logFiles out = logFiles st
   \/ exists f, logFiles out = logFiles st ++ [f] /\ s3_key f = objectKey record)
  /\ (matched = false -> handleRecord programList (st, rs) record = (st, rs))
  /\ (matched = true -> known = false ->
      exists f, logFiles out = logFiles st ++ [f]
                /\ s3_key f = objectKey record
                /\ logFileRegion f = fileRegion meta
                /\ logFileChannel f = fileChannel meta)
  /\ (known = true -> logFiles out = logFiles st).
Proof.
  intros out parsed matched known. subst out matched known.
  unfold handleRecord. rewrite Hmeta. fold parsed. simpl fst. simpl snd.
  set (fs0 := {| store := st; results := rs; daysNeedingLogFiles := [] |}).
  destruct (programs_effect parsed meta programList fs0) as (Hl & Hu & Hm & _).
  set (fs := fold_left (processProgram parsed meta) programList fs0) in *.
  simpl in Hl. unfold recordLogFile. rewrite mainRegions_all.
  rewrite (find_existsb (fun f => String.eqb (s3_key f) (objectKey record))).
  rewrite <- Hl.
  repeat split.
  - destruct (daysNeedingLogFiles fs) as [|day ds]; simpl; [now left|].
    destruct (find _ (logFiles (store fs))); simpl; [now left|].
    right. eexists. split; reflexivity.
  - intros H. rewrite (Hu H). reflexivity.
  - intros H Hk. specialize (Hm H).
    destruct (daysNeedingLogFiles fs) as [|day ds]; [congruence|]. simpl.
    destruct (find _ (logFiles (store fs))); [discriminate|].
    simpl. eexists. repeat split; reflexivity.
  - intros Hk.
    destruct (daysNeedingLogFiles fs) as [|day ds]; simpl; [reflexivity|].
    destruct (find _ (logFiles (store fs))); [reflexivity|discriminate].
Qed.

(** C8 at the Brisbane file and a catalog without a matching program. *)
Lemma log_file_recorded_at_most_once_witness :
  @parseLogFileName Sample.platform (fileNameMatch Sample.unitedCupRecord)
  = Some Sample.brisbaneNine
  /\ existsb (programMatches
                (@parseLogs Sample.platform (objectBody Sample.unitedCupRecord)
                            (regionCode (fileRegion Sample.brisbaneNine))))
             [Sample.tennisFinal] = false
  /\ @handleRecord Sample.platform [Sample.tennisFinal]
       (Sample.storeWith [Sample.tennisFinal], []) Sample.unitedCupRecord
     = (Sample.storeWith [Sample.tennisFinal], []).
Proof.
  assert (H : @parseLogFileName Sample.platform (fileNameMatch Sample.unitedCupRecord)
              = Some Sample.brisbaneNine) by reflexivity.
  assert (Hu : existsb (programMatches
                (@parseLogs Sample.platform (objectBody Sample.unitedCupRecord)
                            (regionCode (fileRegion Sample.brisbaneNine))))
             [Sample.tennisFinal] = false) by (vm_compute; reflexivity).
  split; [exact H|]. split; [exact Hu|].
  exact (proj1 (proj2
           (@log_file_recorded_at_most_once Sample.platform [Sample.tennisFinal]
              (Sample.storeWith [Sample.tennisFinal]) [] Sample.unitedCupRecord
              Sample.brisbaneNine H)) Hu).
Defined.

(** C8 as stated fails on a file none of whose entries matches a catalog
    program: the name of the file resolves, and no log-file reference is
    created for it. *)
Lemma log_file_skipped_without_match :
  @parseLogFileName Sample.platform (fileNameMatch Sample.unitedCupRecord)
  = Some Sample.brisbaneNine
  /\ logFiles (fst (@handler Sample.platform [Sample.unitedCupRecord]
                             (Sample.storeWith [Sample.tennisFinal]))) = []
  /\ broadcasts (fst (@handler Sample.platform [Sample.unitedCupRecord]
                               (Sample.storeWith [Sample.tennisFinal]))) = [].
Proof.
  repeat split; vm_compute; reflexivity.
Qed.

(** ** The Brisbane scenario *)

Section Brisbane.
Context {platform : Platform}.
Hypothesis brisbane_offset :
  forall l, zoneOffset "Australia/Brisbane" l = 600%Z.

Lemma convertToUTC_brisbane :
  convertToUTC "2026" "01" "04" "06" "00" "00" "BNE"
  = Returned (Some "2026-01-03T20:00:00.000Z").
Proof.
  unfold convertToUTC, luxonToUTCISO.
  replace (getTimezoneForRegion "BNE") with (ZoneName "Australia/Brisbane")
    by reflexivity.
  replace (Js.parseInt "2026") with (Some 2026%Z) by reflexivity.
  replace (Js.parseInt "01") with (Some 1%Z) by reflexivity.
  replace (Js.parseInt "04") with (Some 4%Z) by reflexivity.
  replace (Js.parseInt "06") with (Some 6%Z) by reflexivity.
  replace (Js.parseInt "00") with (Some 0%Z) by reflexivity.
  cbv beta iota zeta. rewrite brisbane_offset.
  vm_compute. reflexivity.
Qed.

Lemma parseLoop_single region line n result :
  lineKept line = true ->
  parseLoop region [line] n result = pushEntry result (makeEntry region n line).
Proof.
  unfold lineKept. intros H. apply Bool.andb_true_iff in H. destruct H as [H1 H2].
  cbn [parseLoop]. rewrite H1. apply Bool.negb_true_iff in H2. rewrite H2.
  reflexivity.
Qed.

Lemma parseDateTime_brisbane :
  parseDateTime "20260104 06:00:00:02" "BNE"
  = (Some "2026-01-03T20:00:00.000Z", Some "2026-01-04T06:00:00", Some "06:00:00").
Proof.
  unfold parseDateTime.
  replace (Js.truthy "20260104 06:00:00:02" && (17 <=? String.length "20260104 06:00:00:02"))
    with true by reflexivity.
  replace (Js.split " " "20260104 06:00:00:02")
    with ["20260104"; "06:00:00:02"] by reflexivity.
  cbv beta iota zeta.
  replace (8 <=? String.length "20260104") with true by reflexivity.
  replace (Js.split ":" "06:00:00:02") with ["06"; "00"; "00"; "02"] by reflexivity.
  cbv beta iota zeta.
  replace (Js.substring 0 4 "20260104") with "2026" by reflexivity.
  replace (Js.substring 4 6 "20260104") with "01" by reflexivity.
  replace (Js.substring 6 8 "20260104") with "04" by reflexivity.
  rewrite convertToUTC_brisbane. reflexivity.
Qed.

Lemma makeEntry_brisbane :
  makeEntry "BNE" 0 Sample.unitedCupLine = Sample.unitedCupEntry.
Proof.
  unfold makeEntry.
  replace (Js.trim (Js.substring 55 75 Sample.unitedCupLine))
    with "20260104 06:00:00:02" by (vm_compute; reflexivity).
  rewrite parseDateTime_brisbane.
  vm_compute. reflexivity.
Qed.

Lemma parseLogs_brisbane :
  parseLogs Sample.unitedCupLine "BNE" = Sample.unitedCupParsed.
Proof.
  unfold parseLogs.
  replace (Js.split "010" Sample.unitedCupLine) with [Sample.unitedCupLine]
    by (vm_compute; reflexivity).
  cbv zeta. rewrite parseLoop_single by (vm_compute; reflexivity).
  rewrite makeEntry_brisbane. vm_compute. reflexivity.
Qed.

End Brisbane.

(** C6. With Brisbane ten hours ahead of UTC, the log of the one program
    line [UNITED CUP DAY 4] at 06:00:00 on 2026-01-04, ingested against the
    catalog program with keyword [UNITED CUP], is decoded with the
    timestamp 2026-01-03T20:00:00.000Z and produces exactly one broadcast,
    which starts at that instant and ends two hours later. *)
Theorem brisbane_united_cup_broadcast
        {platform : Platform}
        (Hzone : forall l, zoneOffset "Australia/Brisbane" l = 600%Z)
        (t0 : Z)
        (Hparse : Date_parse "2026-01-03T20:00:00.000Z" = Some t0) :
  map dateTime (allEntries (parseLogs (objectBody Sample.unitedCupRecord) "BNE"))
  = [ Some "2026-01-03T20:00:00.000Z" ]
  /\ broadcasts (fst (handler [Sample.unitedCupRecord]
                              (Sample.storeWith [Sample.unitedCup])))
     = [ {| broadcastId := 0;
            broadcastName := "UNITED CUP DAY 4 (BNE)";
            startTime := t0;
            endTime := (t0 + 2 * 60 * 60 * 1000)%Z;
            status := PENDING;
            channel := CH9;
            region := BNE;
            broadcastDayId := 0 |} ].
Proof.
  split.
  - change (objectBody Sample.unitedCupRecord) with Sample.unitedCupLine.
    rewrite (parseLogs_brisbane Hzone). reflexivity.
  - unfold handler, handleRecord. cbn [fold_left Sample.storeWith catalog].
    change (parseLogFileName (fileNameMatch Sample.unitedCupRecord))
      with (Some {| fileDate := Date_local (Some 2026%Z) (Some 0%Z) (Some 4%Z);
                    fileRegion := BNE; fileChannel := CH9 |}).
    cbv beta iota zeta.
    change (parseLogs (objectBody Sample.unitedCupRecord) _)
      with (parseLogs Sample.unitedCupLine "BNE").
    rewrite (parseLogs_brisbane Hzone).
    cbn [fold_left fst snd].
    unfold processProgram.
    replace (filter (titleMatches (keyword Sample.unitedCup))
                    (programs Sample.unitedCupParsed))
      with [Sample.unitedCupEntry] by (vm_compute; reflexivity).
    cbn [List.length Nat.eqb store results daysNeedingLogFiles].
    unfold buildSegments. cbn [segmentLoop nth app].
    unfold findOrCreateDay. cbn [days Sample.storeWith find].
    cbn [fold_left]. unfold processSegment.
    cbn [startEntry endEntry].
    replace (negb (Js.truthyOpt (time Sample.unitedCupEntry))
             || negb (Js.truthyOpt (dateTime Sample.unitedCupEntry)))
      with false by reflexivity.
    change (dateTime Sample.unitedCupEntry) with (Some "2026-01-03T20:00:00.000Z").
    cbv beta iota. rewrite Hparse.
    unfold resolveEndTime.
    replace (find _ (programs Sample.unitedCupParsed)) with (@None LogEntry)
      by (vm_compute; reflexivity).
    unfold findOverlappingBroadcast. cbn [broadcasts find].
    cbv beta iota zeta. unfold recordLogFile.
    cbn [fst store broadcasts]. unfold twoHours.
    vm_compute. reflexivity.
Qed.

(** C6 on the platform of the examples, where the instant is
    1767470400000 ms after the epoch. *)
Lemma brisbane_united_cup_broadcast_witness :
  (forall l, @zoneOffset Sample.platform "Australia/Brisbane" l = 600%Z)
  /\ @Date_parse Sample.platform "2026-01-03T20:00:00.000Z" = Some 1767470400000%Z
  /\ broadcasts (fst (@handler Sample.platform [Sample.unitedCupRecord]
                               (Sample.storeWith [Sample.unitedCup])))
     = [ {| broadcastId := 0;
            broadcastName := "UNITED CUP DAY 4 (BNE)";
            startTime := 1767470400000%Z;
            endTime := (1767470400000 + 2 * 60 * 60 * 1000)%Z;
            status := PENDING;
            channel := CH9;
            region := BNE;
            broadcastDayId := 0 |} ].
Proof.
  assert (Hz : forall l, @zoneOffset Sample.platform "Australia/Brisbane" l = 600%Z)
    by (intros l; reflexivity).
  assert (Hp : @Date_parse Sample.platform "2026-01-03T20:00:00.000Z"
               = Some 1767470400000%Z) by reflexivity.
  split; [exact Hz|]. split; [exact Hp|].
  exact (proj2 (@brisbane_united_cup_broadcast Sample.platform Hz
                  1767470400000%Z Hp)).
Defined.


(** * Further properties of the code *)

(** ** The handler and the store *)

Lemma prefixOf_refl {A} (l : list A) : prefixOf l l.
Proof. exists []. now rewrite app_nil_r. Qed.

Lemma prefixOf_trans {A} (a b c : list A) :
  prefixOf a b -> prefixOf b c -> prefixOf a c.
Proof.
  intros [t ->] [u ->]. exists (t ++ u). now rewrite app_assoc.
Qed.

Lemma prefixOf_snoc {A} (l : list A) (x : A) : prefixOf l (l ++ [x]).
Proof. now exists [x]. Qed.

Lemma extends_refl (st : Store) : extends st st.
Proof. repeat split; apply prefixOf_refl. Qed.

Lemma extends_trans (a b c : Store) : extends a b -> extends b c -> extends a c.
Proof.
  intros (Hc & Hd & Hb & Hl) (Hc' & Hd' & Hb' & Hl').
  repeat split; [congruence|eapply prefixOf_trans; eauto..].
Qed.

Lemma find_app_some {A} (f : A -> bool) (l t : list A) (x : A) :
  find f l = Some x -> find f (l ++ t) = Some x.
Proof.
  induction l as [|y l IH]; [discriminate|]. simpl.
  destruct (f y); [auto|exact IH].
Qed.

Lemma find_app_none {A} (f : A -> bool) (l t : list A) :
  find f l = None -> find f (l ++ t) = find f t.
Proof.
  induction l as [|y l IH]; [reflexivity|]. simpl.
  destruct (f y); [discriminate|exact IH].
Qed.

Lemma optZ_eqb_refl (a : option Z) : optZ_eqb a a = true.
Proof. destruct a; [apply Z.eqb_refl|reflexivity]. Qed.

Lemma optZ_eqb_eq (a b : option Z) : optZ_eqb a b = true -> a = b.
Proof.
  destruct a, b; simpl; try discriminate; [|reflexivity].
  intros H. apply Z.eqb_eq in H. now subst.
Qed.

Lemma channelEqb_refl (c : Channel) : channelEqb c c = true.
Proof. destruct c; reflexivity. Qed.

Lemma regionEqb_refl (r : Region) : regionEqb r r = true.
Proof. destruct r; reflexivity. Qed.

Lemma channelEqb_eq (a b : Channel) : channelEqb a b = true -> a = b.
Proof. destruct a, b; simpl; congruence. Qed.

Lemma regionEqb_eq (a b : Region) : regionEqb a b = true -> a = b.
Proof. destruct a, b; simpl; congruence. Qed.

(** An interval satisfies the query against itself. *)
Lemma overlapWhere_self (b : Broadcast) :
  overlapWhere (startTime b) (endTime b) b = true.
Proof.
  unfold overlapWhere. rewrite !Z.leb_refl.
  rewrite Bool.orb_true_r. reflexivity.
Qed.

Lemma snoc_split {A} (pre l post : list A) (x y : A) :
  l ++ [x] = pre ++ y :: post ->
  (post = [] /\ pre = l /\ y = x)
  \/ (exists post', post = post' ++ [x] /\ l = pre ++ y :: post').
Proof.
  revert l. induction pre as [|p pre IH]; intros l H.
  - destruct l as [|a l]; simpl in H.
    + injection H as <- <-. now left.
    + injection H as <- <-. right. now exists l.
  - destruct l as [|a l]; simpl in H.
    + injection H as _ H. destruct pre; discriminate.
    + injection H as <- H. destruct (IH l H) as [(-> & -> & ->)|(post' & -> & ->)].
      * now left.
      * right. now exists post'.
Qed.

Section StoreFacts.
Context {platform : Platform}.

(** The three writes of the handler keep any property that each of them
    keeps. *)
Lemma handler_invariant (P : Store * list ResultRow -> Prop) :
  (forall st rs program date,
      P (st, rs) -> P (fst (findOrCreateDay st program date), rs)) ->
  (forall d p day meta acc seg,
      P acc -> P (processSegment d p day meta acc seg)) ->
  (forall st rs key meta n, P (st, rs) -> P (recordLogFile st key meta n, rs)) ->
  forall pl records acc, P acc -> P (fold_left (handleRecord pl) records acc).
Proof.
  intros Hday Hseg Hlog pl records.
  induction records as [|r records IH]; intros acc Hacc; [exact Hacc|].
  simpl. apply IH. unfold handleRecord.
  destruct (parseLogFileName (fileNameMatch r)) as [meta|]; [|exact Hacc].
  set (d := parseLogs _ _).
  assert (Hfold : forall progs fs,
             P (store fs, results fs) ->
             P (store (fold_left (processProgram d meta) progs fs),
                results (fold_left (processProgram d meta) progs fs))).
  { induction progs as [|p progs IHp]; intros fs Hfs; [exact Hfs|].
    simpl. apply IHp. unfold processProgram.
    destruct (Nat.eqb _ 0); [exact Hfs|].
    pose proof (Hday (store fs) (results fs) p (fileDate meta) Hfs) as Hd.
    destruct (findOrCreateDay (store fs) p (fileDate meta)) as [st1 day].
    simpl in Hd.
    assert (Hsegs : forall segs acc0,
               P acc0 -> P (fold_left (processSegment d p day meta) segs acc0)).
    { induction segs as [|seg segs IHs]; intros acc0 H0; [exact H0|].
      simpl. apply IHs. now apply Hseg. }
    specialize (Hsegs (buildSegments (filter (titleMatches (keyword p)) (programs d)))
                      (st1, results fs) Hd).
    destruct (fold_left _ _ (st1, results fs)) as [st2 rs2]. exact Hsegs. }
  apply Hlog. apply Hfold. destruct acc. exact Hacc.
Qed.

Lemma findOrCreateDay_extends st program date :
  extends st (fst (findOrCreateDay st program date)).
Proof.
  unfold findOrCreateDay. destruct (find _ _); simpl; [apply extends_refl|].
  repeat split; simpl; try apply prefixOf_refl. apply prefixOf_snoc.
Qed.

Lemma processSegment_extends d p day meta acc seg :
  extends (fst acc) (fst (processSegment d p day meta acc seg)).
Proof.
  unfold processSegment. destruct acc as [st rs].
  destruct (_ || _); [apply extends_refl|].
  destruct (dateTime (startEntry seg)); [|apply extends_refl].
  destruct (Date_parse s); [|apply extends_refl].
  destruct (findOverlappingBroadcast _ _ _ _ _ _); [apply extends_refl|].
  repeat split; simpl; try apply prefixOf_refl. apply prefixOf_snoc.
Qed.

Lemma recordLogFile_extends st key meta n :
  extends st (recordLogFile st key meta n).
Proof.
  unfold recordLogFile. destruct (_ && _); [|apply extends_refl].
  destruct n; [apply extends_refl|].
  destruct (find _ _); [apply extends_refl|].
  repeat split; simpl; try apply prefixOf_refl. apply prefixOf_snoc.
Qed.

Lemma records_extend pl records acc :
  extends (fst acc) (fst (fold_left (handleRecord pl) records acc)).
Proof.
  apply (handler_invariant (fun a => extends (fst acc) (fst a))).
  - intros st rs program date H. simpl in *.
    eapply extends_trans; [exact H|apply findOrCreateDay_extends].
  - intros d p day meta a seg H.
    eapply extends_trans; [exact H|apply processSegment_extends].
  - intros st rs key meta n H. simpl in *.
    eapply extends_trans; [exact H|apply recordLogFile_extends].
  - apply extends_refl.
Qed.

Lemma handler_catalog (records : list S3Record) (st : Store) :
  catalog (fst (handler records st)) = catalog st.
Proof.
  unfold handler.
  exact (proj1 (records_extend (catalog st) records (st, []))).
Qed.

End StoreFacts.

(** X1. The handler only adds rows: after an event, the catalog is the
    same and the days, broadcasts and log-file references of the store it
    started from are still there, unchanged and in their places, before
    the rows it added. *)
Theorem handler_only_adds_rows
        {platform : Platform} (records : list S3Record) (st : Store) :
  extends st (fst (handler records st)).
Proof.
  unfold handler. apply (records_extend (catalog st) records (st, [])).
Qed.

Section WriteFacts.
Context {platform : Platform}.

Lemma findOrCreateDay_tables st program date :
  catalog (fst (findOrCreateDay st program date)) = catalog st
  /\ broadcasts (fst (findOrCreateDay st program date)) = broadcasts st
  /\ logFiles (fst (findOrCreateDay st program date)) = logFiles st.
Proof.
  unfold findOrCreateDay. destruct (find _ _); simpl; auto.
Qed.

Lemma recordLogFile_tables st key meta n :
  catalog (recordLogFile st key meta n) = catalog st
  /\ days (recordLogFile st key meta n) = days st
  /\ broadcasts (recordLogFile st key meta n) = broadcasts st.
Proof.
  unfold recordLogFile. destruct (_ && _); [|auto].
  destruct n; [auto|]. destruct (find _ _); simpl; auto.
Qed.

(** What one segment does: nothing, or one broadcast and one row. *)
Lemma processSegment_cases d p day meta st rs seg :
  processSegment d p day meta (st, rs) seg = (st, rs)
  \/ exists b row s,
      processSegment d p day meta (st, rs) seg
      = ({| catalog := catalog st; days := days st;
            broadcasts := broadcasts st ++ [b]; logFiles := logFiles st |},
         rs ++ [row])
      /\ findOverlappingBroadcast st (dayId day) (fileChannel meta) (fileRegion meta)
                                  (startTime b) (endTime b) = None
      /\ broadcastDayId b = dayId day
      /\ channel b = fileChannel meta
      /\ region b = fileRegion meta
      /\ status b = PENDING
      /\ broadcastId b = List.length (broadcasts st)
      /\ dateTime (startEntry seg) = Some s
      /\ Date_parse s = Some (startTime b)
      /\ endTime b = resolveEndTime (programs d) (keyword p) (startTime b) (endEntry seg)
      /\ broadcastName b
         = (databaseTitle (startEntry seg) ++ " (" ++ regionCode (fileRegion meta) ++ ")")%string
      /\ reportedAs row = reportOf b
      /\ resultProgram row = programName p.
Proof.
  unfold processSegment.
  destruct (_ || _); [now left|].
  destruct (dateTime (startEntry seg)) as [s|] eqn:Es; [|now left].
  destruct (Date_parse s) as [t|] eqn:Et; [|now left].
  destruct (findOverlappingBroadcast _ _ _ _ _ _) eqn:Ef; [now left|].
  right. eexists. eexists. exists s. split; [reflexivity|].
  simpl. repeat split; auto.
Qed.

Lemma guarded_snoc (bs : list Broadcast) (b : Broadcast) :
  guarded bs ->
  (forall x, In x bs -> sameSlot x b = true ->
             overlapWhere (startTime b) (endTime b) x = false) ->
  guarded (bs ++ [b]).
Proof.
  intros Hg Hb pre b' post Heq x Hx Hslot.
  apply snoc_split in Heq. destruct Heq as [(-> & -> & ->)|(post' & -> & ->)].
  - now apply Hb.
  - eapply Hg; eauto.
Qed.

Lemma query_none_clear st day ch rg s e :
  findOverlappingBroadcast st day ch rg s e = None ->
  forall x, In x (broadcasts st) ->
            broadcastDayId x = day -> channel x = ch -> region x = rg ->
            overlapWhere s e x = false.
Proof.
  unfold findOverlappingBroadcast. intros H x Hx Hd Hc Hr.
  pose proof (find_none _ _ H x Hx) as Hf. simpl in Hf.
  rewrite Hd, Hc, Hr, Nat.eqb_refl, channelEqb_refl, regionEqb_refl in Hf.
  exact Hf.
Qed.

Lemma sameSlot_eq (x b : Broadcast) :
  sameSlot x b = true ->
  broadcastDayId x = broadcastDayId b /\ channel x = channel b /\ region x = region b.
Proof.
  unfold sameSlot. rewrite !Bool.andb_true_iff. intros [[H1 H2] H3].
  apply Nat.eqb_eq in H1. apply channelEqb_eq in H2. apply regionEqb_eq in H3. auto.
Qed.

Lemma records_guarded pl records acc :
  guarded (broadcasts (fst acc)) ->
  guarded (broadcasts (fst (fold_left (handleRecord pl) records acc))).
Proof.
  apply (handler_invariant (fun a => guarded (broadcasts (fst a)))).
  - intros st rs program date H. simpl in *.
    destruct (findOrCreateDay_tables st program date) as (_ & -> & _). exact H.
  - intros d p day meta [st rs] seg H. simpl in H.
    destruct (processSegment_cases d p day meta st rs seg)
      as [->|(b & row & s & -> & Hq & Hd & Hc & Hr & _)]; [exact H|].
    simpl. apply guarded_snoc; [exact H|].
    intros x Hx Hslot. apply sameSlot_eq in Hslot. destruct Hslot as (H1 & H2 & H3).
    apply (query_none_clear _ _ _ _ _ _ Hq x Hx); congruence.
  - intros st rs key meta n H. simpl in *.
    destruct (recordLogFile_tables st key meta n) as (_ & _ & ->). exact H.
Qed.

Lemma find_key_none (key : string) (l : list LogFile) :
  find (fun f => String.eqb (s3_key f) key) l = None -> ~ In key (map s3_key l).
Proof.
  intros H Hin. apply in_map_iff in Hin. destruct Hin as (f & <- & Hf).
  pose proof (find_none _ _ H f Hf) as E. simpl in E.
  rewrite String.eqb_refl in E. discriminate.
Qed.

Lemma NoDup_snoc {A} (l : list A) (x : A) :
  NoDup l -> ~ In x l -> NoDup (l ++ [x]).
Proof.
  induction 1 as [|y l Hy Hl IH]; intros Hx; simpl.
  - constructor; [intros []|constructor].
  - constructor.
    + intros Hin. apply in_app_or in Hin. destruct Hin as [Hin|[<-|[]]].
      * contradiction.
      * apply Hx. now left.
    + apply IH. intros Hin. apply Hx. now right.
Qed.

Lemma records_logFile_keys pl records acc :
  NoDup (map s3_key (logFiles (fst acc))) ->
  NoDup (map s3_key (logFiles (fst (fold_left (handleRecord pl) records acc)))).
Proof.
  apply (handler_invariant (fun a => NoDup (map s3_key (logFiles (fst a))))).
  - intros st rs program date H. simpl in *.
    destruct (findOrCreateDay_tables st program date) as (_ & _ & ->). exact H.
  - intros d p day meta acc0 seg H.
    destruct (processSegment_tables d p day meta acc0 seg) as (_ & _ & ->). exact H.
  - intros st rs key meta n H. simpl in *. unfold recordLogFile.
    destruct (_ && _); [|exact H]. destruct n; [exact H|].
    destruct (find _ _) eqn:Ef; [exact H|]. simpl.
    rewrite map_app. simpl. apply NoDup_snoc; [exact H|].
    now apply find_key_none.
Qed.

Lemma dayKeysUnique_snoc (ds : list Day) (d : Day) :
  dayKeysUnique ds ->
  (forall x, In x ds -> dayProgramId x = dayProgramId d -> dayDate x <> dayDate d) ->
  dayKeysUnique (ds ++ [d]).
Proof.
  intros Hu Hd pre d' post Heq x Hx Hp.
  apply snoc_split in Heq. destruct Heq as [(-> & -> & ->)|(post' & -> & ->)].
  - now apply Hd.
  - eapply Hu; eauto.
Qed.

Lemma records_day_keys pl records acc :
  dayKeysUnique (days (fst acc)) ->
  dayKeysUnique (days (fst (fold_left (handleRecord pl) records acc))).
Proof.
  apply (handler_invariant (fun a => dayKeysUnique (days (fst a)))).
  - intros st rs program date H. simpl in *. unfold findOrCreateDay.
    destruct (find _ _) eqn:Ef; [exact H|]. simpl.
    apply dayKeysUnique_snoc; [exact H|].
    intros x Hx Hp Hdate. simpl in *.
    pose proof (find_none _ _ Ef x Hx) as E. simpl in E.
    rewrite Hp, Nat.eqb_refl, Hdate, optZ_eqb_refl in E. discriminate.
  - intros d p day meta acc0 seg H.
    destruct (processSegment_tables d p day meta acc0 seg) as (_ & -> & _). exact H.
  - intros st rs key meta n H. simpl in *.
    destruct (recordLogFile_tables st key meta n) as (_ & -> & _). exact H.
Qed.


End WriteFacts.

(** X2. If no stored broadcast satisfies the overlap query against an
    earlier one of its day, channel and region, the same holds after the
    handler has run; in particular two such broadcasts that both start
    before they end never overlap as half-open intervals. *)
Theorem handler_keeps_broadcasts_apart
        {platform : Platform} (records : list S3Record) (st : Store)
        (Hguarded : guarded (broadcasts st)) :
  guarded (broadcasts (fst (handler records st)))
  /\ (forall pre b post x,
         broadcasts (fst (handler records st)) = pre ++ b :: post ->
         In x pre -> sameSlot x b = true ->
         ~ standardOverlap (startTime b) (endTime b) (startTime x) (endTime x)).
Proof.
  assert (H : guarded (broadcasts (fst (handler records st))))
    by (unfold handler; now apply (records_guarded (catalog st) records (st, []))).
  split; [exact H|].
  intros pre b post x Heq Hx Hslot Hov.
  apply overlapWhere_of_standard in Hov.
  rewrite (H pre b post Heq x Hx Hslot) in Hov. discriminate.
Qed.

(** X2 on a store that holds two broadcasts of the day and a file with
    three segments of the same day, channel and region: the overlap query
    finds a stored broadcast for the first and the third segment, and only
    the second, from 06:00 to 08:00 UTC, is added. *)
Lemma handler_keeps_broadcasts_apart_witness :
  guarded (broadcasts Replay.store)
  /\ map (fun b => (startTime b, endTime b, broadcastDayId b))
         (broadcasts (fst (@handler Sample.platform [Replay.record] Replay.store)))
     = [ (1767470400000%Z, 1767477600000%Z, 0); (1767520800000%Z, 1767524400000%Z, 0);
         (1767506400000%Z, 1767513600000%Z, 0) ]
  /\ guarded (broadcasts (fst (@handler Sample.platform [Replay.record] Replay.store))).
Proof.
  assert (H : guarded (broadcasts Replay.store)).
  { intros pre b post Heq x Hx Hslot.
    destruct pre as [|p [|q pre]].
    - destruct Hx.
    - injection Heq as <- <- _. destruct Hx as [<-|[]]. vm_compute. reflexivity.
    - injection Heq as _ _ Heq. destruct pre; discriminate Heq. }
  split; [exact H|]. split; [vm_compute; reflexivity|].
  exact (proj1 (@handler_keeps_broadcasts_apart Sample.platform
                  [Replay.record] Replay.store H)).
Defined.

(** X3. If the keys of the stored log-file references are pairwise
    different, they still are after the handler has run, whatever the
    records of the event, repeated or not. *)
Theorem handler_keeps_log_file_keys_unique
        {platform : Platform} (records : list S3Record) (st : Store)
        (Hkeys : NoDup (map s3_key (logFiles st))) :
  NoDup (map s3_key (logFiles (fst (handler records st)))).
Proof.
  unfold handler. now apply (records_logFile_keys (catalog st) records (st, [])).
Qed.

(** X3 on an event that names the same file twice. *)
Lemma handler_keeps_log_file_keys_unique_witness :
  NoDup (map s3_key (logFiles (Sample.storeWith [Sample.unitedCup])))
  /\ NoDup (map s3_key
              (logFiles (fst (@handler Sample.platform
                                [Sample.unitedCupRecord; Sample.unitedCupRecord]
                                (Sample.storeWith [Sample.unitedCup]))))).
Proof.
  assert (H : NoDup (map s3_key (logFiles (Sample.storeWith [Sample.unitedCup]))))
    by constructor.
  split; [exact H|].
  exact (@handler_keeps_log_file_keys_unique Sample.platform
           [Sample.unitedCupRecord; Sample.unitedCupRecord]
           (Sample.storeWith [Sample.unitedCup]) H).
Defined.

(** X4. If no two stored days have the same program and the same date,
    none have after the handler has run: a day is created only when the
    program has none on the date of the file. *)
Theorem handler_keeps_day_keys_unique
        {platform : Platform} (records : list S3Record) (st : Store)
        (Hdays : dayKeysUnique (days st)) :
  dayKeysUnique (days (fst (handler records st))).
Proof.
  unfold handler. now apply (records_day_keys (catalog st) records (st, [])).
Qed.

(** X4 on an event that names the same file twice. *)
Lemma handler_keeps_day_keys_unique_witness :
  dayKeysUnique (days (Sample.storeWith [Sample.unitedCup]))
  /\ dayKeysUnique
       (days (fst (@handler Sample.platform
                     [Sample.unitedCupRecord; Sample.unitedCupRecord]
                     (Sample.storeWith [Sample.unitedCup])))).
Proof.
  assert (H : dayKeysUnique (days (Sample.storeWith [Sample.unitedCup]))).
  { intros pre d post Heq. destruct pre; discriminate. }
  split; [exact H|].
  exact (@handler_keeps_day_keys_unique Sample.platform
           [Sample.unitedCupRecord; Sample.unitedCupRecord]
           (Sample.storeWith [Sample.unitedCup]) H).
Defined.


Section SecondPass.
Context {platform : Platform}.

(** The day a program gets on a date is the day it gets again in any
    store with more rows, and nothing is created then. *)
Lemma findOrCreateDay_again st program date st2 :
  prefixOf (days (fst (findOrCreateDay st program date))) (days st2) ->
  findOrCreateDay st2 program date = (st2, snd (findOrCreateDay st program date)).
Proof.
  unfold findOrCreateDay at 1 3. intros [t Ht].
  destruct (find _ (days st)) as [day|] eqn:Ef; simpl in Ht.
  - unfold findOrCreateDay. rewrite Ht, (find_app_some _ _ _ _ Ef). reflexivity.
  - unfold findOrCreateDay. rewrite Ht, <- app_assoc, (find_app_none _ _ _ Ef).
    simpl. rewrite Nat.eqb_refl, optZ_eqb_refl. reflexivity.
Qed.

(** A segment that has been processed is passed over in any store with
    more broadcasts. *)
Lemma processSegment_again d p day meta st rs seg st2 rs2 :
  prefixOf (broadcasts (fst (processSegment d p day meta (st, rs) seg)))
           (broadcasts st2) ->
  processSegment d p day meta (st2, rs2) seg = (st2, rs2).
Proof.
  intros [t Ht]. revert Ht. unfold processSegment.
  destruct (_ || _); [reflexivity|].
  destruct (dateTime (startEntry seg)) as [s|]; [|reflexivity].
  destruct (Date_parse s) as [start|]; [|reflexivity].
  unfold findOverlappingBroadcast.
  destruct (find _ (broadcasts st)) as [b|] eqn:Ef; simpl; intros Ht.
  - rewrite Ht, (find_app_some _ _ _ _ Ef). reflexivity.
  - rewrite Ht, <- app_assoc, (find_app_none _ _ _ Ef). simpl.
    rewrite Nat.eqb_refl, channelEqb_refl, regionEqb_refl.
    unfold overlapWhere. simpl. rewrite !Z.leb_refl, Bool.orb_true_r.
    reflexivity.
Qed.

Lemma segments_extend d p day meta segs : forall acc,
  extends (fst acc) (fst (fold_left (processSegment d p day meta) segs acc)).
Proof.
  induction segs as [|seg segs IH]; intros acc; simpl; [apply extends_refl|].
  eapply extends_trans; [apply processSegment_extends|apply IH].
Qed.

Lemma segments_again d p day meta segs : forall st rs st2 rs2,
  prefixOf (broadcasts (fst (fold_left (processSegment d p day meta) segs (st, rs))))
           (broadcasts st2) ->
  fold_left (processSegment d p day meta) segs (st2, rs2) = (st2, rs2).
Proof.
  induction segs as [|seg segs IH]; intros st rs st2 rs2 H; [reflexivity|].
  cbn [fold_left] in *.
  destruct (processSegment d p day meta (st, rs) seg) as [st1 rs1] eqn:E1.
  rewrite (processSegment_again d p day meta st rs seg st2 rs2).
  - now apply (IH st1 rs1).
  - rewrite E1. simpl.
    eapply prefixOf_trans; [|exact H].
    apply (segments_extend d p day meta segs (st1, rs1)).
Qed.

Lemma processProgram_extends d meta fs p :
  extends (store fs) (store (processProgram d meta fs p)).
Proof.
  unfold processProgram. destruct (Nat.eqb _ 0); [apply extends_refl|].
  pose proof (findOrCreateDay_extends (store fs) p (fileDate meta)) as Hd.
  destruct (findOrCreateDay (store fs) p (fileDate meta)) as [st1 day].
  pose proof (segments_extend d p day meta
                (buildSegments (filter (titleMatches (keyword p)) (programs d)))
                (st1, results fs)) as Hs.
  destruct (fold_left _ _ (st1, results fs)) as [st2 rs2].
  simpl in *. eapply extends_trans; eauto.
Qed.

(** A program that has been processed changes neither the store nor the
    results in any store with more rows, and tracks the same day. *)
Lemma processProgram_again d meta fs p st2 rs2 :
  extends (store (processProgram d meta fs p)) st2 ->
  processProgram d meta
    {| store := st2; results := rs2; daysNeedingLogFiles := daysNeedingLogFiles fs |} p
  = {| store := st2; results := rs2;
       daysNeedingLogFiles := daysNeedingLogFiles (processProgram d meta fs p) |}.
Proof.
  unfold processProgram. destruct (Nat.eqb _ 0); [reflexivity|].
  intros Hext. simpl.
  pose proof (findOrCreateDay_again (store fs) p (fileDate meta) st2) as Hday.
  destruct (findOrCreateDay (store fs) p (fileDate meta)) as [st1 day] eqn:Ed.
  pose proof (segments_extend d p day meta
                (buildSegments (filter (titleMatches (keyword p)) (programs d)))
                (st1, results fs)) as Hs.
  pose proof (segments_again d p day meta
                (buildSegments (filter (titleMatches (keyword p)) (programs d)))
                st1 (results fs) st2 rs2) as Hagain.
  destruct (fold_left _ _ (st1, results fs)) as [st3 rs3].
  simpl in *. destruct Hext as (_ & Hd & Hb & _). destruct Hs as (_ & Hd' & _).
  rewrite Hday by (eapply prefixOf_trans; eauto).
  rewrite Hagain by exact Hb. reflexivity.
Qed.

Lemma programs_extend d meta progs : forall fs,
  extends (store fs) (store (fold_left (processProgram d meta) progs fs)).
Proof.
  induction progs as [|p progs IH]; intros fs; simpl; [apply extends_refl|].
  eapply extends_trans; [apply processProgram_extends|apply IH].
Qed.

Lemma programs_again d meta progs : forall fs st2 rs2,
  extends (store (fold_left (processProgram d meta) progs fs)) st2 ->
  fold_left (processProgram d meta) progs
    {| store := st2; results := rs2; daysNeedingLogFiles := daysNeedingLogFiles fs |}
  = {| store := st2; results := rs2;
       daysNeedingLogFiles :=
         daysNeedingLogFiles (fold_left (processProgram d meta) progs fs) |}.
Proof.
  induction progs as [|p progs IH]; intros fs st2 rs2 H; [reflexivity|].
  simpl in *. rewrite processProgram_again.
  - apply (IH (processProgram d meta fs p) st2 rs2 H).
  - eapply extends_trans; [apply programs_extend|exact H].
Qed.

(** Once the log file has been considered, considering it again in a
    store with more rows adds nothing. *)
Lemma recordLogFile_again st key meta n st2 :
  prefixOf (logFiles (recordLogFile st key meta n)) (logFiles st2) ->
  recordLogFile st2 key meta n = st2.
Proof.
  unfold recordLogFile. destruct (_ && _); [|reflexivity].
  destruct n as [|day n]; [reflexivity|].
  intros [t Ht].
  destruct (find _ (logFiles st)) as [f|] eqn:Ef; simpl in Ht.
  - rewrite Ht, (find_app_some _ _ _ _ Ef). reflexivity.
  - rewrite Ht, <- app_assoc, (find_app_none _ _ _ Ef). simpl.
    rewrite String.eqb_refl. reflexivity.
Qed.

Lemma handleRecord_again pl acc r st2 rs2 :
  extends (fst (handleRecord pl acc r)) st2 ->
  handleRecord pl (st2, rs2) r = (st2, rs2).
Proof.
  unfold handleRecord.
  destruct (parseLogFileName (fileNameMatch r)) as [meta|]; [|reflexivity].
  set (d := parseLogs _ _). simpl. intros Hext.
  set (fs0 := {| store := fst acc; results := snd acc; daysNeedingLogFiles := [] |}) in *.
  assert (Hfold : extends (store (fold_left (processProgram d meta) pl fs0)) st2).
  { eapply extends_trans; [apply recordLogFile_extends|exact Hext]. }
  pose proof (programs_again d meta pl fs0 st2 rs2 Hfold) as Hagain.
  simpl in Hagain. rewrite Hagain. simpl.
  rewrite (recordLogFile_again (store (fold_left (processProgram d meta) pl fs0))).
  - reflexivity.
  - destruct Hext as (_ & _ & _ & Hl). exact Hl.
Qed.

Lemma records_again pl records : forall acc st2 rs2,
  extends (fst (fold_left (handleRecord pl) records acc)) st2 ->
  fold_left (handleRecord pl) records (st2, rs2) = (st2, rs2).
Proof.
  induction records as [|r records IH]; intros acc st2 rs2 H; [reflexivity|].
  simpl in *. rewrite (handleRecord_again pl acc r st2 rs2).
  - apply (IH (handleRecord pl acc r) st2 rs2 H).
  - eapply extends_trans; [apply records_extend|exact H].
Qed.

End SecondPass.

(** X6. Running the handler again on the same event creates nothing: the
    store the first run left is the store the second run leaves, and the
    response of the second run has no rows.  The same holds for any event
    made of records of the first one, and in any store that has the rows of
    the first run and more. *)
Theorem handler_is_idempotent
        {platform : Platform} (records : list S3Record) (st : Store) :
  handler records (fst (handler records st)) = (fst (handler records st), [])
  /\ (forall st2 r,
         extends (fst (handler records st)) st2 -> In r records ->
         handleRecord (catalog st) (st2, []) r = (st2, [])).
Proof.
  pose proof (handler_catalog records st) as Hcat.
  split.
  - unfold handler at 1. rewrite Hcat.
    apply (records_again (catalog st) records (st, [])). apply extends_refl.
  - intros st2 r Hext Hin.
    apply in_split in Hin. destruct Hin as (l1 & l2 & ->).
    unfold handler in Hext. rewrite fold_left_app in Hext. simpl in Hext.
    apply (handleRecord_again (catalog st)
             (fold_left (handleRecord (catalog st)) l1 (st, [])) r).
    eapply extends_trans; [apply records_extend|exact Hext].
Qed.


(** ** More on the decoder *)

Section DecoderMore.
Context {platform : Platform}.

Lemma keptEntries_length region lines : forall n,
  List.length (keptEntries region lines n) = List.length (filter lineKept lines).
Proof.
  induction lines as [|l rest IH]; intros n; simpl; [reflexivity|].
  destruct (lineKept l); simpl; now rewrite IH.
Qed.

Lemma makeEntry_billboardType region n line :
  billboardType (makeEntry region n line)
  = billboardTypeOf (isBillboard (makeEntry region n line))
                    (databaseTitle (makeEntry region n line)).
Proof.
  unfold makeEntry. destruct (parseDateTime _ _) as [[? ?] ?]. reflexivity.
Qed.

Lemma substring_length (n m : nat) (s : string) :
  String.length (String.substring n m s) <= m.
Proof.
  revert n m. induction s as [|c s IH]; intros n m.
  - destruct n, m; simpl; lia.
  - destruct n as [|n]; destruct m as [|m]; simpl; try lia.
    + specialize (IH 0 m). lia.
    + apply IH.
    + apply IH.
Qed.

Lemma trimStart_length (s : string) :
  String.length (Js.trimStart s) <= String.length s.
Proof.
  induction s as [|c s IH]; simpl; [lia|].
  destruct (Js.isWhiteSpace c); simpl; lia.
Qed.

Lemma trimEnd_length (s : string) :
  String.length (Js.trimEnd s) <= String.length s.
Proof.
  induction s as [|c s IH]; simpl; [lia|].
  destruct (Js.trimEnd s); [destruct (Js.isWhiteSpace c)|]; simpl in *; lia.
Qed.

Lemma trim_length (s : string) : String.length (Js.trim s) <= String.length s.
Proof.
  unfold Js.trim. pose proof (trimEnd_length (Js.trimStart s)).
  pose proof (trimStart_length s). lia.
Qed.

Lemma trimmed_field_length (a b : nat) (line : string) :
  String.length (Js.trim (Js.substring a b line)) <= b - a.
Proof.
  pose proof (trim_length (Js.substring a b line)).
  pose proof (substring_length a (b - a) line). unfold Js.substring in *. lia.
Qed.

Lemma charAt_length (i : nat) (s : string) :
  i < String.length s -> String.length (Js.charAt i s) = 1.
Proof.
  unfold Js.charAt. revert i. induction s as [|c s IH]; intros i H; simpl in H.
  - lia.
  - destruct i as [|i]; simpl; [reflexivity|]. apply IH. lia.
Qed.

Lemma lineKept_long (line : string) :
  lineKept line = true -> 360 <= String.length line.
Proof.
  unfold lineKept. intros H. apply Bool.andb_true_iff in H. destruct H as [_ H].
  apply Bool.negb_true_iff, Nat.ltb_ge in H. exact H.
Qed.

Lemma makeEntry_widths region n line :
  lineKept line = true ->
  let e := makeEntry region n line in
  String.length (marketChannel e) <= 6
  /\ String.length (materialKey e) <= 32
  /\ String.length (materialType e) = 1
  /\ String.length (databaseTitle e) <= 64.
Proof.
  intros Hk. apply lineKept_long in Hk.
  unfold makeEntry. destruct (parseDateTime _ _) as [[? ?] ?]. simpl.
  assert (H188 : (188 <? String.length line) = true) by (apply Nat.ltb_lt; lia).
  assert (H295 : (295 <? String.length line) = true) by (apply Nat.ltb_lt; lia).
  rewrite H188, H295.
  repeat split.
  - apply (trimmed_field_length 0 6).
  - apply (trimmed_field_length 119 151).
  - apply charAt_length. lia.
  - apply (trimmed_field_length 295 359).
Qed.

End DecoderMore.

(** X7. Every entry of the decoder's output comes from a line that is not
    blank and has at least 360 characters, carries the position of that
    line in the text counted from 1, and holds the line without its outer
    white space; so there are exactly as many entries as such lines, blank
    or shorter lines give none, and a text without any gives three empty
    lists. *)
Theorem decoded_entries_come_from_kept_lines
        {platform : Platform} (content region : string) :
  let d := parseLogs content region in
  let lines := Js.split "010" content in
  (forall e, In e (allEntries d) ->
             exists i line,
               nth_error lines i = Some line
               /\ Js.truthy (Js.trim line) = true
               /\ 360 <= String.length line
               /\ lineNumber e = i + 1
               /\ rawLine e = Js.trim line)
  /\ List.length (allEntries d) = List.length (filter lineKept lines)
  /\ (Forall (fun line => lineKept line = false) lines ->
      d = {| billboards := []; programs := []; allEntries := [] |}).
Proof.
  intros d lines. subst d lines.
  destruct (parseLogs_lists content region) as (Ha & Hb & Hp).
  split; [|split].
  - intros e He. rewrite Ha in He.
    destruct (keptEntries_origin _ _ _ _ He) as (i & line & Hn & Hk & ->).
    exists i, line. simpl.
    rewrite makeEntry_lineNumber, makeEntry_rawLine.
    pose proof (lineKept_long line Hk).
    unfold lineKept in Hk. apply Bool.andb_true_iff in Hk.
    repeat split; tauto.
  - rewrite Ha. apply keptEntries_length.
  - intros Hnone.
    assert (E : allEntries (parseLogs content region) = []).
    { apply length_zero_iff_nil. rewrite Ha, keptEntries_length.
      clear - Hnone. induction Hnone as [|l ls Hl _ IH]; [reflexivity|].
      simpl. now rewrite Hl. }
    destruct (parseLogs content region) as [bs ps es]. simpl in *.
    rewrite E in Hb, Hp. simpl in Hb, Hp. rewrite Hb, Hp, E. reflexivity.
Qed.

(** X8. In the decoder's output every billboard is an interstitial with a
    non-empty title that starts with OB, MB or CB, its [isBillboard] is
    [true] and its billboard type is the one of its prefix; every program
    entry has type M or S, [isBillboard] [false] and no billboard type; no
    entry is in both lists; and an entry has a billboard type exactly when
    it is in [billboards]. *)
Theorem decoded_lists_are_exclusive
        {platform : Platform} (content region : string) :
  let d := parseLogs content region in
  (forall e, In e (billboards d) ->
             materialType e = "I" /\ isBillboard e = IsBool true
             /\ prefixType (databaseTitle e) <> None
             /\ billboardType e = prefixType (databaseTitle e))
  /\ (forall e, In e (programs d) ->
                (materialType e = "M" \/ materialType e = "S")
                /\ isBillboard e = IsBool false /\ billboardType e = None)
  /\ (forall e, In e (billboards d) -> ~ In e (programs d))
  /\ (forall e, In e (allEntries d) ->
                (billboardType e <> None <-> In e (billboards d))).
Proof.
  intros d. subst d.
  destruct (parseLogs_lists content region) as (Ha & Hb & Hp).
  assert (Hall : forall e, In e (allEntries (parseLogs content region)) ->
                 classified e
                 /\ billboardType e = billboardTypeOf (isBillboard e) (databaseTitle e)).
  { intros e He. rewrite Ha in He.
    destruct (keptEntries_origin _ _ _ _ He) as (i & line & _ & _ & ->).
    split; [apply makeEntry_classified|apply makeEntry_billboardType]. }
  assert (Hbill : forall e, In e (allEntries (parseLogs content region)) ->
                  truthyV (isBillboard e) = true ->
                  materialType e = "I" /\ isBillboard e = IsBool true
                  /\ prefixType (databaseTitle e) <> None
                  /\ billboardType e = prefixType (databaseTitle e)).
  { intros e He Ht. destruct (Hall e He) as [Hc Hty].
    pose proof (billboard_is_interstitial e Hc Ht) as HI.
    unfold classified, isBillboardOf in Hc. rewrite HI in Hc. simpl in Hc.
    rewrite Hty. unfold billboardTypeOf. rewrite Ht. fold (prefixType (databaseTitle e)).
    rewrite Hc in Ht.
    destruct (Js.truthy (databaseTitle e)) eqn:Etr; simpl in Ht;
      [|congruence].
    rewrite Ht in Hc.
    repeat split; auto.
    unfold prefixType.
    destruct (Js.startsWith "OB" (databaseTitle e)); [discriminate|].
    destruct (Js.startsWith "MB" (databaseTitle e)); [discriminate|].
    destruct (Js.startsWith "CB" (databaseTitle e)); [discriminate|].
    discriminate Ht. }
  split; [|split; [|split]].
  - intros e He. rewrite Hb in He. apply filter_In in He. destruct He as [He Ht].
    now apply Hbill.
  - intros e He. rewrite Hp in He. apply filter_In in He. destruct He as [He Ht].
    destruct (Hall e He) as [Hc Hty].
    unfold isProgramType in Ht. apply Bool.orb_true_iff in Ht.
    assert (Hm : materialType e = "M" \/ materialType e = "S").
    { destruct Ht as [Ht|Ht]; apply String.eqb_eq in Ht; auto. }
    assert (Hf : isBillboard e = IsBool false).
    { rewrite Hc. unfold isBillboardOf. destruct Hm as [-> | ->]; reflexivity. }
    repeat split; auto. rewrite Hty, Hf. reflexivity.
  - intros e He Hprog. rewrite Hb in He. apply filter_In in He. destruct He as [He Ht].
    destruct (Hbill e He Ht) as (HI & _).
    rewrite Hp in Hprog. apply filter_In in Hprog. destruct Hprog as [_ Hprog].
    unfold isProgramType in Hprog. rewrite HI in Hprog. discriminate.
  - intros e He. rewrite Hb. split.
    + intros Hty. apply filter_In. split; [exact He|].
      destruct (Hall e He) as [_ Heq]. rewrite Heq in Hty.
      unfold billboardTypeOf in Hty.
      destruct (truthyV (isBillboard e)); [reflexivity|congruence].
    + intros Hin. apply filter_In in Hin. destruct Hin as [_ Ht].
      destruct (Hbill e He Ht) as (_ & _ & Hne & ->). exact Hne.
Qed.

(** X9. Every entry of the decoder's output has a market-channel of at
    most 6 characters, a material key of at most 32, a material type of
    exactly one character and a title of at most 64. *)
Theorem decoded_fields_fit_their_columns
        {platform : Platform} (content region : string) (e : LogEntry)
        (He : In e (allEntries (parseLogs content region))) :
  String.length (marketChannel e) <= 6
  /\ String.length (materialKey e) <= 32
  /\ String.length (materialType e) = 1
  /\ String.length (databaseTitle e) <= 64.
Proof.
  destruct (parseLogs_lists content region) as (Ha & _). rewrite Ha in He.
  destruct (keptEntries_origin _ _ _ _ He) as (i & line & _ & Hk & ->).
  now apply makeEntry_widths.
Qed.

(** X9 at the entry of the program line of the Brisbane log. *)
Lemma decoded_fields_fit_their_columns_witness :
  In Sample.unitedCupEntry
     (allEntries (@parseLogs Sample.platform Sample.unitedCupLine "BNE"))
  /\ String.length (marketChannel Sample.unitedCupEntry) <= 6
  /\ String.length (materialKey Sample.unitedCupEntry) <= 32
  /\ String.length (materialType Sample.unitedCupEntry) = 1
  /\ String.length (databaseTitle Sample.unitedCupEntry) <= 64.
Proof.
  assert (H : In Sample.unitedCupEntry
                 (allEntries (@parseLogs Sample.platform Sample.unitedCupLine "BNE")))
    by (vm_compute; left; reflexivity).
  split; [exact H|].
  exact (@decoded_fields_fit_their_columns Sample.platform Sample.unitedCupLine
           "BNE" Sample.unitedCupEntry H).
Defined.


(** ** The time fields of a decoded entry *)

Lemma str_app_assoc (a b c : string) : ((a ++ b) ++ c = a ++ (b ++ c))%string.
Proof. induction a as [|x a IH]; simpl; [reflexivity|now rewrite IH]. Qed.

Lemma str_length_app (a b : string) :
  String.length (a ++ b) = String.length a + String.length b.
Proof. induction a as [|x a IH]; simpl; [reflexivity|now rewrite IH]. Qed.

Lemma split_nonempty (sep : ascii) (s : string) : Js.split sep s <> [].
Proof.
  destruct s as [|c s]; simpl; [discriminate|].
  destruct (Ascii.eqb c sep); [discriminate|].
  destruct (Js.split sep s); discriminate.
Qed.

Lemma split_components (sep : ascii) (s : string) :
  Forall (fun x => noChar sep x = true) (Js.split sep s).
Proof.
  induction s as [|c s IH]; simpl; [repeat constructor|].
  destruct (Ascii.eqb c sep) eqn:E; [constructor; [reflexivity|exact IH]|].
  destruct (Js.split sep s) as [|h t]; [repeat constructor; simpl; now rewrite E|].
  inversion IH; subst. constructor; [|assumption].
  simpl. rewrite E. assumption.
Qed.

Lemma split_noChar (sep : ascii) (s : string) :
  noChar sep s = true -> Js.split sep s = [s].
Proof.
  induction s as [|c s IH]; simpl; [reflexivity|].
  intros H. apply Bool.andb_true_iff in H. destruct H as [H1 H2].
  apply Bool.negb_true_iff in H1. rewrite H1, (IH H2). reflexivity.
Qed.

Lemma split_app (sep : ascii) (a b : string) :
  noChar sep a = true ->
  Js.split sep (a ++ String sep b) = a :: Js.split sep b.
Proof.
  induction a as [|c a IH]; simpl; intros H.
  - now rewrite Ascii.eqb_refl.
  - apply Bool.andb_true_iff in H. destruct H as [H1 H2].
    apply Bool.negb_true_iff in H1. rewrite H1, (IH H2). reflexivity.
Qed.

Lemma split_clock (hh mi ss : string) :
  noChar ":" hh = true -> noChar ":" mi = true -> noChar ":" ss = true ->
  Js.split ":" (hh ++ ":" ++ mi ++ ":" ++ ss) = [hh; mi; ss].
Proof.
  intros H1 H2 H3.
  change (hh ++ ":" ++ mi ++ ":" ++ ss)%string
    with (hh ++ String ":" (mi ++ String ":" ss))%string.
  rewrite (split_app _ _ _ H1), (split_app _ _ _ H2), (split_noChar _ _ H3).
  reflexivity.
Qed.

(** The date/time block either leaves the three fields null or sets the
    local fields from three colon-free components. *)
Lemma parseDateTime_cases {platform : Platform} (raw region : string) :
  parseDateTime raw region = (None, None, None)
  \/ exists utc yyyy mm dd hh mi ss,
      noChar ":" hh = true /\ noChar ":" mi = true /\ noChar ":" ss = true
      /\ parseDateTime raw region
         = (utc,
            Some (yyyy ++ "-" ++ mm ++ "-" ++ dd ++ "T" ++ hh ++ ":" ++ mi ++ ":" ++ ss)%string,
            Some (hh ++ ":" ++ mi ++ ":" ++ ss)%string).
Proof.
  unfold parseDateTime.
  destruct (_ && _); [|now left].
  destruct (Js.split " " raw) as [|datePart [|timePart ps]]; try now left.
  destruct (8 <=? _); [|now left].
  pose proof (split_components ":" timePart) as Hc.
  destruct (Js.split ":" timePart) as [|hh [|mi [|ss cs]]]; try now left.
  inversion Hc as [|? ? H1 Hc1]; subst. inversion Hc1 as [|? ? H2 Hc2]; subst.
  inversion Hc2 as [|? ? H3 _]; subst.
  right.
  destruct (convertToUTC _ _ _ _ _ _ _) as [|utc];
    [exists None|exists utc]; do 6 eexists; repeat split; eauto.
Qed.

(** X10. In a decoded entry the three time fields go together: [time] is
    null exactly when [localDateTime] is, and [dateTime] is set only when
    they are; a [time] that is set is not empty, splits at its colons into
    exactly three parts, so that the seconds read from it are those of its
    three parts, and [localDateTime] ends with [T] and that time. *)
Theorem decoded_time_fields_go_together
        {platform : Platform} (content region : string) (e : LogEntry)
        (He : In e (allEntries (parseLogs content region))) :
  (dateTime e <> None -> time e <> None)
  /\ (time e = None <-> localDateTime e = None)
  /\ (forall t, time e = Some t ->
        Js.truthy t = true
        /\ exists hh mi ss,
            Js.split ":" t = [hh; mi; ss]
            /\ secondsOf t
               = Js.add (Js.add (Js.mul (Js.parseInt hh) (Some 3600%Z))
                                (Js.mul (Js.parseInt mi) (Some 60%Z)))
                        (Js.parseInt ss)
            /\ exists date, localDateTime e = Some (date ++ "T" ++ t)%string).
Proof.
  destruct (parseLogs_lists content region) as (Ha & _). rewrite Ha in He.
  destruct (keptEntries_origin _ _ _ _ He) as (i & line & _ & _ & ->).
  cbn [Nat.add]. clear He.
  pose proof (makeEntry_stamps region i line) as Hs.
  destruct (parseDateTime_cases (timestampField line) region)
    as [Hp|(utc & yyyy & mm & dd & hh & mi & ss & H1 & H2 & H3 & Hp)];
    rewrite Hp in Hs; injection Hs as Hd Hl Ht; rewrite Hd, Hl, Ht.
  - repeat split; try congruence; intros t [=].
  - split; [discriminate|]. split; [split; discriminate|].
    intros t [= <-]. split.
    + destruct hh; reflexivity.
    + exists hh, mi, ss.
      assert (Hsplit : Js.split ":" (hh ++ ":" ++ mi ++ ":" ++ ss) = [hh; mi; ss])
        by now apply split_clock.
      split; [exact Hsplit|]. split.
      * unfold secondsOf.
        change (hh ++ ":" ++ mi ++ ":" ++ ss)%string
          with (hh ++ String ":" (mi ++ String ":" ss))%string in Hsplit.
        rewrite Hsplit. reflexivity.
      * exists (yyyy ++ "-" ++ mm ++ "-" ++ dd)%string.
        f_equal. symmetry.
        rewrite str_app_assoc. simpl. rewrite str_app_assoc. simpl.
        reflexivity.
Qed.

(** X10 at the entry of the program line of the Brisbane log. *)
Lemma decoded_time_fields_go_together_witness :
  In Sample.unitedCupEntry
     (allEntries (@parseLogs Sample.platform Sample.unitedCupLine "BNE"))
  /\ (time Sample.unitedCupEntry = None <-> localDateTime Sample.unitedCupEntry = None).
Proof.
  assert (H : In Sample.unitedCupEntry
                 (allEntries (@parseLogs Sample.platform Sample.unitedCupLine "BNE")))
    by (vm_compute; left; reflexivity).
  split; [exact H|].
  exact (proj1 (proj2 (@decoded_time_fields_go_together Sample.platform
                         Sample.unitedCupLine "BNE" Sample.unitedCupEntry H))).
Defined.

(** ** Decoding a well-formed time stamp *)

Lemma pad_length (w : nat) (n : Z) : String.length (Civil.pad w n) = w.
Proof.
  revert n. induction w as [|w IH]; intros n; [reflexivity|].
  cbn [Civil.pad]. rewrite str_length_app, IH. cbn [String.length]. lia.
Qed.

Lemma noChar_app (sep : ascii) (a b : string) :
  noChar sep (a ++ b) = noChar sep a && noChar sep b.
Proof.
  induction a as [|c a IH]; simpl; [reflexivity|].
  rewrite IH, Bool.andb_assoc. reflexivity.
Qed.

Lemma decDigit_digitChar (d : Z) :
  (0 <= d <= 9)%Z -> Js.decDigit (Civil.digitChar d) = Some d.
Proof.
  intros H. destruct d as [|p|p]; [reflexivity| |lia].
  do 4 (try destruct p as [p|p|]); first [lia|reflexivity].
Qed.

Lemma pad_noChar (sep : ascii) (w : nat) (n : Z) :
  Js.decDigit sep = None -> noChar sep (Civil.pad w n) = true.
Proof.
  intros Hsep. revert n. induction w as [|w IH]; intros n; [reflexivity|].
  cbn [Civil.pad]. rewrite noChar_app, IH. cbn [noChar andb].
  rewrite Bool.andb_true_r.
  apply Bool.negb_true_iff. apply Ascii.eqb_neq. intros E.
  assert (Hd : Js.decDigit (Civil.digitChar (n mod 10)) = Some (n mod 10)%Z)
    by (apply decDigit_digitChar; pose proof (Z.mod_pos_bound n 10); lia).
  rewrite E in Hd. congruence.
Qed.

Lemma parseInt_pad2 (n : Z) :
  (0 <= n < 100)%Z -> Js.parseInt (Civil.pad 2 n) = Some n.
Proof.
  intros H.
  assert (Hall : forallb (fun k => optZ_eqb (Js.parseInt (Civil.pad 2 (Z.of_nat k)))
                                            (Some (Z.of_nat k)))
                         (seq 0 100) = true) by (vm_compute; reflexivity).
  rewrite forallb_forall in Hall.
  specialize (Hall (Z.to_nat n)). rewrite Z2Nat.id in Hall by lia.
  apply optZ_eqb_eq. apply Hall. apply in_seq. lia.
Qed.

Lemma parseInt_pad4 (n : Z) :
  (0 <= n < 10000)%Z -> Js.parseInt (Civil.pad 4 n) = Some n.
Proof.
  intros H.
  assert (Hall : forallb (fun k => optZ_eqb (Js.parseInt (Civil.pad 4 (Z.of_nat k)))
                                            (Some (Z.of_nat k)))
                         (seq 0 (100 * 100)) = true) by (vm_compute; reflexivity).
  rewrite forallb_forall in Hall.
  specialize (Hall (Z.to_nat n)). rewrite Z2Nat.id in Hall by lia.
  apply optZ_eqb_eq. apply Hall. apply in_seq. lia.
Qed.

Lemma substring_app_head (a b : string) :
  String.substring 0 (String.length a) (a ++ b) = a.
Proof.
  induction a as [|c a IH]; simpl; [destruct b; reflexivity|now rewrite IH].
Qed.

Lemma substring_whole (a : string) :
  String.substring 0 (String.length a) a = a.
Proof.
  induction a as [|c a IH]; simpl; [reflexivity|now rewrite IH].
Qed.

Lemma substring_app_tail (a b : string) (m : nat) :
  String.substring (String.length a) m (a ++ b) = String.substring 0 m b.
Proof.
  induction a as [|c a IH]; simpl; [reflexivity|exact IH].
Qed.

Lemma truthy_of_length (s : string) : 0 < String.length s -> Js.truthy s = true.
Proof. destruct s; simpl; [lia|reflexivity]. Qed.

Section WellFormedStamp.
Context {platform : Platform}.
Variables y mo d h mi s ff : Z.
Variables (region z : string).
Hypothesis Hzone : getTimezoneForRegion region = ZoneName z.
Hypothesis Hy : (0 <= y <= 9999)%Z.
Hypothesis Hmo : (1 <= mo <= 12)%Z.
Hypothesis Hd : (1 <= d <= Civil.daysInMonth y mo)%Z.
Hypothesis Hh : (0 <= h <= 23)%Z.
Hypothesis Hmi : (0 <= mi <= 59)%Z.
Hypothesis Hs : (0 <= s <= 59)%Z.

Lemma daysInMonth_le (a b : Z) : (Civil.daysInMonth a b <= 31)%Z.
Proof.
  unfold Civil.daysInMonth.
  destruct (b =? 2)%Z; [destruct (Civil.isLeapYear a); lia|].
  destruct (_ || _); lia.
Qed.

Lemma convertToUTC_stamp :
  convertToUTC (Civil.pad 4 y) (Civil.pad 2 mo) (Civil.pad 2 d)
               (Civil.pad 2 h) (Civil.pad 2 mi) (Civil.pad 2 s) region
  = Returned
      (Some (Civil.toISO
               (Civil.localMillis y mo d h mi s
                - zoneOffset z (Civil.localMillis y mo d h mi s) * 60000)%Z)).
Proof.
  pose proof (daysInMonth_le y mo) as Hdm.
  unfold convertToUTC, luxonToUTCISO. rewrite Hzone.
  rewrite parseInt_pad4 by lia. rewrite !parseInt_pad2 by lia.
  assert (Hvalid :
    ((1 <=? mo) && (mo <=? 12) && (1 <=? d) && (d <=? Civil.daysInMonth y mo)
     && ((0 <=? h) && (h <=? 23) || (h =? 24) && (mi =? 0) && (s =? 0))
     && (0 <=? mi) && (mi <=? 59) && (0 <=? s) && (s <=? 59))%Z = true).
  { rewrite !Bool.andb_true_iff, Bool.orb_true_iff, !Bool.andb_true_iff.
    rewrite !Z.leb_le. repeat split; lia. }
  rewrite Hvalid. reflexivity.
Qed.

Lemma stampText_parts :
  stampText y mo d h mi s ff
  = ((Civil.pad 4 y ++ Civil.pad 2 mo ++ Civil.pad 2 d)
     ++ String " " (Civil.pad 2 h
                    ++ String ":" (Civil.pad 2 mi
                                   ++ String ":" (Civil.pad 2 s
                                                  ++ String ":" (Civil.pad 2 ff)))))%string.
Proof.
  unfold stampText. rewrite !str_app_assoc. reflexivity.
Qed.

Lemma parseDateTime_stamp :
  parseDateTime (stampText y mo d h mi s ff) region
  = (Some (Civil.toISO
             (Civil.localMillis y mo d h mi s
              - zoneOffset z (Civil.localMillis y mo d h mi s) * 60000)%Z),
     Some (localText y mo d h mi s),
     Some (clockText h mi s)).
Proof.
  assert (Hsp : Js.decDigit " " = None) by reflexivity.
  assert (Hco : Js.decDigit ":" = None) by reflexivity.
  unfold parseDateTime.
  assert (Hlen : String.length (stampText y mo d h mi s ff) = 20).
  { unfold stampText. rewrite !str_length_app, !pad_length. reflexivity. }
  rewrite truthy_of_length by (rewrite Hlen; lia). rewrite Hlen.
  change (17 <=? 20) with true. cbn [andb].
  rewrite stampText_parts.
  rewrite split_app
    by (rewrite !noChar_app, !pad_noChar by exact Hsp; reflexivity).
  rewrite split_noChar
    by (repeat (rewrite noChar_app; cbn [noChar]);
        rewrite !pad_noChar by exact Hsp; reflexivity).
  assert (Hdl : String.length (Civil.pad 4 y ++ Civil.pad 2 mo ++ Civil.pad 2 d) = 8)
    by (rewrite !str_length_app, !pad_length; reflexivity).
  rewrite Hdl. change (8 <=? 8) with true. cbv iota.
  rewrite (split_app ":" (Civil.pad 2 h)) by (apply pad_noChar; exact Hco).
  rewrite (split_app ":" (Civil.pad 2 mi)) by (apply pad_noChar; exact Hco).
  rewrite (split_app ":" (Civil.pad 2 s)) by (apply pad_noChar; exact Hco).
  cbv beta iota zeta.
  assert (H4 : Js.substring 0 4 (Civil.pad 4 y ++ Civil.pad 2 mo ++ Civil.pad 2 d)
               = Civil.pad 4 y).
  { unfold Js.substring. change (4 - 0) with 4.
    rewrite <- (pad_length 4 y) at 1 2. apply substring_app_head. }
  assert (H6 : Js.substring 4 6 (Civil.pad 4 y ++ Civil.pad 2 mo ++ Civil.pad 2 d)
               = Civil.pad 2 mo).
  { unfold Js.substring. change (6 - 4) with 2.
    rewrite <- (pad_length 4 y) at 1. rewrite substring_app_tail.
    rewrite <- (pad_length 2 mo) at 1. apply substring_app_head. }
  assert (H8 : Js.substring 6 8 (Civil.pad 4 y ++ Civil.pad 2 mo ++ Civil.pad 2 d)
               = Civil.pad 2 d).
  { unfold Js.substring. change (8 - 6) with 2.
    rewrite <- str_app_assoc.
    assert (L6 : String.length (Civil.pad 4 y ++ Civil.pad 2 mo) = 6)
      by (rewrite str_length_app, !pad_length; reflexivity).
    rewrite <- L6 at 1. rewrite substring_app_tail.
    rewrite <- (pad_length 2 d) at 1. apply substring_whole. }
  rewrite H4, H6, H8, convertToUTC_stamp. reflexivity.
Qed.

Lemma secondsOf_clock :
  secondsOf (clockText h mi s) = Some (h * 3600 + mi * 60 + s)%Z.
Proof.
  assert (Hco : Js.decDigit ":" = None) by reflexivity.
  unfold secondsOf, clockText.
  rewrite split_clock by (apply pad_noChar; exact Hco).
  cbv [Js.parseIntAt Js.at_ nth_error].
  rewrite !parseInt_pad2 by lia. reflexivity.
Qed.

End WellFormedStamp.

(** X11. A kept line whose time-stamp field is [YYYYMMDD HH:MM:SS:FF] with
    a date of the calendar and a time of the day is decoded, in a region
    that has a zone, into an entry whose [dateTime] is the ISO text of the
    instant that lies the zone's offset before the local time, whose
    [localDateTime] and [time] are the local date and time of the field
    (the frames are dropped), and whose time of day reads
    [3600 * HH + 60 * MM + SS] seconds. *)
Theorem well_formed_stamp_is_decoded
        {platform : Platform} (content region z : string) (i : nat)
        (line : string) (y mo d h mi s ff : Z)
        (Hline : nth_error (Js.split "010" content) i = Some line)
        (Hkept : lineKept line = true)
        (Hstamp : timestampField line = stampText y mo d h mi s ff)
        (Hzone : getTimezoneForRegion region = ZoneName z)
        (Hy : (0 <= y <= 9999)%Z) (Hmo : (1 <= mo <= 12)%Z)
        (Hd : (1 <= d <= Civil.daysInMonth y mo)%Z)
        (Hh : (0 <= h <= 23)%Z) (Hmi : (0 <= mi <= 59)%Z)
        (Hs : (0 <= s <= 59)%Z) :
  exists e,
    In e (allEntries (parseLogs content region))
    /\ lineNumber e = i + 1
    /\ dateTime e
       = Some (Civil.toISO
                 (Civil.localMillis y mo d h mi s
                  - zoneOffset z (Civil.localMillis y mo d h mi s) * 60000)%Z)
    /\ localDateTime e = Some (localText y mo d h mi s)
    /\ time e = Some (clockText h mi s)
    /\ secondsOf (clockText h mi s) = Some (h * 3600 + mi * 60 + s)%Z.
Proof.
  exists (makeEntry region i line).
  destruct (parseLogs_lists content region) as (Ha & _).
  split; [rewrite Ha; apply (keptEntries_present region _ 0 i line Hline Hkept)|].
  split; [apply makeEntry_lineNumber|].
  pose proof (makeEntry_stamps region i line) as Hst.
  rewrite Hstamp, (parseDateTime_stamp y mo d h mi s ff region z Hzone Hy Hmo Hd Hh Hmi Hs)
    in Hst.
  injection Hst as -> -> ->.
  repeat split. now apply secondsOf_clock.
Qed.

(** X11 at the program line of the Brisbane log. *)
Lemma well_formed_stamp_is_decoded_witness :
  exists e,
    In e (allEntries (@parseLogs Sample.platform Sample.unitedCupLine "BNE"))
    /\ lineNumber e = 0 + 1
    /\ dateTime e
       = Some (Civil.toISO
                 (Civil.localMillis 2026 1 4 6 0 0
                  - @zoneOffset Sample.platform "Australia/Brisbane"
                      (Civil.localMillis 2026 1 4 6 0 0) * 60000)%Z)
    /\ localDateTime e = Some (localText 2026 1 4 6 0 0)
    /\ time e = Some (clockText 6 0 0)
    /\ secondsOf (clockText 6 0 0) = Some (6 * 3600 + 0 * 60 + 0)%Z.
Proof.
  apply (@well_formed_stamp_is_decoded Sample.platform Sample.unitedCupLine "BNE"
           "Australia/Brisbane" 0 Sample.unitedCupLine 2026 1 4 6 0 0 2).
  - vm_compute. reflexivity.
  - vm_compute. reflexivity.
  - vm_compute. reflexivity.
  - reflexivity.
  - lia.
  - lia.
  - change (Civil.daysInMonth 2026 1) with 31%Z. lia.
  - lia.
  - lia.
  - lia.
Defined.


(** ** More on segments *)

Section SegmentMore.
Context {platform : Platform}.

Lemma segmentsFrom_members (rest : list LogEntry) : forall start,
  Forall (fun sg => (startEntry sg = start \/ In (startEntry sg) rest)
                    /\ In (endEntry sg) rest)
         (segmentsFrom start rest).
Proof.
  induction rest as [|cur rest' IH]; intros start; [constructor|].
  destruct rest' as [|next r].
  - simpl. repeat constructor; simpl; auto.
  - change (segmentsFrom start (cur :: next :: r))
      with (if significantGap cur next
            then {| startEntry := start; endEntry := cur |}
                   :: segmentsFrom next (next :: r)
            else segmentsFrom start (next :: r)).
    destruct (significantGap cur next).
    + constructor; [simpl; auto|].
      eapply Forall_impl; [|apply (IH next)].
      intros sg [Hs He]. split; [|right; exact He].
      right. destruct Hs as [H|H]; [rewrite H; right; now left|right; exact H].
    + eapply Forall_impl; [|apply (IH start)].
      intros sg [Hs He]. split; [|right; exact He].
      destruct Hs as [H|H]; [now left|right; right; exact H].
Qed.

Lemma segmentsFrom_first (rest : list LogEntry) : forall start,
  rest <> [] ->
  exists sg tl, segmentsFrom start rest = sg :: tl /\ startEntry sg = start.
Proof.
  induction rest as [|cur rest' IH]; intros start Hne; [contradiction|].
  destruct rest' as [|next r]; [simpl; eauto|].
  change (segmentsFrom start (cur :: next :: r))
    with (if significantGap cur next
          then {| startEntry := start; endEntry := cur |}
                 :: segmentsFrom next (next :: r)
          else segmentsFrom start (next :: r)).
  destruct (significantGap cur next); [eauto|].
  apply IH. discriminate.
Qed.

Lemma segmentsFrom_length (rest : list LogEntry) : forall start,
  List.length (segmentsFrom start rest) <= List.length rest.
Proof.
  induction rest as [|cur rest' IH]; intros start; [simpl; lia|].
  destruct rest' as [|next r]; [simpl; lia|].
  change (segmentsFrom start (cur :: next :: r))
    with (if significantGap cur next
          then {| startEntry := start; endEntry := cur |}
                 :: segmentsFrom next (next :: r)
          else segmentsFrom start (next :: r)).
  destruct (significantGap cur next).
  - specialize (IH next). simpl in *. lia.
  - specialize (IH start). simpl in *. lia.
Qed.

Lemma segmentsFrom_lines (rest : list LogEntry) : forall start,
  StronglySorted lt (map lineNumber rest) ->
  (forall e, In e rest -> lineNumber start <= lineNumber e) ->
  Forall (fun sg => lineNumber (startEntry sg) <= lineNumber (endEntry sg))
         (segmentsFrom start rest)
  /\ neighbours (fun a b => lineNumber (endEntry a) < lineNumber (startEntry b))
                (segmentsFrom start rest).
Proof.
  induction rest as [|cur rest' IH]; intros start Hs Hle; [split; [constructor|exact I]|].
  destruct rest' as [|next r].
  - simpl. split; [|exact I]. repeat constructor. simpl. apply Hle. now left.
  - change (segmentsFrom start (cur :: next :: r))
      with (if significantGap cur next
            then {| startEntry := start; endEntry := cur |}
                   :: segmentsFrom next (next :: r)
            else segmentsFrom start (next :: r)).
    simpl in Hs. inversion Hs as [|? ? Hs' Hall]; subst.
    inversion Hs' as [|? ? Hs'' Hall']; subst.
    destruct (significantGap cur next).
    + destruct (IH next Hs') as [Hf Hn].
      { intros e [<-|He]; [lia|].
        rewrite Forall_forall in Hall'. specialize (Hall' (lineNumber e)).
        assert (lineNumber next < lineNumber e); [|lia].
        apply Hall'. now apply in_map. }
      split.
      * constructor; [simpl; apply Hle; now left|exact Hf].
      * destruct (segmentsFrom_first (next :: r) next) as (sg & tl & E & Hst);
          [discriminate|].
        rewrite E in *. simpl. split; [|exact Hn].
        rewrite Hst. inversion Hall; subst. assumption.
    + apply (IH start Hs'). intros e He. apply Hle. now right.
Qed.

End SegmentMore.

(** X12. The start and end entries of every segment are entries of the
    list that was grouped, there are no more segments than entries, and a
    non-empty list gives at least one segment; when the list is in line
    order, every segment starts at or before the line it ends at, and each
    segment ends before the next one starts. *)
Theorem segments_are_ordered_line_ranges
        {platform : Platform} (l : list LogEntry)
        (Hsorted : StronglySorted lt (map lineNumber l)) :
  Forall (fun sg => In (startEntry sg) l /\ In (endEntry sg) l
                    /\ lineNumber (startEntry sg) <= lineNumber (endEntry sg))
         (buildSegments l)
  /\ neighbours (fun a b => lineNumber (endEntry a) < lineNumber (startEntry b))
                (buildSegments l)
  /\ List.length (buildSegments l) <= List.length l
  /\ (l <> [] -> buildSegments l <> []).
Proof.
  destruct l as [|a l']; [repeat split; [constructor|simpl; lia|congruence]|].
  rewrite (buildSegments_from (a :: l') a). simpl hd.
  assert (Hle : forall e, In e (a :: l') -> lineNumber a <= lineNumber e).
  { intros e [<-|He]; [lia|]. simpl in Hsorted.
    inversion Hsorted as [|? ? _ Hall]; subst.
    rewrite Forall_forall in Hall. specialize (Hall (lineNumber e)).
    assert (lineNumber a < lineNumber e); [|lia]. apply Hall. now apply in_map. }
  destruct (segmentsFrom_lines (a :: l') a Hsorted Hle) as [Hf Hn].
  pose proof (segmentsFrom_members (a :: l') a) as Hm.
  repeat split.
  - rewrite Forall_forall in *. intros sg Hsg.
    destruct (Hm sg Hsg) as [[H|H] H'].
    + repeat split; [rewrite H; now left|exact H'|now apply Hf].
    + repeat split; [exact H|exact H'|now apply Hf].
  - exact Hn.
  - apply segmentsFrom_length.
  - intros _. destruct (segmentsFrom_first (a :: l') a) as (sg & tl & -> & _);
      discriminate.
Qed.

(** X12 at the entries of 06:00, 06:20 and 07:05. *)
Lemma segments_are_ordered_line_ranges_witness :
  StronglySorted lt (map lineNumber [Sample.at0600; Sample.at0620; Sample.at0705])
  /\ neighbours (fun a b => lineNumber (endEntry a) < lineNumber (startEntry b))
                (@buildSegments Sample.platform
                   [Sample.at0600; Sample.at0620; Sample.at0705]).
Proof.
  assert (H : StronglySorted lt
                (map lineNumber [Sample.at0600; Sample.at0620; Sample.at0705]))
    by (simpl; repeat constructor).
  split; [exact H|].
  exact (proj1 (proj2
           (@segments_are_ordered_line_ranges Sample.platform
              [Sample.at0600; Sample.at0620; Sample.at0705] H))).
Defined.

(** ** Where a broadcast comes from *)

Section Provenance.
Context {platform : Platform}.

Lemma buildSegments_members (l : list LogEntry) :
  Forall (fun sg => In (startEntry sg) l /\ In (endEntry sg) l) (buildSegments l).
Proof.
  destruct l as [|a l']; [constructor|].
  rewrite (buildSegments_from (a :: l') a). simpl hd.
  eapply Forall_impl; [|apply (segmentsFrom_members (a :: l') a)].
  intros sg [[H|H] H']; split; auto. rewrite H. now left.
Qed.

Lemma records_created pl all (bs0 : list Broadcast) :
  forall records acc,
    incl records all ->
    (exists new, broadcasts (fst acc) = bs0 ++ new
                 /\ Forall (createdFrom pl all) new) ->
    exists new,
      broadcasts (fst (fold_left (handleRecord pl) records acc)) = bs0 ++ new
      /\ Forall (createdFrom pl all) new.
Proof.
  induction records as [|r records IH]; intros acc Hincl Hacc; [exact Hacc|].
  simpl. apply IH; [intros x Hx; apply Hincl; now right|].
  assert (Hr : In r all) by (apply Hincl; now left).
  unfold handleRecord.
  destruct (parseLogFileName (fileNameMatch r)) as [meta|] eqn:Emeta; [|exact Hacc].
  set (d := parseLogs (objectBody r) (regionCode (fileRegion meta))).
  simpl fst.
  destruct (recordLogFile_tables
              (store (fold_left (processProgram d meta) pl
                        {| store := fst acc; results := snd acc;
                           daysNeedingLogFiles := [] |}))
              (objectKey r) meta
              (daysNeedingLogFiles
                 (fold_left (processProgram d meta) pl
                    {| store := fst acc; results := snd acc;
                       daysNeedingLogFiles := [] |}))) as (_ & _ & ->).
  assert (Hprogs : forall progs fs,
             incl progs pl ->
             (exists new, broadcasts (store fs) = bs0 ++ new
                          /\ Forall (createdFrom pl all) new) ->
             exists new,
               broadcasts (store (fold_left (processProgram d meta) progs fs))
               = bs0 ++ new
               /\ Forall (createdFrom pl all) new).
  { induction progs as [|p progs IHp]; intros fs Hip Hfs; [exact Hfs|].
    simpl. apply IHp; [intros x Hx; apply Hip; now right|].
    assert (Hp : In p pl) by (apply Hip; now left).
    unfold processProgram.
    destruct (Nat.eqb _ 0); [exact Hfs|].
    pose proof (findOrCreateDay_tables (store fs) p (fileDate meta)) as (_ & Hb & _).
    destruct (findOrCreateDay (store fs) p (fileDate meta)) as [st1 day].
    simpl in Hb.
    pose proof (buildSegments_members
                  (filter (titleMatches (keyword p)) (programs d))) as Hmem.
    assert (Hsegs : forall segs acc0,
               Forall (fun sg => In (startEntry sg)
                                    (filter (titleMatches (keyword p)) (programs d))
                                 /\ In (endEntry sg)
                                       (filter (titleMatches (keyword p)) (programs d)))
                      segs ->
               (exists new, broadcasts (fst acc0) = bs0 ++ new
                            /\ Forall (createdFrom pl all) new) ->
               exists new,
                 broadcasts (fst (fold_left (processSegment d p day meta) segs acc0))
                 = bs0 ++ new
                 /\ Forall (createdFrom pl all) new).
    { induction segs as [|seg segs IHs]; intros acc0 Hall H0; [exact H0|].
      simpl. inversion Hall as [|? ? [Hseg _] Hall']; subst.
      apply IHs; [exact Hall'|].
      destruct acc0 as [st0 rs0]. destruct H0 as (new & Hnew & Hf). simpl in Hnew.
      destruct (processSegment_cases d p day meta st0 rs0 seg)
        as [->|(b & row & s & -> & _ & _ & Hc & Hrg & Hst & _ & Hdt & Hpa & _ & Hname & _)];
        [exists new; auto|].
      exists (new ++ [b]). simpl. split; [rewrite Hnew, app_assoc; reflexivity|].
      apply Forall_app. split; [exact Hf|]. constructor; [|constructor].
      split; [exact Hst|].
      apply filter_In in Hseg. destruct Hseg as [Hin Hmatch].
      exists r, meta, p, (startEntry seg), s. repeat split; auto. }
    specialize (Hsegs _ (st1, results fs) Hmem).
    destruct (fold_left _ _ (st1, results fs)) as [st2 rs2]. simpl in *.
    apply Hsegs. rewrite Hb. exact Hfs. }
  apply Hprogs; [apply incl_refl|]. exact Hacc.
Qed.

End Provenance.

(** X13. Every broadcast the handler creates has status PENDING and comes
    from a program entry of one of the files of the event: the title of
    the entry contains the keyword of a catalog program, its [dateTime] is
    set and parses to the start time of the broadcast, the channel and
    region are those of the name of the file, and the name is the title
    followed by the region in brackets. *)
Theorem created_broadcasts_come_from_matched_entries
        {platform : Platform} (records : list S3Record) (st : Store) :
  exists new,
    broadcasts (fst (handler records st)) = broadcasts st ++ new
    /\ Forall (createdFrom (catalog st) records) new.
Proof.
  unfold handler.
  apply (records_created (catalog st) records (broadcasts st) records (st, [])).
  - apply incl_refl.
  - exists []. simpl. split; [now rewrite app_nil_r|constructor].
Qed.


(** ** What the billboard search never returns *)

Lemma Js_le_num (a b : option Z) :
  Js.le a b = true -> exists x y, a = Some x /\ b = Some y /\ (x <= y)%Z.
Proof.
  destruct a as [x|], b as [y|]; simpl; try discriminate.
  intros H. apply Z.leb_le in H. eauto.
Qed.

Lemma Js_lt_num (a b : option Z) :
  Js.lt a b = true -> exists x y, a = Some x /\ b = Some y /\ (x < y)%Z.
Proof.
  destruct a as [x|], b as [y|]; simpl; try discriminate.
  intros H. apply Z.ltb_lt in H. eauto.
Qed.

Lemma inProgramWindow_bounds (logData : ParsedLogData) (p b : LogEntry) :
  inProgramWindow logData p b = true ->
  exists sp sb,
    secondsOfEntry p = Some sp /\ secondsOfEntry b = Some sb /\ (sp <= sb)%Z
    /\ forall q, nextTimedProgram (allEntries logData) p = Some q ->
                 exists sq, secondsOfEntry q = Some sq /\ (sb < sq)%Z.
Proof.
  unfold inProgramWindow. rewrite !Bool.andb_true_iff. intros [[_ _] H].
  destruct (nextTimedProgram (allEntries logData) p) as [q|].
  - apply Bool.andb_true_iff in H. destruct H as [H1 H2].
    apply Js_le_num in H1. destruct H1 as (sp & sb & Ep & Eb & Hle).
    apply Js_lt_num in H2. destruct H2 as (sb' & sq & Eb' & Eq & Hlt).
    exists sp, sb. repeat split; auto.
    intros q' [= <-]. exists sq. split; [exact Eq|]. congruence.
  - apply Js_le_num in H. destruct H as (sp & sb & Ep & Eb & Hle).
    exists sp, sb. repeat split; auto. intros q [=].
Qed.

(** X14. A billboard is returned only when its time of day and that of a
    matching program both read as numbers, the billboard is not before the
    program, and it is strictly before the entry that bounds the window
    when there is one.  So a program whose bounding entry has a time of
    day at or before its own, as when the next program starts after
    midnight, contributes nothing, and when every matching program is like
    that the result is empty. *)
Theorem billboards_lie_inside_numeric_windows
        (logData : ParsedLogData) (kw : string) :
  (forall b, In b (getBillboardsForProgram logData kw) ->
     exists p sp sb,
       In p (programs logData) /\ titleMatches kw p = true
       /\ secondsOfEntry p = Some sp /\ secondsOfEntry b = Some sb
       /\ (sp <= sb)%Z
       /\ forall q, nextTimedProgram (allEntries logData) p = Some q ->
                    exists sq, secondsOfEntry q = Some sq /\ (sb < sq)%Z)
  /\ ((forall p, In p (programs logData) -> titleMatches kw p = true ->
                 Js.truthyOpt (time p) = true ->
                 exists q sp sq,
                   nextTimedProgram (allEntries logData) p = Some q
                   /\ secondsOfEntry p = Some sp /\ secondsOfEntry q = Some sq
                   /\ (sq <= sp)%Z) ->
      getBillboardsForProgram logData kw = []).
Proof.
  assert (Hin : forall b, In b (getBillboardsForProgram logData kw) ->
                exists p, In p (programs logData) /\ titleMatches kw p = true
                          /\ inProgramWindow logData p b = true).
  { intros b Hb. rewrite getBillboardsForProgram_spec in Hb.
    apply appendNew_In in Hb. destruct Hb as [[]|Hb].
    unfold windowBillboards in Hb. apply in_flat_map in Hb.
    destruct Hb as (p & Hp & Hb). apply filter_In in Hp, Hb.
    exists p. tauto. }
  split.
  - intros b Hb. destruct (Hin b Hb) as (p & Hp & Hm & Hw).
    destruct (inProgramWindow_bounds logData p b Hw) as (sp & sb & E1 & E2 & Hle & Hq).
    exists p, sp, sb. repeat split; auto.
  - intros Hwrap.
    destruct (getBillboardsForProgram logData kw) as [|b l] eqn:E; [reflexivity|].
    exfalso. destruct (Hin b) as (p & Hp & Hm & Hw); [now left|].
    destruct (inProgramWindow_bounds logData p b Hw) as (sp & sb & E1 & E2 & Hle & Hq).
    assert (Ht : Js.truthyOpt (time p) = true).
    { unfold inProgramWindow in Hw. rewrite !Bool.andb_true_iff in Hw. tauto. }
    destruct (Hwrap p Hp Hm Ht) as (q & sp' & sq & Eq & E1' & E3 & Hge).
    destruct (Hq q Eq) as (sq' & E3' & Hlt). rewrite E1 in E1'. rewrite E3 in E3'.
    injection E1' as <-. injection E3' as <-. lia.
Qed.

(** The log around midnight: the billboard of 23:45:00 is not returned for
    the program of 23:30:00, whose window is bounded at 00:10:00. *)
Example billboards_across_midnight :
  getBillboardsForProgram Night.log "LATE SHOW" = [].
Proof. reflexivity. Qed.

(** ** Keywords, regions and channels *)

Lemma upper_idempotent (c : ascii) : Js.upper (Js.upper c) = Js.upper c.
Proof. destruct c as [[] [] [] [] [] [] [] []]; reflexivity. Qed.

Lemma toUpperCase_idempotent (s : string) :
  Js.toUpperCase (Js.toUpperCase s) = Js.toUpperCase s.
Proof.
  induction s as [|c s IH]; simpl; [reflexivity|].
  now rewrite upper_idempotent, IH.
Qed.

(** Upper-casing keeps the length of ASCII text. *)
Lemma toUpperCase_length (s : string) :
  Js.isAscii s = true -> String.length (Js.toUpperCase s) = String.length s.
Proof.
  induction s as [|c s IH]; cbn [Js.isAscii Js.toUpperCase String.length];
    [reflexivity|].
  intros H. apply andb_true_iff in H. destruct H as [_ H]. now rewrite IH.
Qed.

Lemma prefix_length (p s : string) :
  String.prefix p s = true -> String.length p <= String.length s.
Proof.
  revert s. induction p as [|c p IH]; intros s H; simpl; [lia|].
  destruct s as [|c' s]; simpl in *; [discriminate|].
  destruct (ascii_dec c c'); [|discriminate]. specialize (IH s H). lia.
Qed.

Lemma prefix_refl (s : string) : String.prefix s s = true.
Proof.
  induction s as [|c s IH]; simpl; [reflexivity|].
  destruct (ascii_dec c c); [exact IH|congruence].
Qed.

Lemma includes_length (needle hay : string) :
  Js.includes needle hay = true -> String.length needle <= String.length hay.
Proof.
  induction hay as [|c hay IH]; cbn [Js.includes]; intros H.
  - rewrite Bool.orb_false_r in H. now apply prefix_length in H.
  - apply Bool.orb_true_iff in H. destruct H as [H|H].
    + apply prefix_length in H. exact H.
    + specialize (IH H). simpl. lia.
Qed.

Lemma includes_self (s : string) : Js.includes s s = true.
Proof.
  destruct s as [|c s]; [reflexivity|].
  unfold Js.includes; fold Js.includes. rewrite prefix_refl. reflexivity.
Qed.

(** X15. The match of a keyword against a title does not depend on the
    case of the letters of either; the empty keyword matches every title;
    a keyword matches a title that is the same up to case; and, for a
    keyword and a title of ASCII characters, a keyword longer than the
    title never matches. *)
Theorem keyword_matching_edges (kw : string) (e : LogEntry) :
  titleMatches (Js.toUpperCase kw) e = titleMatches kw e
  /\ (forall e', Js.toUpperCase (databaseTitle e') = Js.toUpperCase (databaseTitle e) ->
                 titleMatches kw e' = titleMatches kw e)
  /\ titleMatches "" e = true
  /\ (Js.toUpperCase kw = Js.toUpperCase (databaseTitle e) -> titleMatches kw e = true)
  /\ (Js.isAscii kw = true -> Js.isAscii (databaseTitle e) = true ->
      String.length (databaseTitle e) < String.length kw -> titleMatches kw e = false).
Proof.
  unfold titleMatches. repeat split.
  - now rewrite toUpperCase_idempotent.
  - intros e' ->. reflexivity.
  - destruct (Js.toUpperCase (databaseTitle e)); reflexivity.
  - intros ->. apply includes_self.
  - intros Hkw Htitle Hlen.
    destruct (Js.includes _ _) eqn:E; [|reflexivity].
    apply includes_length in E.
    rewrite (toUpperCase_length _ Hkw), (toUpperCase_length _ Htitle) in E. lia.
Qed.

(** X16. Region and channel names of a file are read without regard to
    case; BRI stands for BNE and ADE for ADL; every region a file name can
    resolve to has a zone of its own in the time-zone table, found as an
    own entry of the table, so that decoding a file the handler accepted
    never falls back to the default zone; and different regions have
    different zones. *)
Theorem file_regions_have_their_own_zone :
  (forall s, mapRegion (Js.toUpperCase s) = mapRegion s
             /\ mapChannel (Js.toUpperCase s) = mapChannel s)
  /\ (forall s, Js.toUpperCase s = "BRI" -> mapRegion s = Some BNE)
  /\ (forall s, Js.toUpperCase s = "ADE" -> mapRegion s = Some ADL)
  /\ (forall s r, mapRegion s = Some r ->
        exists z, timezoneMap (regionCode r) = Some z
                  /\ getTimezoneForRegion (regionCode r) = ZoneName z
                  /\ mapRegion (regionCode r) = Some r)
  /\ (forall r1 r2,
        getTimezoneForRegion (regionCode r1) = getTimezoneForRegion (regionCode r2) ->
        r1 = r2).
Proof.
  repeat split.
  - unfold mapRegion. now rewrite toUpperCase_idempotent.
  - unfold mapChannel. now rewrite toUpperCase_idempotent.
  - intros s H. unfold mapRegion. rewrite H. reflexivity.
  - intros s H. unfold mapRegion. rewrite H. reflexivity.
  - intros s r _. destruct r; eexists; repeat split; reflexivity.
  - intros r1 r2. destruct r1, r2; simpl; intros H; try reflexivity; discriminate H.
Qed.


(** X14 on the log around midnight: nothing is returned for the program of
    23:30:00, whose window is bounded at 00:10:00. *)
Lemma billboards_lie_inside_numeric_windows_witness :
  getBillboardsForProgram Night.log "LATE SHOW" = [].
Proof.
  apply (proj2 (billboards_lie_inside_numeric_windows Night.log "LATE SHOW")).
  intros p [<-|[<-|[]]] Hm Ht.
  - exists Night.earlyNews, 84600%Z, 600%Z. repeat split; try reflexivity. lia.
  - discriminate Hm.
Defined.

(** ** The conversion of the test script *)


Lemma daysFromCivil_day (y m d : Z) :
  (Civil.daysFromCivil y m 1 + d - 1 = Civil.daysFromCivil y m d)%Z.
Proof. unfold Civil.daysFromCivil. cbv zeta. lia. Qed.

Lemma daysFromCivil_bounds (y m d : Z) :
  (0 <= y <= 9999 -> 1 <= m <= 12 -> 1 <= d <= 31 ->
   -720000 <= Civil.daysFromCivil y m d <= 3000000)%Z.
Proof.
  intros Hy Hm Hd. unfold Civil.daysFromCivil. cbv zeta.
  destruct (m <=? 2)%Z eqn:E1; destruct (2 <? m)%Z eqn:E2;
    Z.div_mod_to_equations; lia.
Qed.

Lemma Date_UTC_civil (y mo d h mi s : Z) :
  (100 <= y <= 9999 -> 1 <= mo <= 12 -> 1 <= d <= 31 ->
   0 <= h <= 24 -> 0 <= mi <= 59 -> 0 <= s <= 59 ->
   TestTimezone.Date_UTC (Some y) (Js.sub (Some mo) (Some 1)) (Some d)
                         (Some h) (Some mi) (Some s)
   = Some (Civil.localMillis y mo d h mi s))%Z.
Proof.
  intros Hy Hm Hd Hh Hmi Hs. cbn [Js.sub]. unfold TestTimezone.Date_UTC.
  replace ((0 <=? y) && (y <=? 99))%Z with false
    by (symmetry; apply andb_false_iff; right; apply Z.leb_gt; lia).
  cbv zeta.
  replace ((mo - 1) / 12)%Z with 0%Z by (symmetry; apply Z.div_small; lia).
  rewrite (Z.mod_small (mo - 1) 12) by lia.
  replace (y + 0)%Z with y by lia. replace (mo - 1 + 1)%Z with mo by lia.
  rewrite daysFromCivil_day. fold (Civil.localMillis y mo d h mi s).
  pose proof (daysFromCivil_bounds y mo d ltac:(lia) Hm Hd) as Hb.
  assert (Hle : (Z.abs (Civil.localMillis y mo d h mi s) <= 8640000000000000)%Z).
  { unfold Civil.localMillis. lia. }
  apply Z.leb_le in Hle. rewrite Hle. reflexivity.
Qed.

Lemma offsetMinutes_bounds (r : Region) :
  (480 <= TestTimezone.offsetMinutes (regionCode r) <= 600)%Z.
Proof. destruct r; vm_compute; split; discriminate. Qed.

Section TestScript.
Context {platform : Platform}.
Variables (r : Region) (yyyy mm dd hh min ss : string) (y mo d h mi s : Z).
Hypothesis Hstandard : standardTime.
Hypothesis Hyear : Js.parseInt yyyy = Some y.
Hypothesis Hmonth : Js.parseInt mm = Some mo.
Hypothesis Hday : Js.parseInt dd = Some d.
Hypothesis Hhour : Js.parseInt hh = Some h.
Hypothesis Hminute : Js.parseInt min = Some mi.
Hypothesis Hsecond : Js.parseInt ss = Some s.
Hypothesis Hy : (100 <= y <= 9999)%Z.
Hypothesis Hmo : (1 <= mo <= 12)%Z.
Hypothesis Hd : (1 <= d <= Civil.daysInMonth y mo)%Z.
Hypothesis Hh : (0 <= h <= 23)%Z.
Hypothesis Hmi : (0 <= mi <= 59)%Z.
Hypothesis Hs : (0 <= s <= 59)%Z.

(** X17. On a valid civil time of the years 100 to 9999 and a region of a
    log file, the conversion of the test script (fixed offsets, [Date.UTC])
    and the conversion of the log parser (luxon, zone names) return the same
    text, provided the zones keep the offsets of the test script. *)
Theorem test_script_agrees_in_standard_time :
  TestTimezone.convertToUTC yyyy mm dd hh min ss (regionCode r)
  = Returned (Civil.toISO
                (Civil.localMillis y mo d h mi s
                 - TestTimezone.offsetMinutes (regionCode r) * 60000)%Z)
  /\ convertToUTC yyyy mm dd hh min ss (regionCode r)
     = Returned (Some (Civil.toISO
                         (Civil.localMillis y mo d h mi s
                          - TestTimezone.offsetMinutes (regionCode r) * 60000)%Z)).
Proof.
  pose proof (daysInMonth_le y mo) as H31.
  split.
  - unfold TestTimezone.convertToUTC. cbv zeta.
    rewrite Hyear, Hmonth, Hday, Hhour, Hminute, Hsecond.
    rewrite Date_UTC_civil by lia. cbn [Js.mul Js.sub].
    unfold TestTimezone.toISOString.
    pose proof (daysFromCivil_bounds y mo d ltac:(lia) Hmo ltac:(lia)) as Hb.
    pose proof (offsetMinutes_bounds r) as Ho.
    assert (Hle : (Z.abs (Civil.localMillis y mo d h mi s
                          - TestTimezone.offsetMinutes (regionCode r) * 60 * 1000)
                   <= 8640000000000000)%Z).
    { unfold Civil.localMillis. lia. }
    apply Z.leb_le in Hle. rewrite Hle. do 3 f_equal. lia.
  - unfold convertToUTC. cbv zeta.
    rewrite Hyear, Hmonth, Hday, Hhour, Hminute, Hsecond.
    destruct (Hstandard r (Civil.localMillis y mo d h mi s)) as [z [Hz Hoff]].
    rewrite Hz. unfold luxonToUTCISO. rewrite Hoff.
    replace ((1 <=? mo) && (mo <=? 12) && (1 <=? d)
             && (d <=? Civil.daysInMonth y mo)
             && ((0 <=? h) && (h <=? 23) || (h =? 24) && (mi =? 0) && (s =? 0))
             && (0 <=? mi) && (mi <=? 59) && (0 <=? s) && (s <=? 59))%Z with true.
    + reflexivity.
    + symmetry. repeat (apply andb_true_iff; split); try (apply Z.leb_le; lia).
      apply orb_true_iff. left. apply andb_true_iff. split; apply Z.leb_le; lia.
Qed.

End TestScript.

(** X17 on the first case of the test script, with zones kept at their
    standard offsets: both conversions give the text the script expects. *)
Lemma test_script_agrees_in_standard_time_witness :
  TestTimezone.convertToUTC "2026" "01" "04" "00" "00" "59" "BNE"
  = Returned "2026-01-03T14:00:59.000Z"
  /\ @convertToUTC Sample.platform "2026" "01" "04" "00" "00" "59" "BNE"
     = Returned (Some "2026-01-03T14:00:59.000Z").
Proof.
  assert (Hstd : @standardTime Sample.platform).
  { intros r l. destruct r; eexists; split; reflexivity. }
  pose proof (@test_script_agrees_in_standard_time Sample.platform BNE
                "2026" "01" "04" "00" "00" "59" 2026 1 4 0 0 59 Hstd
                eq_refl eq_refl eq_refl eq_refl eq_refl eq_refl
                ltac:(lia) ltac:(lia) ltac:(vm_compute; split; discriminate)
                ltac:(lia) ltac:(lia) ltac:(lia)) as H.
  exact H.
Defined.


(** ** The steps of the analysis pipeline *)

(** X18. Whatever the channel, the region and the instance types of the
    event, the pipeline has three steps with three different names, the
    first step depends on nothing and each later step depends on exactly
    the step before it. *)
Theorem pipeline_steps_form_a_chain (event : Pipeline.LambdaEvent) :
  List.length (Pipeline.steps event) = 3
  /\ NoDup (map Pipeline.Name (Pipeline.steps event))
  /\ Pipeline.chained None (Pipeline.steps event).
Proof.
  destruct event as [b c r dt it].
  split; [reflexivity|]. split.
  - cbn. repeat constructor.
    + intros [H|[H|[]]]; discriminate H.
    + intros [H|[]]; discriminate H.
    + intros [].
  - cbn. repeat split.
Qed.
